(** * ESP-IDF HTTP server component: lifecycle state machine and static
    asset resolver (components/http_server/http_server.cpp).

  The development embeds the C++ module shallowly:

  - [std::string] values are [string]s, a null [const char *] is [None];
  - [esp_err_t] is [Z] with the ESP-IDF constants;
  - the file-scope statics ([s_state], [s_server], [s_task], ...) are the
    fields of one [world] record;
  - effectful functions are programs of a small free monad [prog] whose
    steps are the lock-held sections and the calls to FreeRTOS, the HTTP
    engine and the C library; the replies of those external calls are
    chosen by an environment;
  - the worker task [http_srv_task] is a four-state machine stepped by the
    scheduler. *)

From Stdlib Require Import String Ascii List ZArith Lia Bool Arith PeanoNat.
Import ListNotations.

Local Open Scope string_scope.

(** ** [std::string] / [std::string_view] operations used by the module *)

Module StdString.

(** [s.substr(pos)]: the characters from [pos] to the end. *)
Definition substr (pos : nat) (s : string) : string :=
  substring pos (String.length s - pos) s.

(** [s.resize(n)]: truncate to [n] characters, or pad with NUL. *)
Fixpoint resize (s : string) (n : nat) : string :=
  match n with
  | O => EmptyString
  | S n' =>
      match s with
      | EmptyString => String zero (resize EmptyString n')
      | String c s' => String c (resize s' n')
      end
  end.

(** [s.back()], for a non-empty [s]. *)
Fixpoint back (s : string) : option ascii :=
  match s with
  | EmptyString => None
  | String c EmptyString => Some c
  | String _ s' => back s'
  end.

(** [hay.find(needle)]: position of the first occurrence, [None] for
    [npos]. *)
Fixpoint find (needle hay : string) : option nat :=
  if prefix needle hay then Some 0
  else match hay with
       | EmptyString => None
       | String _ hay' => option_map S (find needle hay')
       end.

End StdString.

Import StdString.

(** ** Static asset resolver *)

(** [ResolvedAsset]: the three out-parameters of [resolve_fs_path]. *)
Record ResolvedAsset : Type := mkAsset {
out_full_path : string;
out_ctype : string;
out_is_gz : bool
}.

(** The mounted volume as seen through [fopen(path, "rb")]: the content of
  the file at [path], if there is one. *)
Definition filesystem : Type := string -> option string.

Definition kDefaultFsBase : string := "/littlefs".
Definition kDefaultFsLabel : string := "littlefs".

Definition resolve_fs_base (cfg : string) : string :=
match cfg with
| EmptyString => kDefaultFsBase
| String c _ => if Ascii.eqb c "/" then cfg else "/" ++ cfg
end.

Definition resolve_fs_label (cfg : string) : string :=
match cfg with
| EmptyString => kDefaultFsLabel
| _ => cfg
end.

Definition has_dotdot (uri : string) : bool :=
match find ".." uri with
| Some _ => true
| None => false
end.

Definition ends_with (s suffix : string) : bool :=
Nat.leb (String.length suffix) (String.length s) &&
(substr (String.length s - String.length suffix) s =? suffix).

Definition content_type_for_path (path_no_gz : string) : string :=
if ends_with path_no_gz ".htm" || ends_with path_no_gz ".html"
then "text/html; charset=utf-8"
else if ends_with path_no_gz ".css" then "text/css; charset=utf-8"
else if ends_with path_no_gz ".js"
then "application/javascript; charset=utf-8"
else if ends_with path_no_gz ".json"
then "application/json; charset=utf-8"
else if ends_with path_no_gz ".svg" then "image/svg+xml"
else if ends_with path_no_gz ".png" then "image/png"
else if ends_with path_no_gz ".jpg" || ends_with path_no_gz ".jpeg"
then "image/jpeg"
else if ends_with path_no_gz ".gif" then "image/gif"
else if ends_with path_no_gz ".ico" then "image/x-icon"
else if ends_with path_no_gz ".woff2" then "font/woff2"
else if ends_with path_no_gz ".woff" then "font/woff"
else if ends_with path_no_gz ".ttf" then "font/ttf"
else if ends_with path_no_gz ".map"
then "application/json; charset=utf-8"
else "text/plain; charset=utf-8".

(** [file_exists]: an [fopen], and the [fclose] of the file if it
  opened; the answer is a look-up in the volume.  A trace shows a call
  of it as the one event [EvFileExists], and [stdio_of] gives the calls
  of the C library that event stands for. *)
Definition file_exists (fs : filesystem) (full_path : string) : bool :=
match fs full_path with
| Some _ => true
| None => false
end.

Section Resolver.

(** [kFsBase], the sanitised mount point. *)
Variable kFsBase : string.

(** The lambda [full] of [resolve_fs_path]. *)
Definition full (p : string) : string := kFsBase ++ p.

(** The logical path: index default, then the [".gz"] suffix removed. *)
Definition logical_path (uri : string) : string :=
  let logical := uri in
  let logical :=
    if negb (logical =? "") &&
       match back logical with
       | Some c => Ascii.eqb c "/"
       | None => false
       end
    then logical ++ "index.html"
    else logical in
  let logical := if logical =? "/" then "/index.html" else logical in
  let requested_gz := ends_with logical ".gz" in
  if requested_gz && Nat.ltb 3 (String.length logical)
  then resize logical (String.length logical - 3)
  else logical.

(** The vector [candidates]. *)
Definition candidates (logical : string) : list string :=
  logical ::
  (if ends_with logical ".html" then
     let alt := resize logical (String.length logical - 5) ++ ".htm" in
     if negb (alt =? logical) then [alt] else []
   else if ends_with logical ".htm" then
     let alt := resize logical (String.length logical - 4) ++ ".html" in
     if negb (alt =? logical) then [alt] else []
   else []).

(** The loop over [candidates].  The second component lists the paths
    handed to [file_exists], in order. *)
Fixpoint probe_candidates (fs : filesystem) (cands : list string)
  : option ResolvedAsset * list string :=
  match cands with
  | [] => (None, [])
  | cand :: rest =>
      let gz := cand ++ ".gz" in
      let gz_full := full gz in
      if file_exists fs gz_full
      then (Some (mkAsset gz_full (content_type_for_path cand) true),
            [gz_full])
      else
        let plain_full := full cand in
        if file_exists fs plain_full
        then (Some (mkAsset plain_full (content_type_for_path cand) false),
              [gz_full; plain_full])
        else
          let '(r, log) := probe_candidates fs rest in
          (r, gz_full :: plain_full :: log)
  end.

(** [resolve_fs_path]: [None] is the [false] return (the out-parameters
    stay cleared). *)
Definition resolve_fs_path (fs : filesystem) (uri : option string)
  : option ResolvedAsset * list string :=
  match uri with
  | None => (None, [])
  | Some u =>
      match u with
      | String c _ =>
          if negb (Ascii.eqb c "/") then (None, [])
          else if has_dotdot u then (None, [])
          else probe_candidates fs (candidates (logical_path u))
      | EmptyString => (None, [])
      end
  end.

(** *** The search as the specification words it *)

(** The files looked for, in order of preference: for each candidate its
    compressed sibling, then the candidate itself.  Each entry carries the
    name the content type is inferred from and the compression flag. *)
Definition spec_preference (cands : list string)
  : list (string * string * bool) :=
  flat_map (fun c => [(c ++ ".gz", c, true); (c, c, false)]) cands.

Definition spec_select (fs : filesystem) (cands : list string)
  : option ResolvedAsset :=
  match List.find (fun e => file_exists fs (kFsBase ++ fst (fst e)))
                  (spec_preference cands) with
  | Some (name, src, gz) =>
      Some (mkAsset (kFsBase ++ name) (content_type_for_path src) gz)
  | None => None
  end.

End Resolver.

(** The candidate list in the words of the specification: the logical path
    itself, followed by the other spelling when the path ends in one of
    [".html"] and [".htm"]. *)
Inductive spec_candidates : string -> list string -> Prop :=
| spec_cand_html (stem : string) :
    spec_candidates (stem ++ ".html") [stem ++ ".html"; stem ++ ".htm"]
| spec_cand_htm (stem : string) :
    spec_candidates (stem ++ ".htm") [stem ++ ".htm"; stem ++ ".html"]
| spec_cand_plain (logical : string) :
    ends_with logical ".html" = false ->
    ends_with logical ".htm" = false ->
    spec_candidates logical [logical].

(** ** Shared state, environment and programs *)

Local Open Scope Z_scope.

(** [esp_err_t] and the codes the module names (esp_err.h,
    esp_http_server.h). *)
Definition esp_err_t : Type := Z.
Definition ESP_OK : esp_err_t := 0.
Definition ESP_FAIL : esp_err_t := -1.
Definition ESP_ERR_INVALID_ARG : esp_err_t := 0x102.
Definition ESP_ERR_INVALID_STATE : esp_err_t := 0x103.
Definition ESP_ERR_NOT_FOUND : esp_err_t := 0x105.
Definition ESP_ERR_NOT_SUPPORTED : esp_err_t := 0x106.
Definition ESP_ERR_TIMEOUT : esp_err_t := 0x107.
Definition ESP_ERR_HTTPD_BASE : esp_err_t := 0xb000.
Definition ESP_ERR_HTTPD_HANDLERS_FULL : esp_err_t := ESP_ERR_HTTPD_BASE + 1.
Definition ESP_ERR_HTTPD_HANDLER_EXISTS : esp_err_t := ESP_ERR_HTTPD_BASE + 2.
Definition ESP_ERR_HTTPD_INVALID_REQ : esp_err_t := ESP_ERR_HTTPD_BASE + 3.

(** [httpd_method_t]; only [HTTP_GET] is named by the module. *)
Definition httpd_method_t : Type := Z.
Definition HTTP_GET : httpd_method_t := 1.

(** [enum class State]. *)
Inductive State : Type := STOPPED | STARTING | RUNNING | STOPPING.

Definition State_eqb (a b : State) : bool :=
  match a, b with
  | STOPPED, STOPPED | STARTING, STARTING
  | RUNNING, RUNNING | STOPPING, STOPPING => true
  | _, _ => false
  end.

(** Control points of [http_srv_task]: before its first locked section,
    blocked in [ulTaskNotifyTake], about to read the exit flag, about to
    run the exit section, and deleted. *)
Inductive task_pc : Type := T_ENTRY | T_WAIT | T_CHECK | T_EXIT | T_DELETED.

(** A FreeRTOS task created from [http_srv_task]: its control point and its
    notification value. *)
Record task : Type := mkTask {
  t_pc : task_pc;
  t_notify : nat
}.

(** The file-scope statics.  A handle is [None] when it is [nullptr];
    [tasks] holds every task [xTaskCreate] has made, a [TaskHandle_t] being
    an index into it; [ready_bit] is [READY_BIT] of the event group
    [s_evt]; [httpd_seq] numbers the server handles [httpd_start] hands
    out. *)
Record world : Type := mkWorld {
  s_mutex : bool;
  s_evt : bool;
  s_server : option nat;
  s_max_open_sockets : Z;
  s_task : option nat;
  s_task_exit : bool;
  s_state : State;
  ready_bit : bool;
  s_fs_mounted : bool;
  tasks : list task;
  httpd_seq : nat
}.

Definition set_s_mutex (x : bool) (w : world) : world :=
  mkWorld x (s_evt w) (s_server w) (s_max_open_sockets w) (s_task w)
          (s_task_exit w) (s_state w) (ready_bit w) (s_fs_mounted w)
          (tasks w) (httpd_seq w).
Definition set_s_evt (x : bool) (w : world) : world :=
  mkWorld (s_mutex w) x (s_server w) (s_max_open_sockets w) (s_task w)
          (s_task_exit w) (s_state w) (ready_bit w) (s_fs_mounted w)
          (tasks w) (httpd_seq w).
Definition set_s_server (x : option nat) (w : world) : world :=
  mkWorld (s_mutex w) (s_evt w) x (s_max_open_sockets w) (s_task w)
          (s_task_exit w) (s_state w) (ready_bit w) (s_fs_mounted w)
          (tasks w) (httpd_seq w).
Definition set_s_max_open_sockets (x : Z) (w : world) : world :=
  mkWorld (s_mutex w) (s_evt w) (s_server w) x (s_task w)
          (s_task_exit w) (s_state w) (ready_bit w) (s_fs_mounted w)
          (tasks w) (httpd_seq w).
Definition set_s_task (x : option nat) (w : world) : world :=
  mkWorld (s_mutex w) (s_evt w) (s_server w) (s_max_open_sockets w) x
          (s_task_exit w) (s_state w) (ready_bit w) (s_fs_mounted w)
          (tasks w) (httpd_seq w).
Definition set_s_task_exit (x : bool) (w : world) : world :=
  mkWorld (s_mutex w) (s_evt w) (s_server w) (s_max_open_sockets w) (s_task w)
          x (s_state w) (ready_bit w) (s_fs_mounted w)
          (tasks w) (httpd_seq w).
Definition set_s_state (x : State) (w : world) : world :=
  mkWorld (s_mutex w) (s_evt w) (s_server w) (s_max_open_sockets w) (s_task w)
          (s_task_exit w) x (ready_bit w) (s_fs_mounted w)
          (tasks w) (httpd_seq w).
Definition set_ready_bit (x : bool) (w : world) : world :=
  mkWorld (s_mutex w) (s_evt w) (s_server w) (s_max_open_sockets w) (s_task w)
          (s_task_exit w) (s_state w) x (s_fs_mounted w)
          (tasks w) (httpd_seq w).
Definition set_s_fs_mounted (x : bool) (w : world) : world :=
  mkWorld (s_mutex w) (s_evt w) (s_server w) (s_max_open_sockets w) (s_task w)
          (s_task_exit w) (s_state w) (ready_bit w) x
          (tasks w) (httpd_seq w).
Definition set_tasks (x : list task) (w : world) : world :=
  mkWorld (s_mutex w) (s_evt w) (s_server w) (s_max_open_sockets w) (s_task w)
          (s_task_exit w) (s_state w) (ready_bit w) (s_fs_mounted w)
          x (httpd_seq w).
Definition set_httpd_seq (x : nat) (w : world) : world :=
  mkWorld (s_mutex w) (s_evt w) (s_server w) (s_max_open_sockets w) (s_task w)
          (s_task_exit w) (s_state w) (ready_bit w) (s_fs_mounted w)
          (tasks w) x.

(** The statics as the program image initialises them. *)
Definition world0 : world :=
  mkWorld false false None 0 None false STOPPED false false [] 0%nat.

(** Replace entry [j] of the task table. *)
Fixpoint update_task (j : nat) (f : task -> task) (l : list task)
  : list task :=
  match l, j with
  | [], _ => []
  | t :: l', O => f t :: l'
  | t :: l', S j' => t :: update_task j' f l'
  end.

(** What the environment answers to the external call of one step: the
    [esp_err_t] of an engine or driver call, whether an allocation
    succeeds, whether a bounded wait ran out, and how many bytes a read
    of the open file delivers at most (a read error shows as a read
    that comes up short). *)
Record reply : Type := mkReply {
  r_rc : esp_err_t;
  r_ok : bool;
  r_expired : bool;
  r_len : nat
}.

(** The two call sites of [vTaskDelay]: the retry back-off of [start] and
    the poll of [stop_worker_task]. *)
Inductive site : Type := Backoff | Poll.

(** Handler function pointers. *)
Inductive handler_fn : Type :=
| handle_root_fn
| handle_favicon_ico_fn
| user_fn (id : nat).

(** Calls that leave the module. *)
Inductive event : Type :=
| EvSemaphoreCreateMutex
| EvEventGroupCreate
| EvSemaphoreDelete
| EvHttpdStart
| EvHttpdStop (srv : nat)
| EvRegisterUri (srv : nat) (uri : string) (method : httpd_method_t)
                (h : handler_fn)
| EvUnregisterUri (srv : nat) (uri : string) (method : httpd_method_t)
| EvTaskCreate
| EvTaskDelete (t : nat)
| EvTaskNotifyGive (t : nat)
| EvTaskDelay (s : site) (ticks : Z)
| EvWaitBits (ticks : Z)
| EvLittlefsRegister (base label : string)
| EvLittlefsInfo (label : string)
| EvFileExists (path : string)
| EvFopen (path : string) (opened : bool)
| EvFclose
| EvRespSetStatus (status : string)
| EvRespSetType (ctype : string)
| EvRespSetHdr (field value : string)
| EvRespSend (body : string)
| EvRespSendChunk (chunk : option string).

(** One atomic step: a lock-held section or one external call. *)
Definition action (A : Type) : Type :=
  reply -> world -> A * world * list event.

(** Programs: finite trees of atomic steps. *)
Inductive prog (R : Type) : Type :=
| Ret (r : R)
| Step (A : Type) (f : action A) (k : A -> prog R).

Arguments Ret {R} r.
Arguments Step {R} A f k.

Fixpoint bind {R S : Type} (p : prog R) (k : R -> prog S) : prog S :=
  match p with
  | Ret r => k r
  | Step A f k' => Step A f (fun a => bind (k' a) k)
  end.

Definition act {A : Type} (f : action A) : prog A := Step A f Ret.

Declare Scope prog_scope.
Delimit Scope prog_scope with prog.
Notation "x <- p ;; q" := (bind p (fun x => q))
  (at level 61, p at next level, right associativity) : prog_scope.
Notation "p ;;; q" := (bind p (fun _ => q))
  (at level 61, right associativity) : prog_scope.
Local Open Scope prog_scope.

(** The environment of one thread: before step [n] the other tasks turn
    the statics from [w] into [others n w]; the external call of step [n]
    is answered by [answer n]. *)
Record env : Type := mkEnv {
  others : nat -> world -> world;
  answer : nat -> reply
}.

(** The outcome of running a program from step [n]. *)
Record outcome (R : Type) : Type := mkOutcome {
  res : R;
  fin : world;
  evs : list event;
  nxt : nat
}.

Arguments mkOutcome {R} res fin evs nxt.
Arguments res {R} o.
Arguments fin {R} o.
Arguments evs {R} o.
Arguments nxt {R} o.

Fixpoint exec {R : Type} (p : prog R) (e : env) (n : nat) (w : world)
  : outcome R :=
  match p with
  | Ret r => mkOutcome r w [] n
  | Step A f k =>
      let '(a, w1, ev) := f (answer e n) (others e n w) in
      let o := exec (k a) e (S n) w1 in
      mkOutcome (res o) (fin o) (ev ++ evs o) (nxt o)
  end.

(** The statics after the other tasks alone have moved [k] times from
    step [n]. *)
Fixpoint drift (e : env) (n k : nat) (w : world) : world :=
  match k with
  | O => w
  | S k' => drift e (S n) k' (others e n w)
  end.

(** [TickType_t] is 32 bits wide: [portMAX_DELAY] and the wrap-around of
    tick arithmetic. *)
Definition portMAX_DELAY : Z := 0xffffffff.
Definition tick_add (a b : Z) : Z := (a + b) mod 2 ^ 32.

(** [xSemaphoreTake(s_mutex, to)]: with [portMAX_DELAY] the caller waits
    until it owns the mutex; a bounded wait may run out. *)
Definition xSemaphoreTake (to : Z) (r : reply) : bool :=
  (to =? portMAX_DELAY) || negb (r_expired r).

Definition lock_mutex (to : Z) (r : reply) (w : world) : bool :=
  if s_mutex w then xSemaphoreTake to r else false.

Definition status_for (code : Z) : string :=
  if code =? 200 then "200 OK"
  else if code =? 202 then "202 Accepted"
  else if code =? 204 then "204 No Content"
  else if code =? 302 then "302 Found"
  else if code =? 400 then "400 Bad Request"
  else if code =? 403 then "403 Forbidden"
  else if code =? 404 then "404 Not Found"
  else if code =? 405 then "405 Method Not Allowed"
  else if code =? 409 then "409 Conflict"
  else if code =? 413 then "413 Payload Too Large"
  else if code =? 415 then "415 Unsupported Media Type"
  else "500 Internal Server Error".

(** The line feed that ends the plain-text bodies. *)
Definition LF : string := String (ascii_of_nat 10) EmptyString.

(** [httpd_req_t], as far as the module reads it. *)
Record httpd_req_t : Type := mkReq { req_uri : string }.

Section Server.

(** Taken from the build: the FreeRTOS tick conversion macro, the socket
    ceiling of [HTTPD_DEFAULT_CONFIG()], the Kconfig switches, and the
    embedded pages of http_pages.hpp. *)
Variable pdMS_TO_TICKS : Z -> Z.
Variable default_max_open_sockets : Z.
Variable CONFIG_HTTP_SERVER_ENABLE_LITTLEFS : bool.
Variable CONFIG_HTTP_SERVER_LITTLEFS_MOUNT : string.
Variable CONFIG_HTTP_SERVER_LITTLEFS_LABEL : string.
Variable kRoot : string.
Variable kFaviconIco : string.

(** The volume the handlers read. *)
Variable fs : filesystem.

Definition kFsBase : string := resolve_fs_base CONFIG_HTTP_SERVER_LITTLEFS_MOUNT.
Definition kFsLabel : string :=
  resolve_fs_label CONFIG_HTTP_SERVER_LITTLEFS_LABEL.

(** *** Mutex helpers *)

(** [notify_worker]: reads [s_task] without the lock. *)
Definition notify_worker : action unit := fun _ w =>
  match s_task w with
  | Some t =>
      (tt,
       set_tasks
         (update_task t (fun k => mkTask (t_pc k) (S (t_notify k))) (tasks w))
         w,
       [EvTaskNotifyGive t])
  | None => (tt, w, [])
  end.

(** [ensure_mutex], first block: the mutex.  The code tests the static,
    creates the mutex and stores the handle without holding a lock; the
    three are one step here, and the static is the fact that a mutex
    exists, not its handle.  That is what the code does when the static
    is set (the block is a read) and when no other first call runs
    between test and store; the theorems about interleaved calls are
    stated from an [initialised] system for this reason. *)
Definition ensure_mutex_sem : action bool := fun r w =>
  if s_mutex w then (true, w, [])
  else if r_ok r then (true, set_s_mutex true w, [EvSemaphoreCreateMutex])
  else (false, w, [EvSemaphoreCreateMutex]).

(** [ensure_mutex], second block: the event group, one step under the
    same proviso; on failure the mutex is deleted and its static
    cleared. *)
Definition ensure_mutex_evt : action bool := fun r w =>
  if s_evt w then (true, w, [])
  else if r_ok r then (true, set_s_evt true w, [EvEventGroupCreate])
  else (false, set_s_mutex false w, [EvEventGroupCreate; EvSemaphoreDelete]).

Definition ensure_mutex : prog bool :=
  m <- act ensure_mutex_sem ;;
  if negb m then Ret false else act ensure_mutex_evt.

(** *** Responses *)

(** The four [httpd_resp_set_hdr] calls of [set_no_cache_headers]. *)
Definition no_cache_headers : list event :=
  [EvRespSetHdr "Cache-Control" "no-cache, no-store, must-revalidate";
   EvRespSetHdr "Pragma" "no-cache";
   EvRespSetHdr "Expires" "0";
   EvRespSetHdr "Vary" "Accept-Encoding"].

Definition set_no_cache_headers : action unit := fun _ w =>
  (tt, w, no_cache_headers).

Definition send_text (code : Z) (ctype : string) (body : option string)
  : prog esp_err_t :=
  act (fun r w =>
         (r_rc r, w,
          [EvRespSetStatus (status_for code);
           EvRespSetType ctype;
           EvRespSend (match body with Some b => b | None => "" end)])).

Definition send_template (req : option httpd_req_t) (tmpl ctype : option string)
           (no_cache : bool) : prog esp_err_t :=
  match req, tmpl, ctype with
  | Some _, Some t, Some c =>
      (if no_cache then act set_no_cache_headers else Ret tt) ;;;
      send_text 200 c (Some t)
  | _, _, _ => Ret ESP_FAIL
  end.

(** *** LittleFS file serving *)

Definition ensure_fs_mounted : prog esp_err_t :=
  act (fun r w =>
         if negb (lock_mutex portMAX_DELAY r w) then (ESP_FAIL, w, [])
         else if s_fs_mounted w then (ESP_OK, w, [])
         else
           let rc := r_rc r in
           if negb (rc =? ESP_OK)
           then (rc, w, [EvLittlefsRegister kFsBase kFsLabel])
           else (ESP_OK, set_s_fs_mounted true w,
                 [EvLittlefsRegister kFsBase kFsLabel;
                  EvLittlefsInfo kFsLabel])).

(** [fread(buf, 1, sizeof(buf), f)] on a file with [data] left to read:
    the bytes delivered are the next 1024 at most, fewer at the end of
    the file and fewer when the read fails; the caller sees the count
    only. *)
Definition fread (r : reply) (data : string) : string :=
  substring 0 (Nat.min 1024 (r_len r)) data.

(** One turn of the read loop of [send_file_stream]: the read and, when
    it delivered something, the send of the chunk.  The answer is what
    was read and the result of the send. *)
Definition read_and_send (data : string) : action (string * esp_err_t) :=
  fun r w =>
    let buf := fread r data in
    if Nat.ltb 0 (String.length buf)
    then ((buf, r_rc r), w, [EvRespSendChunk (Some buf)])
    else ((buf, ESP_OK), w, []).

(** The two ways out of the loop: after a chunk that could not be sent,
    and after a read that came up short. *)
Definition close_after_error (rc : esp_err_t) : action esp_err_t :=
  fun _ w => (rc, w, [EvFclose]).

Definition close_and_finish : action esp_err_t :=
  fun r w => (r_rc r, w, [EvFclose; EvRespSendChunk None]).

(** The read loop of [send_file_stream] over the bytes not yet read.
    [fuel] bounds the number of full buffers. *)
Fixpoint stream_loop (fuel : nat) (data : string) : prog esp_err_t :=
  rd <- act (read_and_send data) ;;
  let n := String.length (fst rd) in
  let rc := snd rd in
  if Nat.ltb 0 n && negb (rc =? ESP_OK) then act (close_after_error rc)
  else if Nat.ltb n 1024 then act close_and_finish
  else
    match fuel with
    | O => act close_and_finish
    | S fuel' => stream_loop fuel' (substr 1024 data)
    end.

Definition send_file_stream (full_path ctype : string) (is_gz : bool)
  : prog esp_err_t :=
  f <- act (fun r w =>
              let f := match fs full_path with
                       | Some data => if r_ok r then Some data else None
                       | None => None
                       end in
              (f, w,
               [EvFopen full_path
                        (match f with Some _ => true | None => false end)])) ;;
  match f with
  | None =>
      send_text 500 "text/plain; charset=utf-8" (Some ("File open failed" ++ LF)%string)
  | Some data =>
      act (fun _ w =>
             (tt, w,
              EvRespSetType ctype ::
              (if is_gz then [EvRespSetHdr "Content-Encoding" "gzip"]
               else []))) ;;;
      act set_no_cache_headers ;;;
      stream_loop (String.length data / 1024) data
  end.

Definition try_serve_from_fs (req : option httpd_req_t) : prog esp_err_t :=
  if negb CONFIG_HTTP_SERVER_ENABLE_LITTLEFS then Ret ESP_ERR_NOT_SUPPORTED
  else
    match req with
    | None => Ret ESP_ERR_HTTPD_INVALID_REQ
    | Some rq =>
        if (req_uri rq =? "")%string then Ret ESP_ERR_HTTPD_INVALID_REQ
        else
          mrc <- ensure_fs_mounted ;;
          if negb (mrc =? ESP_OK) then Ret ESP_ERR_NOT_SUPPORTED
          else
            a <- act (fun _ w =>
                        let '(a, probes) :=
                          resolve_fs_path kFsBase fs (Some (req_uri rq)) in
                        (a, w, map EvFileExists probes)) ;;
            match a with
            | None => Ret ESP_ERR_NOT_FOUND
            | Some (mkAsset full_path ctype is_gz) =>
                send_file_stream full_path ctype is_gz
            end
    end.

(** *** HTTP handlers *)

Definition handle_root (req : option httpd_req_t) : prog esp_err_t :=
  rc <- try_serve_from_fs req ;;
  if rc =? ESP_OK then Ret ESP_OK
  else if negb (rc =? ESP_ERR_NOT_FOUND) && negb (rc =? ESP_ERR_NOT_SUPPORTED)
  then send_text 500 "text/plain; charset=utf-8"
                 (Some ("Internal file server error" ++ LF)%string)
  else send_template req (Some kRoot) (Some "text/html; charset=utf-8") true.

Definition handle_favicon_ico (req : option httpd_req_t) : prog esp_err_t :=
  rc <- try_serve_from_fs req ;;
  if rc =? ESP_OK then Ret ESP_OK
  else if negb (rc =? ESP_ERR_NOT_FOUND) && negb (rc =? ESP_ERR_NOT_SUPPORTED)
  then send_text 500 "text/plain; charset=utf-8"
                 (Some ("Internal file server error" ++ LF)%string)
  else
    act set_no_cache_headers ;;;
    act (fun r w =>
           (r_rc r, w, [EvRespSetType "image/x-icon"; EvRespSend kFaviconIco])).

(** *** Server start/stop and URI registration *)

Definition register_uri_internal (uri : option string)
           (method : httpd_method_t) (handler : option handler_fn)
  : prog esp_err_t :=
  match uri, handler with
  | Some u, Some h =>
      act (fun r w =>
             if negb (lock_mutex portMAX_DELAY r w) then (ESP_FAIL, w, [])
             else
               match s_server w with
               | Some srv =>
                   if negb (State_eqb (s_state w) STARTING) &&
                      negb (State_eqb (s_state w) RUNNING)
                   then (ESP_ERR_INVALID_STATE, w, [])
                   else (r_rc r, w, [EvRegisterUri srv u method h])
               | None => (ESP_ERR_INVALID_STATE, w, [])
               end)
  | _, _ => Ret ESP_ERR_INVALID_ARG
  end.

Definition stop_server : prog unit :=
  to_stop <- act (fun r w =>
                    if negb (lock_mutex portMAX_DELAY r w) then (None, w, [])
                    else
                      match s_server w with
                      | None => (None, w, [])
                      | Some srv => (Some srv, set_s_server None w, [])
                      end) ;;
  match to_stop with
  | None => Ret tt
  | Some srv => act (fun _ w => (tt, w, [EvHttpdStop srv]))
  end.

(** The locked section that opens [start_server]; [Some rc] is an early
    [return rc]. *)
Definition start_server_begin : action (option esp_err_t) := fun r w =>
  if negb (lock_mutex portMAX_DELAY r w) then (Some ESP_FAIL, w, [])
  else
    match s_server w with
    | Some _ => (Some ESP_OK, w, [])
    | None =>
        let w1 := set_s_max_open_sockets default_max_open_sockets w in
        let rc := r_rc r in
        if negb (rc =? ESP_OK)
        then (Some rc, set_s_server None w1, [EvHttpdStart])
        else (None,
              set_httpd_seq (S (httpd_seq w1))
                            (set_s_server (Some (httpd_seq w1)) w1),
              [EvHttpdStart])
    end.

(** The label [fail] of [start_server]. *)
Definition start_server_fail (reg_rc : esp_err_t) : prog esp_err_t :=
  stop_server ;;; Ret reg_rc.

Definition start_server : prog esp_err_t :=
  early <- act start_server_begin ;;
  match early with
  | Some rc => Ret rc
  | None =>
      (if CONFIG_HTTP_SERVER_ENABLE_LITTLEFS
       then ensure_fs_mounted else Ret ESP_OK) ;;;
      reg_rc <- register_uri_internal (Some "/"%string) HTTP_GET
                                      (Some handle_root_fn) ;;
      if negb (reg_rc =? ESP_OK) then start_server_fail reg_rc else
      reg_rc <- register_uri_internal (Some "/index.html"%string) HTTP_GET
                                      (Some handle_root_fn) ;;
      if negb (reg_rc =? ESP_OK) then start_server_fail reg_rc else
      reg_rc <- register_uri_internal (Some "/index.htm"%string) HTTP_GET
                                      (Some handle_root_fn) ;;
      if negb (reg_rc =? ESP_OK) then start_server_fail reg_rc else
      reg_rc <- register_uri_internal (Some "/favicon.ico"%string) HTTP_GET
                                      (Some handle_favicon_ico_fn) ;;
      if negb (reg_rc =? ESP_OK) then start_server_fail reg_rc else
      Ret ESP_OK
  end.

(** *** Worker task *)

Definition set_task_pc (j : nat) (pc : task_pc) (w : world) : world :=
  set_tasks (update_task j (fun k => mkTask pc (t_notify k)) (tasks w)) w.

(** One scheduling of task [j] running [http_srv_task]: [None] when the
    task does not exist, is blocked in [ulTaskNotifyTake] or is deleted. *)
Definition http_srv_task (j : nat) (w : world) : option world :=
  match nth_error (tasks w) j with
  | None => None
  | Some t =>
      match t_pc t with
      | T_ENTRY =>
          Some (set_task_pc j T_WAIT
                  (if s_mutex w then
                     if State_eqb (s_state w) STARTING && s_evt w
                     then set_ready_bit true (set_s_state RUNNING w)
                     else w
                   else w))
      | T_WAIT =>
          match t_notify t with
          | O => None
          | S _ =>
              Some (set_tasks
                      (update_task j (fun _ => mkTask T_CHECK O) (tasks w)) w)
          end
      | T_CHECK =>
          Some (set_task_pc j
                  (if s_mutex w && s_task_exit w then T_EXIT else T_WAIT) w)
      | T_EXIT =>
          let w1 := if s_evt w then set_ready_bit false w else w in
          Some (set_task_pc j T_DELETED
                  (if s_mutex w then set_s_task None w1 else w1))
      | T_DELETED => None
      end
  end.

Definition vTaskDelete (handle : nat) : action unit := fun _ w =>
  (tt, set_task_pc handle T_DELETED w, [EvTaskDelete handle]).

(** [start_worker_task]: the answer [Some b] of a locked section is an
    early [return b]. *)
Definition start_worker_task : prog bool :=
  early <- act (fun r w =>
                  if negb (lock_mutex portMAX_DELAY r w)
                  then (Some false, w, [])
                  else
                    match s_task w with
                    | Some _ => (Some true, w, [])
                    | None => (None, set_s_task_exit false w, [])
                    end) ;;
  match early with
  | Some b => Ret b
  | None =>
      created <- act (fun r w =>
                        if r_ok r
                        then (Some (List.length (tasks w)),
                              set_tasks (tasks w ++ [mkTask T_ENTRY O]) w,
                              [EvTaskCreate])
                        else (None, w, [EvTaskCreate])) ;;
      match created with
      | None => Ret false
      | Some handle =>
          (* [Some b]: delete the new task and return [b]. *)
          dup <- act (fun r w =>
                        if negb (lock_mutex portMAX_DELAY r w)
                        then (Some false, w, [])
                        else
                          match s_task w with
                          | Some _ => (Some true, w, [])
                          | None => (None, set_s_task (Some handle) w, [])
                          end) ;;
          match dup with
          | Some b => act (vTaskDelete handle) ;;; Ret b
          | None => Ret true
          end
      end
  end.

(** The [for] loop of [stop_worker_task] with [i] iterations left. *)
Fixpoint stop_worker_poll (i : nat) : prog bool :=
  match i with
  | O => Ret false
  | S i' =>
      done <- act (fun r w =>
                     if lock_mutex (pdMS_TO_TICKS 50) r w
                     then (match s_task w with
                           | None => true
                           | Some _ => false
                           end, w, [])
                     else (false, w, [])) ;;
      if done then Ret true
      else
        act (fun _ w => (tt, w, [EvTaskDelay Poll (pdMS_TO_TICKS 20)])) ;;;
        stop_worker_poll i'
  end.

Definition stop_worker_task : prog bool :=
  early <- act (fun r w =>
                  if negb (lock_mutex portMAX_DELAY r w)
                  then (Some false, w, [])
                  else
                    match s_task w with
                    | None => (Some true, w, [])
                    | Some _ => (None, set_s_task_exit true w, [])
                    end) ;;
  match early with
  | Some b => Ret b
  | None => act notify_worker ;;; stop_worker_poll 50
  end.

Definition clear_deferred_state : prog unit :=
  act (fun _ w => (tt, w, [])).

(** *** The public interface, namespace [http_srv] *)

Definition kMaxAttempts : nat := 5.
Definition kInitialBackoff : Z := pdMS_TO_TICKS 50.
Definition kWorkerReadyTimeout : Z := pdMS_TO_TICKS 500.

(** [xEventGroupWaitBits(s_evt, READY_BIT, pdFALSE, pdTRUE, ticks)]: the
    call ends when the bit is set or the time is up, and reports the bit
    as it is then. *)
Definition xEventGroupWaitBits (ticks : Z) : action bool := fun _ w =>
  (ready_bit w, w, [EvWaitBits ticks]).

Definition backoff_delay (backoff : Z) : action unit := fun _ w =>
  (tt, w, [EvTaskDelay Backoff backoff]).

(** One iteration of the [for] loop of [start]: [true] when the readiness
    bit was seen (the [return]), [false] after the back-off delay of a
    failed attempt. *)
Definition start_attempt (backoff : Z) : prog bool :=
  srv_ret <- start_server ;;
  if negb (srv_ret =? ESP_OK) then
    act (backoff_delay backoff) ;;; Ret false
  else
    task_ok <- start_worker_task ;;
    if negb task_ok then
      stop_server ;;; act (backoff_delay backoff) ;;; Ret false
    else
      bits <- act (xEventGroupWaitBits kWorkerReadyTimeout) ;;
      if bits then Ret true
      else
        stop_worker_task ;;; stop_server ;;;
        act (backoff_delay backoff) ;;; Ret false.

(** The section after the loop of [start]. *)
Definition start_give_up : action unit := fun r w =>
  if lock_mutex portMAX_DELAY r w
  then (tt, set_ready_bit false (set_s_state STOPPED w), [])
  else (tt, w, []).

(** The loop of [start] with [left] iterations to go. *)
Fixpoint start_attempts (left : nat) (backoff : Z) : prog unit :=
  match left with
  | O => act start_give_up
  | S left' =>
      ready <- start_attempt backoff ;;
      if ready then Ret tt
      else start_attempts left' (tick_add backoff backoff)
  end.

(** The locked section that opens [start]: [false] is the early
    [return]. *)
Definition start_begin : action bool := fun r w =>
  if negb (lock_mutex portMAX_DELAY r w) then (false, w, [])
  else
    match s_state w with
    | RUNNING | STARTING | STOPPING => (false, w, [])
    | STOPPED =>
        (true,
         set_ready_bit false (set_s_task_exit false (set_s_state STARTING w)),
         [])
    end.

Definition start : prog unit :=
  ok <- ensure_mutex ;;
  if negb ok then Ret tt
  else
    go <- act start_begin ;;
    if negb go then Ret tt
    else start_attempts kMaxAttempts kInitialBackoff.

(** The locked section that opens [stop]: [None] is the early [return],
    [Some worker] carries the snapshot of [s_task]. *)
Definition stop_begin : action (option (option nat)) := fun r w =>
  if negb (lock_mutex portMAX_DELAY r w) then (None, w, [])
  else
    match s_state w with
    | STOPPED => (None, w, [])
    | _ =>
        (Some (s_task w),
         set_s_task_exit true (set_ready_bit false (set_s_state STOPPING w)),
         [])
    end.

Definition stop_finish : action unit := fun r w =>
  if lock_mutex portMAX_DELAY r w
  then (tt, set_ready_bit false (set_s_state STOPPED w), [])
  else (tt, w, []).

Definition stop : prog unit :=
  ok <- ensure_mutex ;;
  if negb ok then Ret tt
  else
    go <- act stop_begin ;;
    match go with
    | None => Ret tt
    | Some worker =>
        (match worker with
         | Some _ => act notify_worker
         | None => Ret tt
         end) ;;;
        stop_worker_task ;;;
        clear_deferred_state ;;;
        stop_server ;;;
        act stop_finish
    end.

Definition is_running : prog bool :=
  ok <- ensure_mutex ;;
  if negb ok then Ret false
  else
    act (fun r w =>
           if negb (lock_mutex portMAX_DELAY r w) then (false, w, [])
           else (State_eqb (s_state w) RUNNING, w, [])).

(** The locked section of [wait_until_running]: [Some rc] is a
    [return rc], [None] goes on to wait. *)
Definition wait_until_running_check : action (option esp_err_t) := fun r w =>
  if negb (lock_mutex portMAX_DELAY r w) then (Some ESP_FAIL, w, [])
  else
    match s_state w with
    | RUNNING => (Some ESP_OK, w, [])
    | STOPPED | STOPPING => (Some ESP_ERR_INVALID_STATE, w, [])
    | STARTING => (None, w, [])
    end.

Definition wait_until_running (timeout_ticks : Z) : prog esp_err_t :=
  ok <- ensure_mutex ;;
  if negb ok then Ret ESP_FAIL
  else
    early <- act wait_until_running_check ;;
    match early with
    | Some rc => Ret rc
    | None =>
        bits <- act (xEventGroupWaitBits timeout_ticks) ;;
        Ret (if bits then ESP_OK else ESP_ERR_TIMEOUT)
    end.

Definition register_uri (uri : option string) (method : httpd_method_t)
           (handler : option handler_fn) : prog esp_err_t :=
  match uri, handler with
  | Some u, Some h =>
      ok <- ensure_mutex ;;
      if negb ok then Ret ESP_FAIL
      else
        act (fun r w =>
               if negb (lock_mutex portMAX_DELAY r w) then (ESP_FAIL, w, [])
               else
                 match s_server w with
                 | Some srv =>
                     if negb (State_eqb (s_state w) RUNNING)
                     then (ESP_ERR_INVALID_STATE, w, [])
                     else (r_rc r, w, [EvRegisterUri srv u method h])
                 | None => (ESP_ERR_INVALID_STATE, w, [])
                 end)
  | _, _ => Ret ESP_ERR_INVALID_ARG
  end.

Definition unregister_uri (uri : option string) (method : httpd_method_t)
  : prog esp_err_t :=
  match uri with
  | Some u =>
      ok <- ensure_mutex ;;
      if negb ok then Ret ESP_FAIL
      else
        act (fun r w =>
               if negb (lock_mutex portMAX_DELAY r w) then (ESP_FAIL, w, [])
               else
                 match s_server w with
                 | Some srv =>
                     if negb (State_eqb (s_state w) RUNNING)
                     then (ESP_ERR_INVALID_STATE, w, [])
                     else (r_rc r, w, [EvUnregisterUri srv u method])
                 | None => (ESP_ERR_INVALID_STATE, w, [])
                 end)
  | None => Ret ESP_ERR_INVALID_ARG
  end.

(** *** The tasks of the system, interleaved *)

(** What a task can ask of the module. *)
Inductive api_call : Type :=
| CallStart
| CallStop
| CallIsRunning
| CallWaitUntilRunning (timeout_ticks : Z)
| CallRegisterUri (uri : option string) (method : httpd_method_t)
                  (handler : option handler_fn)
| CallUnregisterUri (uri : option string) (method : httpd_method_t)
| CallHandleRoot (req : option httpd_req_t)
| CallHandleFaviconIco (req : option httpd_req_t).

Definition api_prog (c : api_call) : prog unit :=
  match c with
  | CallStart => start
  | CallStop => stop
  | CallIsRunning => is_running ;;; Ret tt
  | CallWaitUntilRunning t => wait_until_running t ;;; Ret tt
  | CallRegisterUri u m h => register_uri u m h ;;; Ret tt
  | CallUnregisterUri u m => unregister_uri u m ;;; Ret tt
  | CallHandleRoot rq => handle_root rq ;;; Ret tt
  | CallHandleFaviconIco rq => handle_favicon_ico rq ;;; Ret tt
  end.

(** The statics together with what is left to run of every call in
    flight. *)
Record system : Type := mkSystem {
  sw : world;
  threads : list (prog unit)
}.

Definition system0 : system := mkSystem world0 [].

(** The moves of the scheduler: a task enters the module, a call in
    flight takes its next atomic step (with the reply of its external
    call), a worker task is scheduled. *)
Inductive label : Type :=
| LCall (c : api_call)
| LStep (i : nat) (r : reply)
| LTask (j : nat).

Fixpoint replace_nth {A : Type} (i : nat) (x : A) (l : list A) : list A :=
  match l, i with
  | [], _ => []
  | _ :: l', O => x :: l'
  | y :: l', S i' => y :: replace_nth i' x l'
  end.

Definition sys_step (l : label) (s : system) : option system :=
  match l with
  | LCall c => Some (mkSystem (sw s) (threads s ++ [api_prog c]))
  | LStep i r =>
      match nth_error (threads s) i with
      | Some (Step _ f k) =>
          let '(a, w', _) := f r (sw s) in
          Some (mkSystem w' (replace_nth i (k a) (threads s)))
      | _ => None
      end
  | LTask j =>
      match http_srv_task j (sw s) with
      | Some w' => Some (mkSystem w' (threads s))
      | None => None
      end
  end.

Fixpoint sys_run (ls : list label) (s : system) : option system :=
  match ls with
  | [] => Some s
  | l :: ls' =>
      match sys_step l s with
      | Some s' => sys_run ls' s'
      | None => None
      end
  end.


(** ** Observations on programs and traces *)

(** A property of every atomic step of a program. *)
Fixpoint prog_all (P : forall A : Type, action A -> Prop) {R : Type}
         (p : prog R) : Prop :=
  match p with
  | Ret _ => True
  | Step A f k => P A f /\ forall a, prog_all P (k a)
  end.

(** The step emits only events accepted by [ok]. *)
Definition emits (ok : event -> bool) (A : Type) (f : action A) : Prop :=
  forall r w, forallb ok (snd (f r w)) = true.

(** The step keeps the property [I] of the statics. *)
Definition keeps (I : world -> Prop) (A : Type) (f : action A) : Prop :=
  forall r w, I w -> I (snd (fst (f r w))).

(** The mutex and the event group exist. *)
Definition substrate (w : world) : Prop :=
  s_mutex w = true /\ s_evt w = true.




(** The other tasks never delete the mutex or the event group. *)
Definition keeps_substrate (e : env) : Prop :=
  forall n w, substrate w -> substrate (others e n w).

(** [ensure_mutex], run from step [n], answers [true] and leaves the mutex
    and the event group in place: they were there, or their creation
    succeeded. *)
Definition ensure_ok (e : env) (n : nat) (w : world) : Prop :=
  res (exec ensure_mutex e n w) = true /\
  substrate (fin (exec ensure_mutex e n w)).

(** The stages of a start-up attempt as they show in a trace. *)
Inductive milestone : Type :=
| Bringup
| Create
| Wait (ticks : Z)
| BackoffFor (ticks : Z).

Definition milestone_of (ev : event) : list milestone :=
  match ev with
  | EvHttpdStart => [Bringup]
  | EvTaskCreate => [Create]
  | EvWaitBits t => [Wait t]
  | EvTaskDelay Backoff t => [BackoffFor t]
  | _ => []
  end.

Definition milestones (tr : list event) : list milestone :=
  flat_map milestone_of tr.

Definition backoffs (tr : list event) : list Z :=
  flat_map (fun ev => match ev with
                      | EvTaskDelay Backoff t => [t]
                      | _ => []
                      end) tr.

Definition is_milestone (ev : event) : bool :=
  match milestone_of ev with
  | [] => false
  | _ => true
  end.

Definition no_milestone (ev : event) : bool := negb (is_milestone ev).

(** The response headers that switch caching off. *)
Definition is_cache_header (ev : event) : bool :=
  match ev with
  | EvRespSetHdr field _ =>
      (field =? "Cache-Control")%string || (field =? "Pragma")%string ||
      (field =? "Expires")%string || (field =? "Vary")%string
  | _ => false
  end.

Definition is_response_event (ev : event) : bool :=
  match ev with
  | EvRespSetStatus _ | EvRespSetType _ | EvRespSetHdr _ _
  | EvRespSend _ | EvRespSendChunk _ => true
  | _ => false
  end.

Definition is_littlefs_register (ev : event) : bool :=
  match ev with
  | EvLittlefsRegister _ _ => true
  | _ => false
  end.

Definition is_fopen (ok : bool) (ev : event) : bool :=
  match ev with
  | EvFopen _ opened => Bool.eqb opened ok
  | _ => false
  end.

Definition is_any_fopen (ev : event) : bool :=
  match ev with
  | EvFopen _ _ => true
  | _ => false
  end.

Definition is_status_500 (ev : event) : bool :=
  match ev with
  | EvRespSetStatus s => (s =? "500 Internal Server Error")%string
  | _ => false
  end.

(** Calls made while mounting and probing, before any file is opened. *)
Definition is_quiet_event (ev : event) : bool :=
  match ev with
  | EvLittlefsRegister _ _ | EvLittlefsInfo _ | EvFileExists _ => true
  | _ => false
  end.

(** Calls made by the read loop of the streamer. *)
Definition is_stream_event (ev : event) : bool :=
  match ev with
  | EvRespSendChunk _ | EvFclose => true
  | _ => false
  end.

(** The trace before each event that satisfies [P]. *)
Fixpoint prefixes_before (P : event -> bool) (seen tr : list event)
  : list (list event) :=
  match tr with
  | [] => []
  | ev :: tr' =>
      (if P ev then [seen] else []) ++ prefixes_before P (seen ++ [ev]) tr'
  end.

(** The three complete responses the root handler can send by itself. *)
Definition embedded_root_response : list event :=
  no_cache_headers ++
  [EvRespSetStatus "200 OK";
   EvRespSetType "text/html; charset=utf-8";
   EvRespSend kRoot].

Definition internal_error_response : list event :=
  [EvRespSetStatus "500 Internal Server Error";
   EvRespSetType "text/plain; charset=utf-8";
   EvRespSend ("Internal file server error" ++ LF)%string].

Definition file_open_failed_response : list event :=
  [EvRespSetStatus "500 Internal Server Error";
   EvRespSetType "text/plain; charset=utf-8";
   EvRespSend ("File open failed" ++ LF)%string].

(** What [handle_root] sends after [try_serve_from_fs] returned [rc]. *)
Definition root_tail (rc : esp_err_t) : list event :=
  if (rc =? ESP_OK)%Z then []
  else if negb (rc =? ESP_ERR_NOT_FOUND)%Z &&
          negb (rc =? ESP_ERR_NOT_SUPPORTED)%Z
  then internal_error_response
  else embedded_root_response.

(** The shape of one start-up attempt: at most one bring-up of the
    engine, then at most one creation of the worker task, then at most
    one wait on the readiness bit with the given time, then at most one
    back-off delay of the given length. *)
Definition attempt_shape (timeout backoff : Z) (ms : list milestone) : Prop :=
  exists s t wt bk,
    ms = (s ++ t ++ wt ++ bk)%list /\
    (s = [] \/ s = [Bringup]) /\
    (t = [] \/ t = [Create]) /\
    (wt = [] \/ wt = [Wait timeout]) /\
    (bk = [] \/ bk = [BackoffFor backoff]).

(** The back-off before retry [i] as the specification words it: the seed
    of 50 time units doubled [i] times, in 32-bit ticks. *)
Definition spec_backoff (i : nat) : Z :=
  ((pdMS_TO_TICKS 50 * 2 ^ Z.of_nat i) mod 2 ^ 32)%Z.

(** The value of [backoff] after [i] failed attempts. *)
Definition nth_backoff (i : nat) (backoff : Z) : Z :=
  Nat.iter i (fun b => tick_add b b) backoff.

(** How the state variable may change in one step of the system. *)
Definition state_move (by_worker : bool) (ready_after : bool)
           (a b : State) : Prop :=
  a = b \/
  (a = STOPPED /\ b = STARTING /\ by_worker = false) \/
  (a = STARTING /\ b = RUNNING /\ by_worker = true /\ ready_after = true) \/
  ((a = STARTING \/ a = RUNNING) /\ b = STOPPING /\ by_worker = false) \/
  (b = STOPPED /\ by_worker = false).

Definition caller_step_ok (A : Type) (f : action A) : Prop :=
  forall r w,
    state_move false (ready_bit (snd (fst (f r w))))
               (s_state w) (s_state (snd (fst (f r w)))).


(** The data chunks of a response, in the order they were sent. *)
Definition chunks (tr : list event) : list string :=
  flat_map (fun ev => match ev with
                      | EvRespSendChunk (Some c) => [c]
                      | _ => []
                      end) tr.

Definition chunk_event (c : string) : event := EvRespSendChunk (Some c).

(** The bytes a list of chunks carries. *)
Definition body_of (cs : list string) : string :=
  fold_right append ""%string cs.

Definition is_fclose (ev : event) : bool :=
  match ev with
  | EvFclose => true
  | _ => false
  end.

Definition is_file_probe (ev : event) : bool :=
  match ev with
  | EvFileExists _ => true
  | _ => false
  end.

(** A call of the C library on a file: [fopen] with its outcome,
    [fclose]. *)
Inductive stdio_call : Type :=
| StdFopen (path : string) (opened : bool)
| StdFclose.

(** The calls an event stands for.  A probe of [file_exists] is an
    [fopen], followed by the [fclose] when the file opened; the open and
    the close of [send_file_stream] are events of their own. *)
Definition stdio_of (ev : event) : list stdio_call :=
  match ev with
  | EvFileExists p =>
      if file_exists fs p then [StdFopen p true; StdFclose]
      else [StdFopen p false]
  | EvFopen p opened => [StdFopen p opened]
  | EvFclose => [StdFclose]
  | _ => []
  end.

Definition stdio_calls (tr : list event) : list stdio_call :=
  flat_map stdio_of tr.

Definition is_std_fopen (c : stdio_call) : bool :=
  match c with
  | StdFopen _ _ => true
  | StdFclose => false
  end.

(** Whether a file is held after the calls, starting from [held];
    [None] when a file is opened while one is held or a close finds none
    held. *)
Fixpoint files_held (cs : list stdio_call) (held : bool) : option bool :=
  match cs with
  | [] => Some held
  | StdFopen _ true :: cs' => if held then None else files_held cs' true
  | StdFopen _ false :: cs' => files_held cs' held
  | StdFclose :: cs' => if held then files_held cs' false else None
  end.

(** The calls that complete a response: [httpd_resp_send], and
    [httpd_resp_send_chunk] with no data. *)
Definition is_final_send (ev : event) : bool :=
  match ev with
  | EvRespSend _ | EvRespSendChunk None => true
  | _ => false
  end.

(** The trace ends with a call that completes a response. *)
Definition completes (tr : list event) : Prop :=
  exists pre ev, tr = (pre ++ [ev])%list /\ is_final_send ev = true.

(** The complete response of the icon handler when it serves the
    embedded icon. *)
Definition embedded_favicon_response : list event :=
  no_cache_headers ++
  [EvRespSetType "image/x-icon"; EvRespSend kFaviconIco].

(** What [handle_favicon_ico] sends after [try_serve_from_fs] returned
    [rc]. *)
Definition favicon_tail (rc : esp_err_t) : list event :=
  if (rc =? ESP_OK)%Z then []
  else if negb (rc =? ESP_ERR_NOT_FOUND)%Z &&
          negb (rc =? ESP_ERR_NOT_SUPPORTED)%Z
  then internal_error_response
  else embedded_favicon_response.

(** No other task touches the statics during the run. *)
Definition undisturbed (e : env) : Prop :=
  forall m v, others e m v = v.

(** The poll delays of [stop_worker_task] in a trace. *)
Definition poll_delays (tr : list event) : list Z :=
  flat_map (fun ev => match ev with
                      | EvTaskDelay Poll t => [t]
                      | _ => []
                      end) tr.

Definition is_notify (ev : event) : bool :=
  match ev with
  | EvTaskNotifyGive _ => true
  | _ => false
  end.

Definition is_httpd_stop (ev : event) : bool :=
  match ev with
  | EvHttpdStop _ => true
  | _ => false
  end.

Definition is_register (ev : event) : bool :=
  match ev with
  | EvRegisterUri _ _ _ _ => true
  | _ => false
  end.

(** The four registrations of [start_server] on the engine [srv]. *)
Definition builtin_routes (srv : nat) : list event :=
  [EvRegisterUri srv "/" HTTP_GET handle_root_fn;
   EvRegisterUri srv "/index.html" HTTP_GET handle_root_fn;
   EvRegisterUri srv "/index.htm" HTTP_GET handle_root_fn;
   EvRegisterUri srv "/favicon.ico" HTTP_GET handle_favicon_ico_fn].

(** Task [j] scheduled [k] times in a row. *)
Fixpoint run_task (j k : nat) (w : world) : option world :=
  match k with
  | O => Some w
  | S k' =>
      match http_srv_task j w with
      | Some w' => run_task j k' w'
      | None => None
      end
  end.


(** The calls on the engine that [start_server] makes. *)
Definition is_engine_call (ev : event) : bool :=
  match ev with
  | EvHttpdStart | EvHttpdStop _ | EvRegisterUri _ _ _ _ => true
  | _ => false
  end.

(** *** Environments of a start-up *)

(** A reply with which a call succeeds. *)
Definition succeeds (r : reply) : Prop :=
  r_rc r = ESP_OK /\ r_ok r = true.

(** The environment that answers as [e] does and leaves the statics
    alone. *)
Definition answers_of (e : env) : env :=
  mkEnv (fun _ v => v) (answer e).

(** One turn of the worker task whose handle is stored, if it has a step
    to take. *)
Definition worker_turn (v : world) : world :=
  match s_task v with
  | Some j =>
      match http_srv_task j v with
      | Some v' => v'
      | None => v
      end
  | None => v
  end.

(** The other tasks leave the statics alone and the worker task runs
    whenever it can: it takes a turn before every step of the caller. *)
Definition prompt_worker (e : env) : Prop :=
  forall m v, others e m v = worker_turn v.

(** The statics that a bring-up of the engine leaves as they are. *)
Definition task_statics (v : world)
  : bool * bool * State * bool * option nat * bool * list task :=
  (s_mutex v, s_evt v, s_state v, ready_bit v, s_task v, s_task_exit v,
   tasks v).

(** The statics that asking the worker task to exit leaves as they
    are. *)
Definition engine_statics (v : world)
  : bool * bool * State * bool * option nat * option nat * nat :=
  (s_mutex v, s_evt v, s_state v, ready_bit v, s_task v, s_server v,
   httpd_seq v).

(** The calls of the engine in an attempt that brings up engine [srv]
    and gives it up again. *)
Definition engine_round (srv : nat) : list event :=
  (EvHttpdStart :: builtin_routes srv ++ [EvHttpdStop srv])%list.

(** * Properties *)

Local Close Scope Z_scope.

(** ** Strings *)

Lemma append_length (a b : string) : String.length (a ++ b) = String.length a + String.length b.
Proof. induction a as [|c a IH]; simpl; [reflexivity | now rewrite IH]. Qed.

Lemma substring_all (s : string) : substring 0 (String.length s) s = s.
Proof. induction s as [|c s IH]; simpl; [reflexivity | now rewrite IH]. Qed.

Lemma substring_skip (a b : string) (m : nat) :
  substring (String.length a) m (a ++ b) = substring 0 m b.
Proof. induction a as [|c a IH]; simpl; [reflexivity | exact IH]. Qed.

Lemma substring_take (a b : string) :
  substring 0 (String.length a) (a ++ b) = a.
Proof. induction a as [|c a IH]; simpl; [now destruct b | now rewrite IH]. Qed.

Lemma substring_split (s : string) (n : nat) :
  n <= String.length s ->
  s = substring 0 n s ++ substring n (String.length s - n) s.
Proof.
  revert n; induction s as [|c s IH]; intros n Hn; simpl in *.
  - destruct n; [reflexivity | lia].
  - destruct n as [|n]; simpl.
    + now rewrite substring_all.
    + f_equal. apply IH. lia.
Qed.

Lemma substring_length (s : string) (n m : nat) :
  n + m <= String.length s -> String.length (substring n m s) = m.
Proof.
  revert n m; induction s as [|c s IH]; intros n m H; simpl in *.
  - destruct n, m; simpl; lia.
  - destruct n as [|n].
    + destruct m as [|m]; simpl; [reflexivity|]. f_equal. apply IH. lia.
    + apply IH. lia.
Qed.

Lemma resize_take (a b : string) : resize (a ++ b) (String.length a) = a.
Proof. induction a as [|c a IH]; simpl; [reflexivity | now rewrite IH]. Qed.

Lemma back_app (a : string) (c : ascii) (b : string) :
  back (a ++ String c b) = back (String c b).
Proof.
  induction a as [|x a IH]; [reflexivity|].
  change (String x a ++ String c b) with (String x (a ++ String c b)).
  cbn [back]. destruct (a ++ String c b) eqn:E.
  - destruct a; discriminate.
  - exact IH.
Qed.

Lemma prefix_app (a b : string) : prefix a (a ++ b) = true.
Proof.
  induction a as [|c a IH]; simpl; [now destruct b|].
  destruct (ascii_dec c c); [exact IH | congruence].
Qed.

Lemma prefix_inv (a s : string) :
  prefix a s = true -> exists b, s = a ++ b.
Proof.
  revert s; induction a as [|c a IH]; intros s H.
  - now exists s.
  - destruct s as [|d s]; simpl in H; [discriminate|].
    destruct (ascii_dec c d) as [<-|]; [|discriminate].
    destruct (IH _ H) as [b ->]. now exists b.
Qed.

Lemma find_unfold (needle hay : string) :
  find needle hay =
  if prefix needle hay then Some 0
  else match hay with
       | EmptyString => None
       | String _ hay' => option_map S (find needle hay')
       end.
Proof. destruct hay; reflexivity. Qed.

(** [find] succeeds exactly on the strings that contain the needle. *)
Lemma find_some_iff (needle hay : string) :
  (exists n, find needle hay = Some n) <->
  (exists a b, hay = a ++ needle ++ b).
Proof.
  split.
  - induction hay as [|c hay IH]; rewrite find_unfold; intros [n H].
    + destruct (prefix needle "") eqn:P; [|discriminate].
      destruct (prefix_inv _ _ P) as [b Hb]. exists "", b. exact Hb.
    + destruct (prefix needle (String c hay)) eqn:P.
      * destruct (prefix_inv _ _ P) as [b Hb]. exists "", b. exact Hb.
      * destruct (find needle hay) as [k|] eqn:F; [|discriminate].
        destruct IH as (a & b & ->); [now exists k|].
        now exists (String c a), b.
  - intros (a & b & ->). induction a as [|c a IH].
    + rewrite find_unfold. cbn [append]. rewrite prefix_app. now exists 0.
    + destruct IH as [k Hk].
      change (String c a ++ needle ++ b) with (String c (a ++ needle ++ b)).
      rewrite find_unfold, Hk.
      destruct (prefix needle (String c (a ++ needle ++ b)));
        [now exists 0 | now exists (S k)].
Qed.

Lemma substring_skip_add (a b : string) (n m : nat) :
  substring (String.length a + n) m (a ++ b) = substring n m b.
Proof. induction a as [|c a IH]; simpl; [reflexivity | exact IH]. Qed.

Lemma back_singleton_iff (s : string) (c : ascii) :
  back s = Some c <-> exists pre, s = pre ++ String c "".
Proof.
  split.
  - induction s as [|x s IH]; [discriminate|].
    destruct s as [|y s].
    + intros [= ->]. now exists "".
    + intros H. destruct (IH H) as [pre Hpre]. exists (String x pre).
      cbn [append]. now rewrite <- Hpre.
  - intros [pre ->]. now rewrite back_app.
Qed.

(** ** The resolver *)

Lemma ends_with_iff (s suffix : string) :
  ends_with s suffix = true <-> exists pre, s = pre ++ suffix.
Proof.
  unfold ends_with, substr. rewrite andb_true_iff, Nat.leb_le, String.eqb_eq.
  split.
  - intros [Hle Hsub].
    exists (substring 0 (String.length s - String.length suffix) s).
    rewrite <- Hsub at 2.
    apply substring_split. lia.
  - intros [pre ->]. rewrite append_length. split; [lia|].
    replace (String.length pre + String.length suffix - String.length suffix)
      with (String.length pre) by lia.
    replace (String.length pre + String.length suffix - String.length pre)
      with (String.length suffix) by lia.
    now rewrite substring_skip, substring_all.
Qed.

Lemma ends_with_app (a b suffix : string) :
  String.length suffix <= String.length b ->
  ends_with (a ++ b) suffix = ends_with b suffix.
Proof.
  intros Hle. unfold ends_with, substr. rewrite append_length.
  replace (Nat.leb (String.length suffix) (String.length a + String.length b))
    with true by (symmetry; apply Nat.leb_le; lia).
  replace (Nat.leb (String.length suffix) (String.length b))
    with true by (symmetry; apply Nat.leb_le; lia).
  replace (String.length a + String.length b - String.length suffix)
    with (String.length a + (String.length b - String.length suffix)) by lia.
  rewrite substring_skip_add.
  replace (String.length a + String.length b -
           (String.length a + (String.length b - String.length suffix)))
    with (String.length b - (String.length b - String.length suffix)) by lia.
  reflexivity.
Qed.

Lemma has_dotdot_iff (uri : string) :
  has_dotdot uri = true <-> exists a b, uri = a ++ ".." ++ b.
Proof.
  unfold has_dotdot. rewrite <- find_some_iff.
  destruct (find ".." uri) as [n|]; split; intros H; try reflexivity.
  - now exists n.
  - discriminate.
  - destruct H as [n H]. discriminate.
Qed.

Lemma back_eqb_ends_with (s : string) (c : ascii) :
  match back s with Some d => Ascii.eqb d c | None => false end =
  ends_with s (String c "").
Proof.
  destruct (ends_with s (String c "")) eqn:E.
  - apply ends_with_iff in E. apply back_singleton_iff in E. rewrite E.
    apply Ascii.eqb_refl.
  - destruct (back s) as [d|] eqn:B; [|reflexivity].
    destruct (Ascii.eqb_spec d c) as [->|]; [|reflexivity].
    apply back_singleton_iff, ends_with_iff in B. congruence.
Qed.

(** Appending [q] to a path free of [".."] creates no [".."], unless the
    path ends in a dot and [q] starts with one. *)
Lemma find_dotdot_app (p q : string) :
  find ".." p = None ->
  find ".." q = None ->
  (back p = Some "."%char -> prefix "." q = false) ->
  find ".." (p ++ q) = None.
Proof.
  induction p as [|c p IH]; intros Hp Hq Hj; [exact Hq|].
  rewrite find_unfold in Hp.
  destruct (prefix ".." (String c p)) eqn:P; [discriminate|].
  destruct (find ".." p) eqn:F; [discriminate|].
  change (String c p ++ q) with (String c (p ++ q)).
  rewrite find_unfold, IH; trivial.
  - cbn [option_map].
    replace (prefix ".." (String c (p ++ q))) with false; [reflexivity|].
    symmetry. cbn [prefix] in *.
    destruct (ascii_dec "." c) as [<-|]; [|reflexivity].
    destruct p as [|d p].
    + cbn [append]. apply Hj. reflexivity.
    + cbn [append prefix] in *.
      destruct (ascii_dec "." d); [|reflexivity].
      destruct p; discriminate.
  - intros B. apply Hj. destruct p; [discriminate | exact B].
Qed.

Lemma has_dotdot_app (p q : string) :
  has_dotdot p = false ->
  has_dotdot q = false ->
  (ends_with p "." = true -> prefix "." q = false) ->
  has_dotdot (p ++ q) = false.
Proof.
  unfold has_dotdot. intros Hp Hq Hj.
  destruct (find ".." p) eqn:Fp; [discriminate|].
  destruct (find ".." q) eqn:Fq; [discriminate|].
  rewrite find_dotdot_app; trivial.
  intros B. apply Hj. apply ends_with_iff, back_singleton_iff. exact B.
Qed.

Lemma logical_path_plain (p : string) :
  ends_with p "/" = false ->
  ends_with p ".gz" = false ->
  logical_path p = p.
Proof.
  intros Hs Hg. unfold logical_path.
  rewrite back_eqb_ends_with, Hs, andb_false_r.
  destruct (String.eqb_spec p "/") as [->|_]; [discriminate Hs|].
  now rewrite Hg.
Qed.

Lemma logical_path_gz (p : string) :
  p <> "" -> logical_path (p ++ ".gz") = p.
Proof.
  intros Hp. unfold logical_path.
  rewrite back_eqb_ends_with, (ends_with_app p ".gz" "/") by (simpl; lia).
  change (ends_with ".gz" "/") with false. rewrite andb_false_r.
  destruct (String.eqb_spec (p ++ ".gz") "/") as [E|_].
  - apply (f_equal String.length) in E. rewrite append_length in E.
    simpl in E. lia.
  - rewrite (ends_with_app p ".gz" ".gz") by (simpl; lia).
    change (ends_with ".gz" ".gz") with true. rewrite append_length.
    replace (Nat.ltb 3 (String.length p + String.length ".gz")) with true.
    + cbn [andb].
      replace (String.length p + String.length ".gz" - 3)
        with (String.length p) by (simpl; lia).
      apply resize_take.
    + symmetry. apply Nat.ltb_lt. destruct p; [congruence | simpl; lia].
Qed.

Lemma logical_path_dir (p : string) :
  ends_with p "/" = true -> logical_path p = p ++ "index.html".
Proof.
  intros Hs. unfold logical_path.
  rewrite back_eqb_ends_with, Hs.
  destruct (String.eqb_spec p "") as [->|_]; [discriminate Hs|].
  cbn [negb andb].
  destruct (String.eqb_spec (p ++ "index.html") "/") as [E|_].
  - apply (f_equal String.length) in E. rewrite append_length in E.
    simpl in E. lia.
  - rewrite (ends_with_app p "index.html" ".gz") by (simpl; lia).
    reflexivity.
Qed.

Lemma logical_path_index (p : string) :
  logical_path (p ++ "index.html") = p ++ "index.html".
Proof.
  apply logical_path_plain; rewrite ends_with_app by (simpl; lia);
    reflexivity.
Qed.

Lemma candidates_spec (logical : string) :
  spec_candidates logical (candidates logical).
Proof.
  unfold candidates.
  destruct (ends_with logical ".html") eqn:H5.
  - apply ends_with_iff in H5. destruct H5 as [stem ->].
    rewrite append_length.
    replace (String.length stem + String.length ".html" - 5)
      with (String.length stem) by (simpl; lia).
    rewrite resize_take.
    destruct (String.eqb_spec (stem ++ ".htm") (stem ++ ".html")) as [E|_].
    + apply (f_equal String.length) in E. rewrite !append_length in E.
      simpl in E. lia.
    + apply spec_cand_html.
  - destruct (ends_with logical ".htm") eqn:H4.
    + apply ends_with_iff in H4. destruct H4 as [stem ->].
      rewrite append_length.
      replace (String.length stem + String.length ".htm" - 4)
        with (String.length stem) by (simpl; lia).
      rewrite resize_take.
      destruct (String.eqb_spec (stem ++ ".html") (stem ++ ".htm")) as [E|_].
      * apply (f_equal String.length) in E. rewrite !append_length in E.
        simpl in E. lia.
      * apply spec_cand_htm.
    + now apply spec_cand_plain.
Qed.

Lemma probe_candidates_select (base : string) (fsx : filesystem)
      (cands : list string) :
  fst (probe_candidates base fsx cands) = spec_select base fsx cands.
Proof.
  unfold spec_select. induction cands as [|c cands IH]; [reflexivity|].
  cbn [probe_candidates spec_preference flat_map List.app List.find fst].
  unfold full.
  destruct (file_exists fsx (base ++ c ++ ".gz")); [reflexivity|].
  destruct (file_exists fsx (base ++ c)); [reflexivity|].
  destruct (probe_candidates base fsx cands) as [r log]. exact IH.
Qed.

Lemma probe_candidates_none (base : string) (fsx : filesystem)
      (cands : list string) :
  fst (probe_candidates base fsx cands) = None <->
  forall c, In c cands ->
            file_exists fsx (base ++ c ++ ".gz") = false /\
            file_exists fsx (base ++ c) = false.
Proof.
  induction cands as [|c cands IH]; cbn [probe_candidates].
  - split; [intros _ c [] | reflexivity].
  - unfold full.
    destruct (file_exists fsx (base ++ c ++ ".gz")) eqn:G.
    + split; [discriminate|]. intros H.
      destruct (H c (or_introl eq_refl)). congruence.
    + destruct (file_exists fsx (base ++ c)) eqn:P.
      * split; [discriminate|]. intros H.
        destruct (H c (or_introl eq_refl)). congruence.
      * destruct (probe_candidates base fsx cands) as [r log].
        cbn [fst] in *. rewrite IH. split.
        -- intros H d [<-|Hd]; auto.
        -- intros H d Hd. apply H. now right.
Qed.

Lemma resolve_accepted (base : string) (fsx : filesystem) (uri : string) :
  prefix "/" uri = true ->
  has_dotdot uri = false ->
  resolve_fs_path base fsx (Some uri) =
  probe_candidates base fsx (candidates (logical_path uri)).
Proof.
  intros Hs Hd. unfold resolve_fs_path.
  destruct uri as [|c rest]; [discriminate Hs|].
  cbn [prefix] in Hs. destruct (ascii_dec "/" c) as [<-|]; [|discriminate].
  cbn [Ascii.eqb Bool.eqb negb]. change (Ascii.eqb "/" "/") with true.
  cbn [negb]. now rewrite Hd.
Qed.

Lemma resolve_root_alias (base : string) (fsx : filesystem) :
  resolve_fs_path base fsx (Some "/") =
  resolve_fs_path base fsx (Some "/index.html").
Proof. reflexivity. Qed.

Lemma resolve_dir_alias (base : string) (fsx : filesystem) (p : string) :
  prefix "/" p = true ->
  has_dotdot p = false ->
  ends_with p "/" = true ->
  resolve_fs_path base fsx (Some p) =
  resolve_fs_path base fsx (Some (p ++ "index.html")).
Proof.
  intros Hs Hd Hsl.
  rewrite resolve_accepted by assumption.
  rewrite resolve_accepted.
  - now rewrite logical_path_dir, logical_path_index.
  - destruct p as [|c p]; [discriminate|]. cbn [append prefix] in *.
    destruct (ascii_dec "/" c); [|discriminate]. now destruct (p ++ _).
  - apply has_dotdot_app; trivial.
Qed.

(** C3.  For a request path the guards let through, [resolve_fs_path]
    searches the candidate list of the specification (the logical path,
    then the other spelling of a [".html"]/[".htm"] ending), looks for
    each candidate first with [".gz"] appended (compressed, content type
    from the candidate name) and then plain, takes the first file that
    exists, and reports not-found exactly when none does. *)
Theorem resolver_candidate_search (base : string) (fsx : filesystem)
        (uri : string) :
  prefix "/" uri = true ->
  has_dotdot uri = false ->
  spec_candidates (logical_path uri) (candidates (logical_path uri)) /\
  fst (resolve_fs_path base fsx (Some uri)) =
    spec_select base fsx (candidates (logical_path uri)) /\
  (fst (resolve_fs_path base fsx (Some uri)) = None <->
   forall c, In c (candidates (logical_path uri)) ->
             file_exists fsx (base ++ c ++ ".gz") = false /\
             file_exists fsx (base ++ c) = false).
Proof.
  intros Hs Hd. rewrite resolve_accepted by assumption.
  split; [apply candidates_spec|].
  split; [apply probe_candidates_select | apply probe_candidates_none].
Qed.

(** C4.  A request path that contains [".."] anywhere is rejected without
    a single existence probe, whatever the volume holds. *)
Theorem resolver_rejects_dotdot (base : string) (fsx : filesystem)
        (uri : string) :
  (exists a b, uri = a ++ ".." ++ b) ->
  resolve_fs_path base fsx (Some uri) = (None, []).
Proof.
  intros H. apply has_dotdot_iff in H. unfold resolve_fs_path.
  destruct uri as [|c rest]; [reflexivity|].
  destruct (negb (Ascii.eqb c "/")); [reflexivity|].
  now rewrite H.
Qed.

(** C9.  For a path that starts with the separator, has no [".."] and
    does not end in ["/"], ["."] or [".gz"], asking for the path with
    [".gz"] appended resolves exactly as asking for the path itself. *)
Theorem resolver_gz_suffix_same (base : string) (fsx : filesystem)
        (p : string) :
  prefix "/" p = true ->
  has_dotdot p = false ->
  ends_with p "/" = false ->
  ends_with p "." = false ->
  ends_with p ".gz" = false ->
  resolve_fs_path base fsx (Some (p ++ ".gz")) =
  resolve_fs_path base fsx (Some p).
Proof.
  intros Hs Hd Hsl Hdot Hgz.
  rewrite (resolve_accepted base fsx p) by assumption.
  rewrite resolve_accepted.
  - rewrite logical_path_gz, logical_path_plain; trivial.
    intros ->. discriminate.
  - destruct p as [|c p]; [discriminate|]. cbn [append prefix] in *.
    destruct (ascii_dec "/" c); [|discriminate]. now destruct (p ++ _).
  - apply has_dotdot_app; trivial. congruence.
Qed.

(** ** Running programs *)

Lemma outcome_eta {R : Type} (o : outcome R) :
  mkOutcome (res o) (fin o) (evs o) (nxt o) = o.
Proof. now destruct o. Qed.

Lemma exec_bind {R S : Type} (p : prog R) (k : R -> prog S)
      (e : env) (n : nat) (w : world) :
  exec (bind p k) e n w =
  let o1 := exec p e n w in
  let o2 := exec (k (res o1)) e (nxt o1) (fin o1) in
  mkOutcome (res o2) (fin o2) (evs o1 ++ evs o2) (nxt o2).
Proof.
  revert n w. induction p as [r | A f k' IH]; intros n w.
  - cbn. now rewrite outcome_eta.
  - cbn [bind exec]. destruct (f (answer e n) (others e n w)) as [[a w1] ev].
    rewrite IH. cbn. now rewrite List.app_assoc.
Qed.

Lemma exec_act {A : Type} (f : action A) (e : env) (n : nat) (w : world) :
  exec (act f) e n w =
  mkOutcome (fst (fst (f (answer e n) (others e n w))))
            (snd (fst (f (answer e n) (others e n w))))
            (snd (f (answer e n) (others e n w)))
            (S n).
Proof.
  cbn. destruct (f (answer e n) (others e n w)) as [[a w1] ev]. cbn.
  now rewrite List.app_nil_r.
Qed.

Lemma lock_mutex_forever (r : reply) (w : world) :
  lock_mutex portMAX_DELAY r w = s_mutex w.
Proof. unfold lock_mutex. now destruct (s_mutex w). Qed.

(** After a successful [ensure_mutex] the caller goes on from the
    statics it left. *)
Lemma exec_after_ensure {R : Type} (k : bool -> prog R)
      (e : env) (n : nat) (w : world) :
  ensure_ok e n w ->
  exec (bind ensure_mutex k) e n w =
  let oe := exec ensure_mutex e n w in
  let o := exec (k true) e (nxt oe) (fin oe) in
  mkOutcome (res o) (fin o) (evs oe ++ evs o) (nxt o).
Proof. intros [Hres _]. rewrite exec_bind. cbv zeta. now rewrite Hres. Qed.

(** With the mutex and the event group in place [ensure_mutex] only lets
    two steps pass. *)
Lemma ensure_ok_of_substrate (e : env) (n : nat) (w : world) :
  substrate w ->
  keeps_substrate e ->
  ensure_ok e n w /\
  evs (exec ensure_mutex e n w) = [] /\
  fin (exec ensure_mutex e n w) = drift e n 2 w /\
  nxt (exec ensure_mutex e n w) = S (S n).
Proof.
  intros Hw Hk.
  pose proof (Hk n w Hw) as [Hm1 He1].
  pose proof (Hk (S n) _ (conj Hm1 He1)) as [Hm2 He2].
  unfold ensure_ok, ensure_mutex. cbn [bind act exec drift].
  unfold ensure_mutex_sem. rewrite Hm1. cbn [negb bind act exec].
  unfold ensure_mutex_evt. rewrite He2. cbn.
  repeat split; assumption.
Qed.

Lemma exec_emits (ok : event -> bool) {R : Type} (p : prog R)
      (e : env) (n : nat) (w : world) :
  prog_all (emits ok) p -> forallb ok (evs (exec p e n w)) = true.
Proof.
  revert n w. induction p as [r | A f k IH]; intros n w H; [reflexivity|].
  destruct H as [Hf Hk]. cbn [exec].
  specialize (Hf (answer e n) (others e n w)).
  destruct (f (answer e n) (others e n w)) as [[a w1] ev]. cbn in *.
  rewrite forallb_app, Hf. now apply IH.
Qed.

Lemma exec_keeps (I : world -> Prop) {R : Type} (p : prog R)
      (e : env) (n : nat) (w : world) :
  prog_all (keeps I) p ->
  (forall m v, I v -> I (others e m v)) ->
  I w -> I (fin (exec p e n w)).
Proof.
  intros H He. revert n w H.
  induction p as [r | A f k IH]; intros n w H Hw; [exact Hw|].
  destruct H as [Hf Hk]. cbn [exec].
  specialize (Hf (answer e n) (others e n w) (He _ _ Hw)).
  destruct (f (answer e n) (others e n w)) as [[a w1] ev]. cbn in *.
  now apply IH.
Qed.

Lemma prog_all_bind (P : forall A : Type, action A -> Prop) {R S : Type}
      (p : prog R) (k : R -> prog S) :
  prog_all P p -> (forall r, prog_all P (k r)) -> prog_all P (bind p k).
Proof.
  intros Hp Hk. induction p as [r | A f k' IH]; cbn in *; [apply Hk|].
  destruct Hp as [Hf Hk']. split; [exact Hf|]. intros a. now apply IH.
Qed.

Lemma prog_all_act (P : forall A : Type, action A -> Prop) {A : Type}
      (f : action A) :
  P A f -> prog_all P (act f).
Proof. intros H. cbn. now split. Qed.

Lemma ensure_mutex_events (e : env) (n : nat) (w : world) :
  forallb (fun ev => match ev with
                     | EvSemaphoreCreateMutex | EvEventGroupCreate
                     | EvSemaphoreDelete => true
                     | _ => false
                     end)
          (evs (exec ensure_mutex e n w)) = true.
Proof.
  apply exec_emits. unfold ensure_mutex.
  apply prog_all_bind.
  - apply prog_all_act. intros r v. unfold ensure_mutex_sem.
    destruct (s_mutex v), (r_ok r); reflexivity.
  - intros [|]; cbn [negb]; [|exact I].
    apply prog_all_act. intros r v. unfold ensure_mutex_evt.
    destruct (s_evt v), (r_ok r); reflexivity.
Qed.

(** ** The polling and registration interface *)

(** After [ensure_mutex] the caller goes on from the statics it left. *)
Lemma exec_ensure_then {R : Type} (k : bool -> prog R)
      (e : env) (n : nat) (w : world) :
  exec (bind ensure_mutex k) e n w =
  let oe := exec ensure_mutex e n w in
  let o := exec (k (res oe)) e (nxt oe) (fin oe) in
  mkOutcome (res o) (fin o) (evs oe ++ evs o) (nxt o).
Proof. apply exec_bind. Qed.

(** C6, as the code has it.  [wait_until_running] answers [ESP_FAIL]
    when [ensure_mutex] fails or the mutex is gone when it comes to take
    it, whatever the state.  Otherwise it answers [ESP_OK] at once when
    the state is [RUNNING] and [ESP_ERR_INVALID_STATE] at once when it is
    [STOPPED] or [STOPPING]; in [STARTING] it makes one wait on the
    readiness bit, bounded by the given time, and answers [ESP_OK] if the
    bit is then set and [ESP_ERR_TIMEOUT] otherwise.  With a zero time
    every wait on the bit that it makes has no block time (the mutex is
    taken without a bound, as in [is_running]), and in [RUNNING] its
    answer agrees with [is_running]. *)
Theorem wait_until_running_spec (timeout_ticks : Z) (e : env) (n : nat)
        (w : world) :
  let oe := exec ensure_mutex e n w in
  let wc := others e (nxt oe) (fin oe) in
  let o := exec (wait_until_running timeout_ticks) e n w in
  let o0 := exec (wait_until_running 0%Z) e n w in
  (res oe = false ->
   res o = ESP_FAIL /\ evs o = evs oe /\ fin o = fin oe) /\
  (res oe = true -> s_mutex wc = false ->
   res o = ESP_FAIL /\ evs o = evs oe /\ fin o = wc) /\
  (res oe = true -> s_mutex wc = true ->
   match s_state wc with
   | RUNNING => res o = ESP_OK /\ evs o = evs oe /\ fin o = wc
   | STOPPED | STOPPING =>
       res o = ESP_ERR_INVALID_STATE /\ evs o = evs oe /\ fin o = wc
   | STARTING =>
       evs o = (evs oe ++ [EvWaitBits timeout_ticks])%list /\
       fin o = others e (S (nxt oe)) wc /\
       res o = if ready_bit (fin o) then ESP_OK else ESP_ERR_TIMEOUT
   end) /\
  Forall (fun ev => forall t, ev = EvWaitBits t -> t = 0%Z) (evs o0) /\
  (res oe = true -> s_mutex wc = true -> s_state wc = RUNNING ->
   res o0 = ESP_OK /\ res (exec is_running e n w) = true).
Proof.
  intros oe wc o o0. subst o o0.
  assert (Hoe : Forall (fun ev => forall t, ev = EvWaitBits t -> t = 0%Z)
                       (evs oe)).
  { pose proof (ensure_mutex_events e n w) as H. fold oe in H.
    rewrite forallb_forall in H. apply Forall_forall. intros ev Hin t ->.
    specialize (H _ Hin). discriminate. }
  unfold wait_until_running, is_running.
  rewrite !exec_ensure_then. cbv zeta. fold oe.
  destruct (res oe) eqn:Hres; cbn [negb];
    [|cbn [exec res fin evs nxt]; rewrite List.app_nil_r;
      repeat split; trivial; discriminate].
  cbn [bind act exec]. unfold wait_until_running_check.
  rewrite lock_mutex_forever. fold wc.
  destruct (s_mutex wc) eqn:Hm; cbn [negb];
    [|cbn [exec res fin evs nxt fst snd]; rewrite List.app_nil_r;
      repeat split; trivial; discriminate].
  destruct (s_state wc) eqn:St; cbn [res fin evs nxt exec fst snd
    xEventGroupWaitBits List.app State_eqb];
    rewrite ?List.app_nil_r;
    (split; [discriminate|]); (split; [discriminate|]);
    (split; [intros _ _; repeat split|]);
    (split; [|intros _ _ H; try discriminate H; split; reflexivity]);
    trivial.
  apply Forall_app. split; [exact Hoe|].
  constructor; [|constructor]. now intros t [= <-].
Qed.

(** C7, as the code has it.  [register_uri] answers
    [ESP_ERR_INVALID_ARG] for a null path or handler and [unregister_uri]
    for a null path, before anything else.  With the arguments given,
    each answers [ESP_FAIL] when [ensure_mutex] fails or the mutex is
    gone when it comes to take it, whatever the state; otherwise each
    answers [ESP_ERR_INVALID_STATE] unless the state is [RUNNING] and the
    server handle is set, and then hands back what the engine answered,
    so that the engine's handler-exists error of a second registration
    reaches the caller. *)
Theorem register_uri_spec (uri : option string) (method : httpd_method_t)
        (handler : option handler_fn) (e : env) (n : nat) (w : world) :
  let oe := exec ensure_mutex e n w in
  let wc := others e (nxt oe) (fin oe) in
  let o := exec (register_uri uri method handler) e n w in
  let u := exec (unregister_uri uri method) e n w in
  (uri = None \/ handler = None ->
   res o = ESP_ERR_INVALID_ARG /\ evs o = [] /\ fin o = w) /\
  (uri = None -> res u = ESP_ERR_INVALID_ARG /\ evs u = [] /\ fin u = w) /\
  (forall p h, uri = Some p -> handler = Some h ->
     if res oe && s_mutex wc then
       match s_state wc, s_server wc with
       | RUNNING, Some srv =>
           res o = r_rc (answer e (nxt oe)) /\
           evs o = (evs oe ++ [EvRegisterUri srv p method h])%list /\
           (r_rc (answer e (nxt oe)) = ESP_ERR_HTTPD_HANDLER_EXISTS ->
            res o <> ESP_OK)
       | _, _ => res o = ESP_ERR_INVALID_STATE /\ evs o = evs oe
       end
     else res o = ESP_FAIL /\ evs o = evs oe) /\
  (forall p, uri = Some p ->
     if res oe && s_mutex wc then
       match s_state wc, s_server wc with
       | RUNNING, Some srv =>
           res u = r_rc (answer e (nxt oe)) /\
           evs u = (evs oe ++ [EvUnregisterUri srv p method])%list
       | _, _ => res u = ESP_ERR_INVALID_STATE /\ evs u = evs oe
       end
     else res u = ESP_FAIL /\ evs u = evs oe).
Proof.
  intros oe wc o u. subst o u.
  split; [|split; [|split]].
  - intros [-> | ->]; [|destruct uri]; cbn; auto.
  - intros ->. cbn. auto.
  - intros p h -> ->. unfold register_uri.
    rewrite exec_ensure_then. cbv zeta. fold oe.
    destruct (res oe); cbn [negb andb];
      [|cbn [exec res evs]; now rewrite List.app_nil_r].
    cbn [bind act exec]. rewrite lock_mutex_forever. fold wc.
    destruct (s_mutex wc); cbn [negb];
      [|cbn [res evs fst snd]; now rewrite List.app_nil_r].
    destruct (s_state wc), (s_server wc);
      cbn [res fin evs nxt fst snd negb State_eqb];
      rewrite ?List.app_nil_r; repeat split.
    intros ->. discriminate.
  - intros p ->. unfold unregister_uri.
    rewrite exec_ensure_then. cbv zeta. fold oe.
    destruct (res oe); cbn [negb andb];
      [|cbn [exec res evs]; now rewrite List.app_nil_r].
    cbn [bind act exec]. rewrite lock_mutex_forever. fold wc.
    destruct (s_mutex wc); cbn [negb];
      [|cbn [res evs fst snd]; now rewrite List.app_nil_r].
    destruct (s_state wc), (s_server wc);
      cbn [res fin evs nxt fst snd negb State_eqb];
      rewrite ?List.app_nil_r; repeat split.
Qed.

(** ** The handlers *)

Lemma existsb_disjoint (P ok : event -> bool) (l : list event) :
  (forall ev, ok ev = true -> P ev = false) ->
  forallb ok l = true -> existsb P l = false.
Proof.
  intros H. induction l as [|x l IH]; cbn; [reflexivity|].
  rewrite andb_true_iff. intros [Hx Hl]. now rewrite (H x Hx), IH.
Qed.

Lemma prefixes_before_app (P : event -> bool) (seen l1 l2 : list event) :
  prefixes_before P seen (l1 ++ l2) =
  (prefixes_before P seen l1 ++ prefixes_before P (seen ++ l1) l2)%list.
Proof.
  revert seen. induction l1 as [|x l1 IH]; intros seen; cbn.
  - now rewrite List.app_nil_r.
  - rewrite IH, <- !List.app_assoc. reflexivity.
Qed.

Lemma prefixes_before_none (P ok : event -> bool) (seen l : list event) :
  (forall ev, ok ev = true -> P ev = false) ->
  forallb ok l = true -> prefixes_before P seen l = [].
Proof.
  intros H. revert seen. induction l as [|x l IH]; intros seen; cbn;
    [reflexivity|].
  rewrite andb_true_iff. intros [Hx Hl]. now rewrite (H x Hx), IH.
Qed.

(** A property of the three steps of the read loop is a property of
    every step of the loop. *)
Lemma stream_loop_all (P : forall A : Type, action A -> Prop) :
  (forall data, P _ (read_and_send data)) ->
  (forall rc, P _ (close_after_error rc)) ->
  P _ close_and_finish ->
  forall (fuel : nat) (data : string), prog_all P (stream_loop fuel data).
Proof.
  intros Hr He Hf.
  induction fuel as [|fuel IH]; intros data; cbn [stream_loop];
    (apply prog_all_bind; [apply prog_all_act, Hr|]; intros rd; cbv zeta;
     destruct (Nat.ltb 0 _ && negb (snd rd =? ESP_OK)%Z);
     [apply prog_all_act, He|];
     destruct (Nat.ltb _ 1024); [apply prog_all_act, Hf|]).
  - apply prog_all_act, Hf.
  - apply IH.
Qed.

Lemma stream_loop_emits (fuel : nat) (data : string) :
  prog_all (emits is_stream_event) (stream_loop fuel data).
Proof.
  apply stream_loop_all.
  - intros d r w. unfold read_and_send. cbv zeta.
    now destruct (Nat.ltb 0 _).
  - now intros rc r w.
  - now intros r w.
Qed.

Lemma substring_length_min (s : string) (m : nat) :
  String.length (substring 0 m s) = Nat.min m (String.length s).
Proof.
  revert m. induction s as [|c s IH]; intros [|m]; cbn; auto.
Qed.

Lemma substr_length (s : string) (pos : nat) :
  pos <= String.length s ->
  String.length (substr pos s) = String.length s - pos.
Proof. intros H. unfold substr. apply substring_length. lia. Qed.

Lemma fread_length (r : reply) (data : string) :
  String.length (fread r data) =
  Nat.min (Nat.min 1024 (r_len r)) (String.length data).
Proof. apply substring_length_min. Qed.

Lemma read_and_send_buf (data : string) (r : reply) (w : world) :
  fst (fst (fst (read_and_send data r w))) = fread r data.
Proof.
  unfold read_and_send. cbv zeta. now destruct (Nat.ltb 0 _).
Qed.

(** A turn that read a full buffer leaves the rest of a file that held
    at least one. *)
Lemma full_read_rest (data : string) (r : reply) (w : world) (fuel : nat) :
  Nat.ltb (String.length (fst (fst (fst (read_and_send data r w))))) 1024
  = false ->
  String.length data / 1024 <= fuel ->
  exists fuel', fuel = S fuel' /\
                String.length (substr 1024 data) / 1024 <= fuel'.
Proof.
  rewrite read_and_send_buf, fread_length. intros Hn Hf.
  apply Nat.ltb_ge in Hn.
  assert (Hlen : 1024 <= String.length data) by lia.
  assert (Hpos : 1 <= String.length data / 1024)
    by (apply Nat.div_le_lower_bound; lia).
  destruct fuel as [|fuel']; [lia|]. exists fuel'. split; [reflexivity|].
  rewrite substr_length by lia.
  replace (String.length data)
    with (String.length data - 1024 + 1 * 1024) in Hf by lia.
  rewrite Nat.div_add in Hf by lia. lia.
Qed.

(** The read loop never runs out of fuel: any bound that covers the
    number of full buffers of the file gives the same run. *)
Lemma stream_loop_fuel (fuel1 : nat) :
  forall (fuel2 : nat) (data : string) (e : env) (n : nat) (w : world),
    String.length data / 1024 <= fuel1 ->
    String.length data / 1024 <= fuel2 ->
    exec (stream_loop fuel1 data) e n w = exec (stream_loop fuel2 data) e n w.
Proof.
  induction fuel1 as [|fuel1 IH]; intros fuel2 data e n w H1 H2;
    destruct fuel2 as [|fuel2]; cbn [stream_loop];
    rewrite !exec_bind, !exec_act; cbv zeta; cbn [res fin evs nxt];
    (destruct (Nat.ltb 0 _ && negb (_ =? ESP_OK)%Z); [reflexivity|]);
    (destruct (Nat.ltb _ 1024) eqn:Hn; [reflexivity|]);
    try reflexivity.
  - destruct (full_read_rest _ _ _ _ Hn H1) as (f & Hf & _). discriminate.
  - destruct (full_read_rest _ _ _ _ Hn H2) as (f & Hf & _). discriminate.
  - destruct (full_read_rest _ _ _ _ Hn H1) as (f1 & [= <-] & Hr1).
    destruct (full_read_rest _ _ _ _ Hn H2) as (f2 & [= <-] & Hr2).
    now rewrite (IH fuel2 (substr 1024 data)).
Qed.

(** The trace of [send_file_stream]: a failed open followed by the 500
    response, or a successful open followed by the content type, the
    encoding header of a compressed file, the cache headers and the
    chunks. *)
Lemma send_file_stream_trace (full_path ctype : string) (is_gz : bool)
      (e : env) (n : nat) (w : world) :
  let tr := evs (exec (send_file_stream full_path ctype is_gz) e n w) in
  tr = EvFopen full_path false :: file_open_failed_response \/
  exists stream,
    forallb is_stream_event stream = true /\
    tr = (EvFopen full_path true :: EvRespSetType ctype ::
          (if is_gz then [EvRespSetHdr "Content-Encoding" "gzip"] else []) ++
          no_cache_headers ++ stream)%list.
Proof.
  cbn zeta. unfold send_file_stream. rewrite exec_bind, exec_act.
  cbn [res fin evs nxt fst snd].
  destruct (match fs full_path with
            | Some data => if r_ok (answer e n) then Some data else None
            | None => None
            end) as [data|].
  - right. rewrite !exec_bind, !exec_act. cbn [res fin evs nxt fst snd].
    eexists. split; cycle 1.
    { cbn. reflexivity. }
    apply exec_emits, stream_loop_emits.
  - left. reflexivity.
Qed.

(** The trace of [try_serve_from_fs] on a request: calls that mount and
    probe, then nothing more (with a result other than [ESP_OK]) or the
    trace of the streamer. *)
Lemma try_serve_from_fs_trace (rq : httpd_req_t) (e : env) (n : nat)
      (w : world) :
  let o := exec (try_serve_from_fs (Some rq)) e n w in
  exists quiet,
    forallb is_quiet_event quiet = true /\
    ((evs o = quiet /\ res o <> ESP_OK) \/
     (exists path,
        evs o = (quiet ++ EvFopen path false :: file_open_failed_response)%list)
     \/
     (exists (path ctype : string) (is_gz : bool) (stream : list event),
        forallb is_stream_event stream = true /\
        evs o =
        (quiet ++ EvFopen path true :: EvRespSetType ctype ::
         (if is_gz then [EvRespSetHdr "Content-Encoding" "gzip"] else []) ++
         no_cache_headers ++ stream)%list)).
Proof.
  cbn zeta. unfold try_serve_from_fs.
  destruct CONFIG_HTTP_SERVER_ENABLE_LITTLEFS; cbn [negb];
    [|exists (@nil event); split; [reflexivity | left; split; [reflexivity | discriminate]]].
  destruct (String.eqb (req_uri rq) "");
    [exists (@nil event); split; [reflexivity | left; split; [reflexivity | discriminate]]|].
  rewrite exec_bind. cbv zeta.
  set (m := exec ensure_fs_mounted e n w).
  assert (Hm : forallb is_quiet_event (evs m) = true).
  { subst m. unfold ensure_fs_mounted. rewrite exec_act. cbn.
    destruct (lock_mutex _ _ _); cbn; [|reflexivity].
    destruct (s_fs_mounted _); cbn; [reflexivity|].
    now destruct (r_rc (answer e n) =? ESP_OK)%Z. }
  destruct (res m =? ESP_OK)%Z; cbn [negb].
  - rewrite exec_bind, exec_act. cbv zeta. cbn [res fin evs nxt fst snd].
    destruct (resolve_fs_path kFsBase fs (Some (req_uri rq))) as [a probes].
    cbn [res fin evs nxt fst snd].
    assert (Hp : forallb is_quiet_event (evs m ++ map EvFileExists probes)
                 = true).
    { rewrite forallb_app, Hm. cbn [andb]. clear.
      induction probes; cbn; auto. }
    destruct a as [[full_path ctype is_gz]|].
    + exists (evs m ++ map EvFileExists probes)%list. split; [exact Hp|].
      right.
      destruct (send_file_stream_trace full_path ctype is_gz e
                  (S (nxt m)) (others e (nxt m) (fin m)))
        as [H | (stream & Hs & H)].
      * left. exists full_path. cbn [evs].
        rewrite <- List.app_assoc. f_equal. f_equal. exact H.
      * right. exists full_path, ctype, is_gz, stream. split; [exact Hs|].
        cbn [evs]. rewrite <- List.app_assoc. f_equal. f_equal. exact H.
    + exists (evs m ++ map EvFileExists probes)%list. split; [exact Hp|].
      left. split; [cbn [exec evs]; now rewrite List.app_nil_r | discriminate].
  - exists (evs m). split; [exact Hm|]. left.
    split; [cbn [exec evs]; now rewrite List.app_nil_r | discriminate].
Qed.

Lemma handle_root_trace (rq : httpd_req_t) (e : env) (n : nat) (w : world) :
  let o := exec (try_serve_from_fs (Some rq)) e n w in
  evs (exec (handle_root (Some rq)) e n w) = (evs o ++ root_tail (res o))%list.
Proof.
  cbv zeta. unfold handle_root. rewrite exec_bind. cbv zeta. cbn [evs].
  set (o := exec (try_serve_from_fs (Some rq)) e n w).
  f_equal. unfold root_tail.
  destruct (res o =? ESP_OK)%Z; [reflexivity|].
  destruct (negb (res o =? ESP_ERR_NOT_FOUND)%Z &&
            negb (res o =? ESP_ERR_NOT_SUPPORTED)%Z); reflexivity.
Qed.

(** A request that resolves to no file ends in "not supported" or "not
    found", after calls that only mount and probe. *)
Lemma try_serve_unresolved (rq : httpd_req_t) (e : env) (n : nat)
      (w : world) :
  req_uri rq <> "" ->
  fst (resolve_fs_path kFsBase fs (Some (req_uri rq))) = None ->
  let o := exec (try_serve_from_fs (Some rq)) e n w in
  forallb is_quiet_event (evs o) = true /\
  (res o = ESP_ERR_NOT_SUPPORTED \/ res o = ESP_ERR_NOT_FOUND).
Proof.
  intros Hu Hr. cbv zeta. unfold try_serve_from_fs.
  destruct CONFIG_HTTP_SERVER_ENABLE_LITTLEFS; cbn [negb]; [|now split; auto].
  destruct (String.eqb_spec (req_uri rq) ""); [contradiction|].
  rewrite exec_bind. cbv zeta.
  set (m := exec ensure_fs_mounted e n w).
  assert (Hm : forallb is_quiet_event (evs m) = true).
  { subst m. unfold ensure_fs_mounted. rewrite exec_act. cbn.
    destruct (lock_mutex _ _ _); cbn; [|reflexivity].
    destruct (s_fs_mounted _); cbn; [reflexivity|].
    now destruct (r_rc (answer e n) =? ESP_OK)%Z. }
  destruct (res m =? ESP_OK)%Z; cbn [negb].
  - rewrite exec_bind, exec_act. cbv zeta. cbn [res fin evs nxt fst snd].
    destruct (resolve_fs_path kFsBase fs (Some (req_uri rq))) as [a probes].
    cbn [fst] in Hr. subst a. cbn [res fin evs nxt fst snd exec].
    split; [|now right].
    rewrite List.app_nil_r, forallb_app, Hm. cbn [andb]. clear.
    induction probes; cbn; auto.
  - cbn [exec evs res]. rewrite List.app_nil_r. auto.
Qed.

(** C8.  The bare root path and every path that ends in the separator
    are searched as their [index.html]: ["/"] resolves exactly as
    ["/index.html"], and a directory path as the path with [index.html]
    appended.  When the requested path resolves to no file, the root
    handler answers with the embedded page: the cache headers, status
    200, the HTML content type and the embedded body. *)
Theorem root_alias_and_fallback (base : string) (fsx : filesystem)
        (p : string) (rq : httpd_req_t) (e : env) (n : nat) (w : world) :
  resolve_fs_path base fsx (Some "/") =
    resolve_fs_path base fsx (Some "/index.html") /\
  (prefix "/" p = true -> has_dotdot p = false -> ends_with p "/" = true ->
   logical_path p = p ++ "index.html" /\
   resolve_fs_path base fsx (Some p) =
     resolve_fs_path base fsx (Some (p ++ "index.html"))) /\
  (req_uri rq <> "" ->
   fst (resolve_fs_path kFsBase fs (Some (req_uri rq))) = None ->
   filter is_response_event (evs (exec (handle_root (Some rq)) e n w)) =
     embedded_root_response).
Proof.
  split; [apply resolve_root_alias|]. split.
  - intros Hs Hd Hsl. split; [now apply logical_path_dir|].
    now apply resolve_dir_alias.
  - intros Hu Hr. rewrite handle_root_trace. cbv zeta.
    destruct (try_serve_unresolved rq e n w Hu Hr) as [Hq Hres].
    rewrite filter_app.
    replace (filter is_response_event (evs _)) with (@nil event).
    + destruct Hres as [-> | ->]; reflexivity.
    + symmetry. revert Hq. generalize (evs (exec (try_serve_from_fs (Some rq)) e n w)).
      induction l as [|x l IH]; cbn; [reflexivity|].
      rewrite andb_true_iff. intros [Hx Hl].
      destruct x; try discriminate Hx; cbn; auto.
Qed.

Lemma quiet_not_cache (ev : event) :
  is_quiet_event ev = true -> is_cache_header ev = false.
Proof. now destruct ev. Qed.

Lemma quiet_not_opened (ev : event) :
  is_quiet_event ev = true -> is_fopen true ev = false.
Proof. now destruct ev. Qed.

Lemma quiet_not_fopen (ev : event) :
  is_quiet_event ev = true -> is_any_fopen ev = false.
Proof. now destruct ev. Qed.

Lemma quiet_not_500 (ev : event) :
  is_quiet_event ev = true -> is_status_500 ev = false.
Proof. now destruct ev. Qed.

Lemma stream_not_cache (ev : event) :
  is_stream_event ev = true -> is_cache_header ev = false.
Proof. now destruct ev. Qed.

Lemma stream_not_opened (ev : event) :
  is_stream_event ev = true -> is_fopen true ev = false.
Proof. now destruct ev. Qed.

Lemma stream_not_fopen (ev : event) :
  is_stream_event ev = true -> is_any_fopen ev = false.
Proof. now destruct ev. Qed.

Lemma stream_not_500 (ev : event) :
  is_stream_event ev = true -> is_status_500 ev = false.
Proof. now destruct ev. Qed.

Lemma embedded_root_no_500 (seen : list event) :
  prefixes_before is_status_500 seen embedded_root_response = [].
Proof. reflexivity. Qed.

Lemma embedded_root_no_fopen (seen : list event) :
  prefixes_before is_any_fopen seen embedded_root_response = [].
Proof. reflexivity. Qed.

(** C10, as the code has it.  In every run of the root handler on a
    request: no cache header is set before a file is opened; cache
    headers are set only if the file was opened or the trace ends in the
    embedded page; and each 500 response is sent with cache headers
    already set on the request exactly when the file had been opened
    before it, so the 500 of a failed open is sent without them and the
    500 that follows a failure of the streamer after the open is sent
    with them. *)
Theorem cache_headers_spec (rq : httpd_req_t) (e : env) (n : nat)
        (w : world) :
  let tr := evs (exec (handle_root (Some rq)) e n w) in
  Forall (fun pre => existsb is_cache_header pre = false)
         (prefixes_before is_any_fopen [] tr) /\
  (existsb is_cache_header tr = true ->
   existsb (is_fopen true) tr = true \/
   exists pre, tr = (pre ++ embedded_root_response)%list) /\
  Forall (fun pre => existsb is_cache_header pre =
                     existsb (is_fopen true) pre)
         (prefixes_before is_status_500 [] tr).
Proof.
  cbv zeta. rewrite handle_root_trace. cbv zeta.
  destruct (try_serve_from_fs_trace rq e n w) as (quiet & Hq & Hshape).
  cbv zeta in Hshape.
  set (o := exec (try_serve_from_fs (Some rq)) e n w) in *.
  pose proof (existsb_disjoint _ _ _ quiet_not_cache Hq) as Qc.
  pose proof (existsb_disjoint _ _ _ quiet_not_opened Hq) as Qo.
  pose proof (fun seen =>
                prefixes_before_none _ _ seen _ quiet_not_fopen Hq) as Qf.
  pose proof (fun seen =>
                prefixes_before_none _ _ seen _ quiet_not_500 Hq) as Q5.
  assert (Tail : root_tail (res o) = [] \/
                 root_tail (res o) = internal_error_response \/
                 root_tail (res o) = embedded_root_response).
  { unfold root_tail. destruct (res o =? ESP_OK)%Z; auto.
    destruct (negb _ && negb _); auto. }
  destruct Hshape as [[-> Hne] | [(path & ->) | (path & ctype & is_gz & stream & Hs & ->)]].
  - (* nothing was opened *)
    rewrite !prefixes_before_app, Qf, Q5. cbn [List.app].
    destruct Tail as [-> | [-> | ->]]; cbn [prefixes_before is_any_fopen
      is_status_500 internal_error_response embedded_root_response
      no_cache_headers List.app String.eqb Ascii.eqb Bool.eqb];
      rewrite ?List.app_nil_r, ?existsb_app, ?Qc, ?Qo;
      (split; [repeat constructor | split; [|repeat constructor]]);
      try (intros _; right; now exists quiet);
      try (cbn; intros; congruence);
      try (rewrite ?existsb_app, ?Qc, ?Qo; reflexivity).
  - (* the open failed *)
    rewrite <- !List.app_assoc.
    rewrite !prefixes_before_app, Qf, Q5. cbn [List.app].
    destruct Tail as [-> | [-> | ->]]; cbn [prefixes_before is_any_fopen
      is_status_500 internal_error_response embedded_root_response
      file_open_failed_response
      no_cache_headers List.app String.eqb Ascii.eqb Bool.eqb];
      rewrite ?List.app_nil_r, ?existsb_app, ?Qc, ?Qo;
      (split; [repeat constructor | split; [|repeat constructor]]);
      try (intros _; right;
           now exists (quiet ++ EvFopen path false :: file_open_failed_response)%list;
           rewrite <- List.app_assoc);
      try (cbn; intros; congruence);
      try (rewrite ?existsb_app, ?Qc, ?Qo; reflexivity).
  - (* the file was opened *)
    pose proof (existsb_disjoint _ _ _ stream_not_cache Hs) as Sc.
    pose proof (existsb_disjoint _ _ _ stream_not_opened Hs) as So.
    pose proof (fun seen =>
                  prefixes_before_none _ _ seen _ stream_not_fopen Hs) as Sf.
    pose proof (fun seen =>
                  prefixes_before_none _ _ seen _ stream_not_500 Hs) as S5.
    split; [|split].
    + rewrite <- !List.app_assoc.
      rewrite !prefixes_before_app, Qf. cbn [List.app prefixes_before is_any_fopen].
      rewrite !prefixes_before_app.
      replace (prefixes_before is_any_fopen _
                 (if is_gz then [EvRespSetHdr "Content-Encoding" "gzip"]
                  else [])) with (@nil (list event)) by now destruct is_gz.
      cbn [List.app no_cache_headers prefixes_before is_any_fopen].
      rewrite Sf. cbn [List.app].
      replace (prefixes_before is_any_fopen _ (root_tail (res o)))
        with (@nil (list event))
        by (destruct Tail as [-> | [-> | ->]]; reflexivity).
      repeat constructor. exact Qc.
    + intros _. left. rewrite !existsb_app. cbn [existsb is_fopen Bool.eqb orb].
      now rewrite orb_true_r.
    + rewrite <- !List.app_assoc.
      rewrite !prefixes_before_app, Q5.
      cbn [List.app prefixes_before is_status_500].
      rewrite !prefixes_before_app.
      replace (prefixes_before is_status_500 _
                 (if is_gz then [EvRespSetHdr "Content-Encoding" "gzip"]
                  else [])) with (@nil (list event)) by now destruct is_gz.
      cbn [List.app no_cache_headers prefixes_before is_status_500].
      rewrite S5. cbn [List.app].
      destruct Tail as [-> | [-> | ->]]; cbn [prefixes_before is_status_500
        internal_error_response embedded_root_response no_cache_headers
        List.app String.eqb Ascii.eqb Bool.eqb]; repeat constructor.
      rewrite !existsb_app, Qc, Qo. cbn.
      rewrite !existsb_app. cbn. now rewrite !orb_true_r.
Qed.

(** C5, as the code has it.  With the mutex in place: once the volume is
    mounted [ensure_fs_mounted] is a no-op that answers [ESP_OK]; while it
    is not mounted every call makes a mount attempt, hands back what the
    driver answered and records only a success, so a failure is tried
    again by the next call; and a resolution call whose mount attempt
    fails answers "not supported". *)
Theorem mount_memo_spec (rq : httpd_req_t) (e : env) (n : nat) (w : world) :
  CONFIG_HTTP_SERVER_ENABLE_LITTLEFS = true ->
  req_uri rq <> "" ->
  s_mutex (others e n w) = true ->
  let w1 := others e n w in
  let m := exec ensure_fs_mounted e n w in
  let o := exec (try_serve_from_fs (Some rq)) e n w in
  (s_fs_mounted w1 = true ->
   res m = ESP_OK /\ evs m = [] /\ fin m = w1) /\
  (s_fs_mounted w1 = false ->
   existsb is_littlefs_register (evs m) = true /\
   res m = r_rc (answer e n) /\
   s_fs_mounted (fin m) = (r_rc (answer e n) =? ESP_OK)%Z) /\
  (res m <> ESP_OK ->
   res o = ESP_ERR_NOT_SUPPORTED /\ evs o = evs m /\ fin o = fin m).
Proof.
  intros Hen Hu Hm w1 m o. subst m o.
  unfold try_serve_from_fs. rewrite Hen. cbn [negb].
  destruct (String.eqb_spec (req_uri rq) ""); [contradiction|].
  rewrite exec_bind. cbv zeta.
  unfold ensure_fs_mounted. rewrite exec_act. fold w1.
  rewrite lock_mutex_forever. fold w1 in Hm. rewrite Hm.
  cbn [negb res fin evs nxt fst snd].
  destruct (s_fs_mounted w1) eqn:Mt.
  - cbn [res fin evs nxt fst snd].
    split; [auto|]. split; [discriminate|]. intros H. now contradiction H.
  - destruct (Z.eqb_spec (r_rc (answer e n)) ESP_OK) as [E|E];
      cbn [negb res fin evs nxt fst snd].
    + split; [discriminate|]. split.
      * intros _. cbn. auto.
      * intros H. now contradiction H.
    + split; [discriminate|]. split.
      * intros _. cbn. auto.
      * intros _. apply Z.eqb_neq in E. rewrite E.
        cbn [negb exec res fin evs nxt]. now rewrite List.app_nil_r.
Qed.

(** ** Start-up attempts *)

Ltac break_if :=
  match goal with
  | |- context [if ?c then _ else _] => destruct c eqn:?
  | |- context [match ?x with Some _ => _ | None => _ end] => destruct x eqn:?
  end.

Ltac step_tac :=
  intros; cbn;
  repeat (break_if; cbn);
  auto.

Ltac prog_all_tac tac :=
  repeat first
    [ apply prog_all_bind
    | apply prog_all_act; tac
    | match goal with
      | |- prog_all _ (Ret _) => exact I
      | |- prog_all _ (if ?c then _ else _) => destruct c
      | |- prog_all _ (match ?x with Some _ => _ | None => _ end) =>
          destruct x
      | |- forall _, _ => intro
      end ].

Lemma milestones_app (a b : list event) :
  milestones (a ++ b) = (milestones a ++ milestones b)%list.
Proof. apply flat_map_app. Qed.

Lemma milestones_none (tr : list event) :
  forallb no_milestone tr = true -> milestones tr = [].
Proof.
  induction tr as [|ev tr IH]; cbn [forallb]; [reflexivity|].
  rewrite andb_true_iff. intros [Hev Htr].
  change (milestones (ev :: tr)) with (milestone_of ev ++ milestones tr)%list.
  rewrite (IH Htr).
  unfold no_milestone, is_milestone in Hev.
  destruct (milestone_of ev); [reflexivity | discriminate].
Qed.

Lemma backoffs_milestones (tr : list event) :
  backoffs tr =
  flat_map (fun m => match m with BackoffFor t => [t] | _ => [] end)
           (milestones tr).
Proof.
  unfold backoffs, milestones. induction tr as [|ev tr IH]; [reflexivity|].
  cbn [flat_map]. rewrite flat_map_app, <- IH. f_equal.
  destruct ev; try reflexivity. now destruct s.
Qed.

Lemma stop_server_quiet :
  prog_all (emits no_milestone) stop_server.
Proof. unfold stop_server. prog_all_tac ltac:(unfold emits; step_tac). Qed.

Lemma stop_worker_poll_quiet (i : nat) :
  prog_all (emits no_milestone) (stop_worker_poll i).
Proof.
  induction i as [|i IH]; cbn [stop_worker_poll]; [exact I|].
  prog_all_tac ltac:(unfold emits; step_tac). exact IH.
Qed.

Lemma stop_worker_task_quiet :
  prog_all (emits no_milestone) stop_worker_task.
Proof.
  unfold stop_worker_task.
  prog_all_tac ltac:(unfold emits, notify_worker; step_tac).
Qed.

Lemma ensure_fs_mounted_quiet :
  prog_all (emits no_milestone) ensure_fs_mounted.
Proof.
  unfold ensure_fs_mounted. prog_all_tac ltac:(unfold emits; step_tac).
Qed.

Lemma register_uri_internal_quiet (uri : option string)
      (method : httpd_method_t) (handler : option handler_fn) :
  prog_all (emits no_milestone) (register_uri_internal uri method handler).
Proof.
  unfold register_uri_internal. destruct uri, handler; try exact I.
  prog_all_tac ltac:(unfold emits; step_tac).
Qed.

Lemma start_server_rest_quiet (early : option esp_err_t) :
  prog_all (emits no_milestone)
    (match early with
     | Some rc => Ret rc
     | None =>
         (if CONFIG_HTTP_SERVER_ENABLE_LITTLEFS
          then ensure_fs_mounted else Ret ESP_OK) ;;;
         reg_rc <- register_uri_internal (Some "/"%string) HTTP_GET
                                         (Some handle_root_fn) ;;
         if negb (reg_rc =? ESP_OK)%Z then start_server_fail reg_rc else
         reg_rc <- register_uri_internal (Some "/index.html"%string) HTTP_GET
                                         (Some handle_root_fn) ;;
         if negb (reg_rc =? ESP_OK)%Z then start_server_fail reg_rc else
         reg_rc <- register_uri_internal (Some "/index.htm"%string) HTTP_GET
                                         (Some handle_root_fn) ;;
         if negb (reg_rc =? ESP_OK)%Z then start_server_fail reg_rc else
         reg_rc <- register_uri_internal (Some "/favicon.ico"%string) HTTP_GET
                                         (Some handle_favicon_ico_fn) ;;
         if negb (reg_rc =? ESP_OK)%Z then start_server_fail reg_rc else
         Ret ESP_OK
     end).
Proof.
  unfold start_server_fail.
  prog_all_tac ltac:(unfold emits; step_tac).
Qed.

Lemma start_server_milestones (e : env) (n : nat) (w : world) :
  let ms := milestones (evs (exec start_server e n w)) in
  ms = [] \/ ms = [Bringup].
Proof.
  cbv zeta. unfold start_server. rewrite exec_bind, exec_act. cbv zeta.
  cbn [res fin evs nxt]. rewrite milestones_app.
  rewrite (milestones_none (evs (exec _ _ _ _)))
    by apply exec_emits, start_server_rest_quiet.
  rewrite List.app_nil_r. unfold start_server_begin.
  repeat (break_if; cbn [snd milestones flat_map milestone_of List.app]);
    auto.
Qed.

Lemma start_worker_task_milestones (e : env) (n : nat) (w : world) :
  let ms := milestones (evs (exec start_worker_task e n w)) in
  ms = [] \/ ms = [Create].
Proof.
  cbv zeta. unfold start_worker_task. rewrite exec_bind, exec_act. cbv zeta.
  cbn [res fin evs nxt fst snd].
  set (w1 := others e n w).
  destruct (lock_mutex portMAX_DELAY (answer e n) w1); cbn [negb];
    [|now left].
  destruct (s_task w1); [now left|]. cbn [fst snd List.app].
  rewrite exec_bind, exec_act. cbv zeta. cbn [res fin evs nxt fst snd].
  rewrite milestones_app.
  set (w2 := others e (S n) (set_s_task_exit false w1)).
  destruct (r_rc (answer e (S n))); destruct (r_ok (answer e (S n)));
    cbn [fst snd exec evs]; try (now right); 
    (rewrite (milestones_none (evs (exec _ _ _ _)));
     [ now right
     | apply exec_emits;
       prog_all_tac ltac:(unfold emits, vTaskDelete; step_tac) ]).
Qed.

Ltac exec_norm :=
  repeat (progress (rewrite ?exec_bind, ?exec_act; cbv zeta;
                    cbn [res fin evs nxt fst snd exec])).

Ltac keeps_substrate_tac :=
  unfold keeps, substrate, notify_worker, vTaskDelete, set_task_pc,
    backoff_delay, xEventGroupWaitBits, start_server_begin;
  intros ? ? [? ?]; cbn; repeat (break_if; cbn); auto; try congruence.

Lemma stop_worker_poll_keeps (i : nat) :
  prog_all (keeps substrate) (stop_worker_poll i).
Proof.
  induction i as [|i IH]; cbn [stop_worker_poll]; [exact I|].
  prog_all_tac keeps_substrate_tac. exact IH.
Qed.

Lemma start_attempt_keeps (backoff : Z) :
  prog_all (keeps substrate) (start_attempt backoff).
Proof.
  unfold start_attempt, start_server, start_server_fail, stop_server,
    start_worker_task, stop_worker_task, ensure_fs_mounted.
  prog_all_tac keeps_substrate_tac.
Qed.

Lemma start_attempt_milestones (backoff : Z) (e : env) (n : nat)
      (w : world) :
  let o := exec (start_attempt backoff) e n w in
  let ms := milestones (evs o) in
  exists s t,
    (s = [] \/ s = [Bringup]) /\
    (t = [] \/ t = [Create]) /\
    ((res o = false /\ ms = s ++ [BackoffFor backoff]) \/
     (res o = false /\ ms = s ++ t ++ [BackoffFor backoff]) \/
     (res o = true /\ ms = s ++ t ++ [Wait kWorkerReadyTimeout]) \/
     (res o = false /\
      ms = s ++ t ++ [Wait kWorkerReadyTimeout; BackoffFor backoff]))%list.
Proof.
  cbv zeta. unfold start_attempt. rewrite exec_bind. cbv zeta.
  set (os := exec start_server e n w).
  pose proof (start_server_milestones e n w) as Hs. cbv zeta in Hs.
  fold os in Hs.
  exists (milestones (evs os)).
  destruct (res os =? ESP_OK)%Z; cbn [negb].
  - rewrite exec_bind. cbv zeta.
    set (ot := exec start_worker_task e (nxt os) (fin os)).
    pose proof (start_worker_task_milestones e (nxt os) (fin os)) as Ht.
    cbv zeta in Ht. fold ot in Ht.
    exists (milestones (evs ot)). split; [exact Hs|]. split; [exact Ht|].
    destruct (res ot); cbn [negb].
    + rewrite exec_bind, exec_act. cbv zeta.
      cbn [res fin evs nxt fst snd xEventGroupWaitBits].
      destruct (ready_bit _).
      * right. right. left. split; [reflexivity|].
        cbn [exec res fin evs nxt]. now rewrite !milestones_app.
      * right. right. right. exec_norm. split; [reflexivity|].
        rewrite !milestones_app.
        rewrite (milestones_none (evs (exec stop_worker_task _ _ _)))
          by apply exec_emits, stop_worker_task_quiet.
        rewrite (milestones_none (evs (exec stop_server _ _ _)))
          by apply exec_emits, stop_server_quiet.
        reflexivity.
    + right. left. exec_norm. split; [reflexivity|].
      rewrite !milestones_app.
      rewrite (milestones_none (evs (exec stop_server _ _ _)))
        by apply exec_emits, stop_server_quiet.
      reflexivity.
  - exists []. split; [exact Hs|]. split; [now left|]. left.
    rewrite exec_bind, exec_act. cbv zeta. cbn [res fin evs nxt fst snd exec].
    split; [reflexivity|]. now rewrite !milestones_app.
Qed.

Lemma start_attempt_shape (backoff : Z) (e : env) (n : nat) (w : world) :
  let o := exec (start_attempt backoff) e n w in
  attempt_shape kWorkerReadyTimeout backoff (milestones (evs o)) /\
  backoffs (evs o) = if res o then [] else [backoff].
Proof.
  cbv zeta.
  destruct (start_attempt_milestones backoff e n w)
    as (s & t & Hs & Ht & H). cbv zeta in H.
  rewrite backoffs_milestones. unfold attempt_shape.
  destruct H as [[-> ->] | [[-> ->] | [[-> ->] | [-> ->]]]].
  - split.
    + exists s, [], [], [BackoffFor backoff]. cbn. auto 10.
    + destruct Hs as [-> | ->]; reflexivity.
  - split.
    + exists s, t, [], [BackoffFor backoff]. cbn. auto 10.
    + destruct Hs as [-> | ->], Ht as [-> | ->]; reflexivity.
  - split.
    + exists s, t, [Wait kWorkerReadyTimeout], [].
      rewrite List.app_nil_r. auto 10.
    + destruct Hs as [-> | ->], Ht as [-> | ->]; reflexivity.
  - split.
    + exists s, t, [Wait kWorkerReadyTimeout], [BackoffFor backoff].
      cbn. auto 10.
    + destruct Hs as [-> | ->], Ht as [-> | ->]; reflexivity.
Qed.

Lemma nth_backoff_shift (i : nat) (backoff : Z) :
  nth_backoff i (tick_add backoff backoff) = nth_backoff (S i) backoff.
Proof. unfold nth_backoff. now rewrite Nat.iter_succ_r. Qed.

Lemma nth_backoff_spec (i : nat) :
  (0 <= pdMS_TO_TICKS 50 < 2 ^ 32)%Z ->
  nth_backoff i (pdMS_TO_TICKS 50) = spec_backoff i.
Proof.
  intros Hb. unfold spec_backoff. induction i as [|i IH].
  - cbn. rewrite Z.mul_1_r, Z.mod_small; trivial.
  - change (nth_backoff (S i) (pdMS_TO_TICKS 50))
      with (tick_add (nth_backoff i (pdMS_TO_TICKS 50))
                     (nth_backoff i (pdMS_TO_TICKS 50))).
    rewrite IH. unfold tick_add.
    rewrite Nat2Z.inj_succ, Z.pow_succ_r by lia.
    rewrite <- Z.add_mod by (apply Z.pow_nonzero; lia).
    f_equal. ring.
Qed.

(** The loop of [start]: its trace is a sequence of at most [left]
    attempts, attempt [i] backing off for [nth_backoff i backoff]; and
    when every attempt ended in its back-off the state is [STOPPED] and
    the readiness bit is clear. *)
Lemma start_attempts_trace (left : nat) :
  forall (backoff : Z) (e : env) (n : nat) (w : world),
    let o := exec (start_attempts left backoff) e n w in
    (exists attempts,
        milestones (evs o) = concat attempts /\
        List.length attempts <= left /\
        forall i ms, nth_error attempts i = Some ms ->
                     attempt_shape kWorkerReadyTimeout
                                   (nth_backoff i backoff) ms) /\
    backoffs (evs o) =
      firstn (List.length (backoffs (evs o)))
             (map (fun i => nth_backoff i backoff) (seq 0 left)) /\
    (substrate w -> keeps_substrate e ->
     List.length (backoffs (evs o)) = left ->
     s_state (fin o) = STOPPED /\ ready_bit (fin o) = false).
Proof.
  induction left as [|left IH]; intros backoff e n w; cbv zeta.
  - cbn [start_attempts]. rewrite exec_act. cbn [res fin evs nxt].
    unfold start_give_up. rewrite lock_mutex_forever.
    split; [|split].
    + exists []. split; [now destruct (s_mutex _)|].
      split; [reflexivity|]. intros [|i] ms; discriminate.
    + now destruct (s_mutex _).
    + intros Hw Hk _. destruct (Hk n w Hw) as [-> _]. now cbn.
  - cbn [start_attempts]. rewrite exec_bind. cbv zeta.
    set (oa := exec (start_attempt backoff) e n w).
    destruct (start_attempt_shape backoff e n w) as [Hshape Hback].
    cbv zeta in Hshape, Hback. fold oa in Hshape, Hback.
    destruct (res oa).
    + (* the readiness bit was seen *)
      cbn [exec res fin evs nxt]. rewrite List.app_nil_r, Hback.
      split; [|split].
      * exists [milestones (evs oa)]. cbn [concat].
        rewrite List.app_nil_r. split; [reflexivity|].
        split; [cbn; lia|].
        intros [|[|i]] ms; cbn; try discriminate. now intros [= <-].
      * reflexivity.
      * discriminate.
    + (* a failed attempt, then the remaining ones *)
      specialize (IH (tick_add backoff backoff) e (nxt oa) (fin oa)).
      cbv zeta in IH.
      set (o' := exec (start_attempts left (tick_add backoff backoff)) e
                      (nxt oa) (fin oa)) in *.
      destruct IH as ((attempts & Hc & Hl & Hall) & Hb & Hend).
      cbn [res fin evs nxt].
      assert (Hbs : backoffs (evs oa ++ evs o') =
                    backoff :: backoffs (evs o')).
      { unfold backoffs at 1. rewrite flat_map_app.
        fold (backoffs (evs oa)). fold (backoffs (evs o')).
        now rewrite Hback. }
      rewrite Hbs. split; [|split].
      * exists (milestones (evs oa) :: attempts).
        rewrite milestones_app, Hc. split; [reflexivity|].
        split; [cbn; lia|].
        intros [|i] ms; cbn [nth_error].
        -- now intros [= <-].
        -- intros H. rewrite <- nth_backoff_shift. now apply Hall.
      * cbn [List.length seq map firstn]. f_equal.
        rewrite <- seq_shift, map_map.
        rewrite Hb at 1. f_equal. apply map_ext. intros i.
        apply nth_backoff_shift.
      * intros Hw Hk Hlen. apply Hend; trivial.
        -- apply exec_keeps; trivial. apply start_attempt_keeps.
        -- cbn in Hlen. lia.
Qed.

(** ** The state variable in the interleaved system *)

Ltac caller_step_tac :=
  unfold caller_step_ok, state_move, notify_worker, vTaskDelete,
    set_task_pc, backoff_delay, xEventGroupWaitBits, start_server_begin,
    start_begin, start_give_up, stop_begin, stop_finish,
    wait_until_running_check, set_no_cache_headers, ensure_mutex_sem,
    ensure_mutex_evt;
  intros ? ?; cbn;
  repeat (first [ break_if
                | match goal with
                  | |- context [match s_state ?w with _ => _ end] =>
                      destruct (s_state w) eqn:?
                  | |- context [let '(_, _) := ?x in _] => destruct x
                  end ]; cbn);
  auto 10.

Lemma stop_worker_poll_moves (i : nat) :
  prog_all caller_step_ok (stop_worker_poll i).
Proof.
  induction i as [|i IH]; cbn [stop_worker_poll]; [exact I|].
  prog_all_tac caller_step_tac. exact IH.
Qed.



















(** There [ensure_mutex] is two reads. *)
Lemma ensure_mutex_reads (r : reply) (w : world) :
  substrate w ->
  ensure_mutex_sem r w = (true, w, []) /\
  ensure_mutex_evt r w = (true, w, []).
Proof.
  intros [Hm He]. unfold ensure_mutex_sem, ensure_mutex_evt.
  now rewrite Hm, He.
Qed.


(** ** Further properties of the resolver *)

(** X1.  The mount point the module uses is rooted whatever the build
    configured: [resolve_fs_base] always answers a path that starts with
    the separator, leaves a rooted setting as it is, and sanitising twice
    changes nothing. *)
Theorem resolve_fs_base_rooted (cfg rest : string) :
  prefix "/" (resolve_fs_base cfg) = true /\
  resolve_fs_base (String "/" rest) = String "/" rest /\
  resolve_fs_base (resolve_fs_base cfg) = resolve_fs_base cfg.
Proof using.
  split; [|split].
  - destruct cfg as [|c cfg]; [reflexivity|]. cbn [resolve_fs_base].
    destruct (Ascii.eqb_spec c "/") as [->|]; [now destruct cfg | reflexivity].
  - reflexivity.
  - destruct cfg as [|c cfg]; [reflexivity|]. cbn [resolve_fs_base].
    destruct (Ascii.eqb c "/") eqn:E; [|reflexivity].
    cbn [resolve_fs_base]. now rewrite E.
Qed.

Lemma content_type_unfold (p q : string) :
  (forall suffix, String.length suffix <= 6 ->
                  ends_with p suffix = ends_with q suffix) ->
  content_type_for_path p = content_type_for_path q.
Proof using.
  intros H. unfold content_type_for_path.
  rewrite !(H ".htm"), !(H ".html"), !(H ".css"), !(H ".js"), !(H ".json"),
    !(H ".svg"), !(H ".png"), !(H ".jpg"), !(H ".jpeg"), !(H ".gif"),
    !(H ".ico"), !(H ".woff2"), !(H ".woff"), !(H ".ttf"), !(H ".map")
    by (cbn; lia).
  reflexivity.
Qed.

(** X2.  The content type is decided by the last six characters of the
    path alone: what precedes a name of six or more characters
    (directories, the mount point) does not change it. *)
Theorem content_type_by_suffix (dir name : string) :
  6 <= String.length name ->
  content_type_for_path (dir ++ name) = content_type_for_path name.
Proof using.
  intros H. apply content_type_unfold. intros suffix Hs.
  apply ends_with_app. lia.
Qed.

Lemma resolver_dotdot_none (base : string) (fsx : filesystem) (uri : string) :
  (exists a b, uri = a ++ ".." ++ b) ->
  resolve_fs_path base fsx (Some uri) = (None, []).
Proof using.
  intros H. apply has_dotdot_iff in H. unfold resolve_fs_path.
  destruct uri as [|c rest]; [reflexivity|].
  destruct (negb (Ascii.eqb c "/")); [reflexivity|].
  now rewrite H.
Qed.

Lemma resolver_unrooted_none (base : string) (fsx : filesystem)
      (uri : option string) :
  uri = None \/ (exists u, uri = Some u /\ prefix "/" u = false) ->
  resolve_fs_path base fsx uri = (None, []).
Proof using.
  intros [-> | (u & -> & H)]; [reflexivity|].
  destruct u as [|c u]; [reflexivity|]. cbn [resolve_fs_path prefix] in *.
  destruct (ascii_dec "/" c) as [<-|Hne].
  - now destruct u.
  - destruct (Ascii.eqb_spec c "/"); [congruence | reflexivity].
Qed.
Lemma append_assoc (a b c : string) : (a ++ b) ++ c = a ++ (b ++ c).
Proof using. induction a as [|x a IH]; simpl; [reflexivity | now rewrite IH]. Qed.

Lemma has_dotdot_prefix (a b : string) :
  has_dotdot (a ++ b) = false -> has_dotdot a = false.
Proof using.
  intros H. destruct (has_dotdot a) eqn:E; [|reflexivity].
  apply has_dotdot_iff in E. destruct E as (x & y & ->).
  rewrite <- H. symmetry. apply has_dotdot_iff. exists x, (y ++ b).
  now rewrite !append_assoc.
Qed.

Lemma has_dotdot_before_dot (s q : string) :
  has_dotdot (s ++ String "." q) = false -> ends_with s "." = false.
Proof using.
  intros H. destruct (ends_with s ".") eqn:E; [|reflexivity].
  apply ends_with_iff in E. destruct E as [pre ->].
  rewrite <- H. symmetry. apply has_dotdot_iff. exists pre, q.
  now rewrite append_assoc.
Qed.

Lemma prefix_slash_app (a b : string) :
  prefix "/" a = true -> prefix "/" (a ++ b) = true.
Proof using.
  destruct a as [|c a]; [discriminate|]. cbn [append prefix].
  destruct (ascii_dec "/" c); [|discriminate]. intros _.
  now destruct (a ++ b).
Qed.

Lemma prefix_slash_stem (stem suffix : string) :
  String.length suffix < String.length (stem ++ suffix) ->
  prefix "/" (stem ++ suffix) = true -> prefix "/" stem = true.
Proof using.
  rewrite append_length. destruct stem as [|c stem]; [cbn; lia|].
  intros _. cbn [append prefix].
  destruct (ascii_dec "/" c); [|discriminate]. intros _. now destruct stem.
Qed.

(** The logical path of an accepted request is rooted and free of
    [".."]. *)
Lemma logical_path_clean (uri : string) :
  prefix "/" uri = true ->
  has_dotdot uri = false ->
  prefix "/" (logical_path uri) = true /\
  has_dotdot (logical_path uri) = false.
Proof using.
  intros Hs Hd. unfold logical_path.
  set (l1 := if negb (uri =? "") &&
                match back uri with
                | Some c => Ascii.eqb c "/"
                | None => false
                end
             then uri ++ "index.html" else uri).
  assert (H1 : prefix "/" l1 = true /\ has_dotdot l1 = false).
  { subst l1. destruct (_ && _); [|auto]. split.
    - now apply prefix_slash_app.
    - apply has_dotdot_app; trivial. }
  set (l2 := if l1 =? "/" then "/index.html" else l1).
  assert (H2 : prefix "/" l2 = true /\ has_dotdot l2 = false).
  { subst l2. destruct (l1 =? "/"); [split; reflexivity | exact H1]. }
  destruct H2 as [Hs2 Hd2].
  destruct (ends_with l2 ".gz") eqn:Hgz; cbn [andb]; [|auto].
  destruct (Nat.ltb 3 (String.length l2)) eqn:Hlen; [|auto].
  apply Nat.ltb_lt in Hlen.
  apply ends_with_iff in Hgz. destruct Hgz as [pre Hpre].
  rewrite Hpre in *. rewrite append_length.
  replace (String.length pre + String.length ".gz" - 3)
    with (String.length pre) by (cbn; lia).
  rewrite resize_take. split.
  - apply (prefix_slash_stem pre ".gz"); trivial.
  - now apply (has_dotdot_prefix pre ".gz").
Qed.

Lemma ends_with_htm_not_html (stem : string) :
  ends_with (stem ++ ".htm") ".html" = false.
Proof using.
  destruct (ends_with (stem ++ ".htm") ".html") eqn:E; [|reflexivity].
  apply ends_with_iff in E. destruct E as [pre E].
  apply (f_equal back) in E.
  rewrite (back_app stem "." "htm"), (back_app pre "." "html") in E.
  discriminate.
Qed.

Lemma candidates_html (stem : string) :
  candidates (stem ++ ".html") = [stem ++ ".html"; stem ++ ".htm"].
Proof using.
  unfold candidates.
  rewrite (ends_with_app stem ".html" ".html") by (cbn; lia).
  change (ends_with ".html" ".html") with true. cbv iota.
  rewrite append_length.
  replace (String.length stem + String.length ".html" - 5)
    with (String.length stem) by (cbn; lia).
  rewrite resize_take.
  destruct (String.eqb_spec (stem ++ ".htm") (stem ++ ".html")) as [E|_];
    [|reflexivity].
  apply (f_equal String.length) in E. rewrite !append_length in E.
  cbn in E. lia.
Qed.

Lemma candidates_htm (stem : string) :
  candidates (stem ++ ".htm") = [stem ++ ".htm"; stem ++ ".html"].
Proof using.
  unfold candidates. rewrite ends_with_htm_not_html.
  rewrite (ends_with_app stem ".htm" ".htm") by (cbn; lia).
  change (ends_with ".htm" ".htm") with true. cbv iota.
  rewrite append_length.
  replace (String.length stem + String.length ".htm" - 4)
    with (String.length stem) by (cbn; lia).
  rewrite resize_take.
  destruct (String.eqb_spec (stem ++ ".html") (stem ++ ".htm")) as [E|_];
    [|reflexivity].
  apply (f_equal String.length) in E. rewrite !append_length in E.
  cbn in E. lia.
Qed.

Lemma candidates_plain (logical : string) :
  ends_with logical ".html" = false ->
  ends_with logical ".htm" = false ->
  candidates logical = [logical].
Proof using. intros H5 H4. unfold candidates. now rewrite H5, H4. Qed.

(** Both spellings of a rooted path free of [".."] are rooted and free
    of [".."]. *)
Lemma alias_clean (stem ext1 ext2 : string) :
  String.length (String "." ext1) < String.length (stem ++ String "." ext1) ->
  prefix "/" (stem ++ String "." ext1) = true ->
  has_dotdot (stem ++ String "." ext1) = false ->
  has_dotdot (String "." ext2) = false ->
  prefix "/" (stem ++ String "." ext2) = true /\
  has_dotdot (stem ++ String "." ext2) = false.
Proof using.
  intros Hl Hs Hd H2. split.
  - apply prefix_slash_app. now apply (prefix_slash_stem stem (String "." ext1)).
  - apply has_dotdot_app; trivial.
    + now apply (has_dotdot_prefix stem (String "." ext1)).
    + intros E. apply has_dotdot_before_dot in Hd. congruence.
Qed.

Lemma rooted_longer (l suffix : string) (stem : string) :
  l = stem ++ suffix ->
  prefix "/" l = true ->
  prefix "/" suffix = false ->
  String.length suffix < String.length (stem ++ suffix).
Proof using.
  intros -> Hs Hn. rewrite append_length.
  destruct stem; [cbn [append] in Hs; congruence | cbn; lia].
Qed.

Lemma candidates_clean (logical : string) :
  prefix "/" logical = true ->
  has_dotdot logical = false ->
  Forall (fun c => prefix "/" c = true /\ has_dotdot c = false)
         (candidates logical) /\
  List.length (candidates logical) <= 2.
Proof using.
  clear pdMS_TO_TICKS default_max_open_sockets.
  intros Hs Hd.
  destruct (ends_with logical ".html") eqn:H5.
  - apply ends_with_iff in H5. destruct H5 as [stem ->].
    rewrite candidates_html. split; [|cbn; lia].
    assert (Hl := rooted_longer _ ".html" stem eq_refl Hs eq_refl).
    assert (Ha := alias_clean stem "html" "htm" Hl Hs Hd eq_refl).
    repeat constructor; tauto.
  - destruct (ends_with logical ".htm") eqn:H4.
    + apply ends_with_iff in H4. destruct H4 as [stem ->].
      rewrite candidates_htm. split; [|cbn; lia].
      assert (Hl := rooted_longer _ ".htm" stem eq_refl Hs eq_refl).
      assert (Ha := alias_clean stem "htm" "html" Hl Hs Hd eq_refl).
      repeat constructor; tauto.
    + rewrite candidates_plain by assumption. split; [|cbn; lia].
      repeat constructor; trivial.
Qed.

Lemma probe_candidates_sound (base : string) (fsx : filesystem)
      (cands : list string) (a : ResolvedAsset) :
  fst (probe_candidates base fsx cands) = Some a ->
  exists c,
    In c cands /\
    out_ctype a = content_type_for_path c /\
    file_exists fsx (out_full_path a) = true /\
    ((out_is_gz a = true /\ out_full_path a = base ++ c ++ ".gz") \/
     (out_is_gz a = false /\ out_full_path a = base ++ c)).
Proof using.
  induction cands as [|c cands IH]; cbn [probe_candidates]; [discriminate|].
  unfold full.
  destruct (file_exists fsx (base ++ c ++ ".gz")) eqn:G.
  - intros [= <-]. exists c. cbn. auto 10.
  - destruct (file_exists fsx (base ++ c)) eqn:P.
    + intros [= <-]. exists c. cbn. auto 10.
    + destruct (probe_candidates base fsx cands) as [r log]. cbn [fst] in *.
      intros H. destruct (IH H) as (d & Hd & Hrest). exists d. split; auto.
      now right.
Qed.

Lemma probe_candidates_log (base : string) (fsx : filesystem)
      (cands : list string) :
  List.length (snd (probe_candidates base fsx cands)) <= 2 * List.length cands /\
  Forall (fun p => exists c, In c cands /\
                             (p = base ++ c ++ ".gz" \/ p = base ++ c))
         (snd (probe_candidates base fsx cands)).
Proof using.
  induction cands as [|c cands [IHl IHf]]; cbn [probe_candidates].
  - split; [cbn; lia | constructor].
  - unfold full.
    assert (Hgz : exists d, In d (c :: cands) /\
                            (base ++ c ++ ".gz" = base ++ d ++ ".gz" \/
                             base ++ c ++ ".gz" = base ++ d))
      by (exists c; cbn; auto).
    assert (Hpl : exists d, In d (c :: cands) /\
                            (base ++ c = base ++ d ++ ".gz" \/
                             base ++ c = base ++ d))
      by (exists c; cbn; auto).
    destruct (file_exists fsx (base ++ c ++ ".gz")).
    + split; [cbn; lia | repeat constructor; exact Hgz].
    + destruct (file_exists fsx (base ++ c)).
      * split; [cbn; lia | repeat constructor; assumption].
      * destruct (probe_candidates base fsx cands) as [r log].
        cbn [snd List.length] in *. split; [lia|].
        constructor; [exact Hgz|]. constructor; [exact Hpl|].
        eapply Forall_impl; [|exact IHf].
        intros p (d & Hd & Hp). exists d. split; [now right | exact Hp].
Qed.

(** X3.  What the resolver answers is on the volume and under the mount
    point: the asset it selects exists, its path is the mount point
    followed by a candidate that starts with the separator and holds no
    [".."], with [".gz"] appended exactly when the asset is flagged
    compressed, and its content type is the one of that candidate. *)
Theorem resolve_fs_path_sound (base : string) (fsx : filesystem)
        (uri : option string) (a : ResolvedAsset) :
  fst (resolve_fs_path base fsx uri) = Some a ->
  exists u c,
    uri = Some u /\
    In c (candidates (logical_path u)) /\
    prefix "/" c = true /\
    has_dotdot c = false /\
    out_ctype a = content_type_for_path c /\
    file_exists fsx (out_full_path a) = true /\
    ((out_is_gz a = true /\ out_full_path a = base ++ c ++ ".gz") \/
     (out_is_gz a = false /\ out_full_path a = base ++ c)).
Proof using.
  intros H. destruct uri as [u|]; [|discriminate].
  destruct (prefix "/" u) eqn:Hs.
  - destruct (has_dotdot u) eqn:Hd.
    + apply has_dotdot_iff in Hd.
      rewrite (resolver_dotdot_none base fsx u Hd) in H. discriminate.
    + rewrite resolve_accepted in H by assumption.
      destruct (probe_candidates_sound _ _ _ _ H) as (c & Hin & Hrest).
      destruct (logical_path_clean u Hs Hd) as [Hls Hld].
      destruct (candidates_clean _ Hls Hld) as [Hall _].
      rewrite Forall_forall in Hall. destruct (Hall c Hin) as [Hcs Hcd].
      exists u, c. auto 10.
  - rewrite (resolver_unrooted_none base fsx (Some u)) in H;
      [discriminate | now right; exists u].
Qed.

(** X4.  A request costs at most four existence probes, each of a path
    under the mount point: a candidate of the request, plain or with
    [".gz"] appended. *)
Theorem resolve_fs_path_probes (base : string) (fsx : filesystem)
        (uri : string) :
  let probes := snd (resolve_fs_path base fsx (Some uri)) in
  List.length probes <= 4 /\
  Forall (fun p => exists c, In c (candidates (logical_path uri)) /\
                             (p = base ++ c ++ ".gz" \/ p = base ++ c))
         probes.
Proof using.
  cbv zeta.
  destruct (prefix "/" uri) eqn:Hs.
  - destruct (has_dotdot uri) eqn:Hd.
    + apply has_dotdot_iff in Hd.
      rewrite (resolver_dotdot_none base fsx uri Hd).
      split; [cbn; lia | constructor].
    + rewrite resolve_accepted by assumption.
      destruct (logical_path_clean uri Hs Hd) as [Hls Hld].
      destruct (candidates_clean _ Hls Hld) as [_ Hlen].
      destruct (probe_candidates_log base fsx (candidates (logical_path uri)))
        as [Hl Hf].
      split; [lia | exact Hf].
  - rewrite (resolver_unrooted_none base fsx (Some uri));
      [split; [cbn; lia | constructor] | now right; exists uri].
Qed.

(** X5.  A null, empty or unrooted request path is turned down without a
    single existence probe. *)
Theorem resolve_fs_path_unrooted (base : string) (fsx : filesystem)
        (uri : option string) :
  uri = None \/ (exists u, uri = Some u /\ prefix "/" u = false) ->
  resolve_fs_path base fsx uri = (None, []).
Proof using. apply resolver_unrooted_none. Qed.

(** X6.  The two spellings of a markup path stand for each other: for a
    rooted stem, a request for [stem.html] and a request for [stem.htm]
    look for the same four files, so one is not found exactly when the
    other is not, and whatever either resolves to is served as HTML. *)
Theorem resolve_fs_path_alias (base : string) (fsx : filesystem)
        (stem : string) (a : ResolvedAsset) :
  prefix "/" stem = true ->
  has_dotdot (stem ++ ".html") = false ->
  (fst (resolve_fs_path base fsx (Some (stem ++ ".html"))) = None <->
   fst (resolve_fs_path base fsx (Some (stem ++ ".htm"))) = None) /\
  (fst (resolve_fs_path base fsx (Some (stem ++ ".html"))) = Some a \/
   fst (resolve_fs_path base fsx (Some (stem ++ ".htm"))) = Some a ->
   out_ctype a = "text/html; charset=utf-8").
Proof using.
  clear pdMS_TO_TICKS default_max_open_sockets.
  intros Hs Hd.
  assert (Hs5 : prefix "/" (stem ++ ".html") = true)
    by now apply prefix_slash_app.
  assert (Hs4 : prefix "/" (stem ++ ".htm") = true)
    by now apply prefix_slash_app.
  assert (Hd4 : has_dotdot (stem ++ ".htm") = false).
  { apply (alias_clean stem "html" "htm"); trivial.
    rewrite append_length. destruct stem; [discriminate | cbn; lia]. }
  assert (L5 : logical_path (stem ++ ".html") = stem ++ ".html")
    by (apply logical_path_plain; rewrite ends_with_app by (cbn; lia);
        reflexivity).
  assert (L4 : logical_path (stem ++ ".htm") = stem ++ ".htm")
    by (apply logical_path_plain; rewrite ends_with_app by (cbn; lia);
        reflexivity).
  rewrite !resolve_accepted by assumption.
  rewrite L5, L4, candidates_html, candidates_htm. split.
  - rewrite !probe_candidates_none. split; intros H c Hc; apply H;
      cbn in Hc |- *; tauto.
  - assert (T5 : content_type_for_path (stem ++ ".html")
                 = "text/html; charset=utf-8").
    { unfold content_type_for_path.
      rewrite (ends_with_app stem ".html" ".html") by (cbn; lia).
      now rewrite orb_true_r. }
    assert (T4 : content_type_for_path (stem ++ ".htm")
                 = "text/html; charset=utf-8").
    { unfold content_type_for_path.
      now rewrite (ends_with_app stem ".htm" ".htm") by (cbn; lia). }
    intros [H | H]; apply probe_candidates_sound in H;
      destruct H as (c & Hc & -> & _);
      cbn in Hc; destruct Hc as [<- | [<- | []]]; assumption.
Qed.

(** ** Further properties of the streamer and the handlers *)

Lemma append_nil_r (s : string) : s ++ "" = s.
Proof. induction s as [|c s IH]; cbn; [reflexivity | now rewrite IH]. Qed.

Lemma substring_short (s : string) (m : nat) :
  String.length s <= m -> substring 0 m s = s.
Proof.
  revert m. induction s as [|c s IH]; intros [|m] H; cbn in *;
    try reflexivity; try lia.
  f_equal. apply IH. lia.
Qed.

Lemma buffer_split (data : string) :
  1024 <= String.length data ->
  data = substring 0 1024 data ++ substr 1024 data.
Proof. intros H. unfold substr. now apply substring_split. Qed.

Lemma length_zero_empty (s : string) : String.length s = 0 -> s = ""%string.
Proof. now destruct s. Qed.

Lemma fread_prefix (r : reply) (data : string) :
  exists rest, data = fread r data ++ rest.
Proof.
  unfold fread. set (k := Nat.min 1024 (r_len r)).
  destruct (Nat.le_gt_cases k (String.length data)) as [H | H].
  - eexists. now apply substring_split.
  - exists ""%string. rewrite substring_short by lia.
    now rewrite append_nil_r.
Qed.

Lemma fread_full (r : reply) (data : string) :
  1024 <= r_len r -> fread r data = substring 0 1024 data.
Proof. intros H. unfold fread. now rewrite Nat.min_l. Qed.

Lemma fread_whole_buffer (r : reply) (data : string) :
  1024 <= String.length (fread r data) ->
  fread r data = substring 0 1024 data /\ 1024 <= String.length data.
Proof.
  rewrite fread_length. intros H. split; [|lia].
  apply fread_full. lia.
Qed.

(** One turn of the read loop. *)
Lemma stream_loop_turn (fuel : nat) (data : string) (e : env) (n : nat)
      (w : world) :
  exec (stream_loop fuel data) e n w =
  let v := others e n w in
  let buf := fread (answer e n) data in
  let finish := mkOutcome (r_rc (answer e (S n))) (others e (S n) v)
                          [EvFclose; EvRespSendChunk None] (S (S n)) in
  if Nat.ltb 0 (String.length buf) then
    if (r_rc (answer e n) =? ESP_OK)%Z then
      if Nat.ltb (String.length buf) 1024 then
        mkOutcome (res finish) (fin finish) (chunk_event buf :: evs finish)
                  (nxt finish)
      else
        match fuel with
        | O => mkOutcome (res finish) (fin finish)
                         (chunk_event buf :: evs finish) (nxt finish)
        | S fuel' =>
            let o := exec (stream_loop fuel' (substr 1024 data)) e (S n) v in
            mkOutcome (res o) (fin o) (chunk_event buf :: evs o) (nxt o)
        end
    else mkOutcome (r_rc (answer e n)) (others e (S n) v)
                   [chunk_event buf; EvFclose] (S (S n))
  else finish.
Proof.
  cbv zeta.
  destruct fuel as [|fuel]; cbn [stream_loop];
    rewrite exec_bind, exec_act; cbv zeta; cbn [res fin evs nxt];
    unfold read_and_send; cbv zeta;
    (destruct (Nat.ltb 0 (String.length (fread (answer e n) data))) eqn:Hpos;
     cbn [fst snd andb];
     [ rewrite Hpos; cbn [andb];
       destruct (r_rc (answer e n) =? ESP_OK)%Z; cbn [negb];
       [ destruct (Nat.ltb (String.length (fread (answer e n) data)) 1024)
       | ]; rewrite ?exec_act; reflexivity
     | rewrite Hpos; cbn [andb];
       apply Nat.ltb_ge in Hpos;
       replace (Nat.ltb (String.length (fread (answer e n) data)) 1024)
         with true by (symmetry; apply Nat.ltb_lt; lia);
       rewrite exec_act; reflexivity ]).
Qed.

(** The trace of the read loop: data chunks, then the close of the file
    and, unless a chunk was refused, the terminating chunk.  The chunks
    are a prefix of the file, and the whole file when no read comes up
    short before its end. *)
Lemma stream_loop_shape (fuel : nat) :
  forall (data : string) (e : env) (n : nat) (w : world),
    String.length data / 1024 <= fuel ->
    let o := exec (stream_loop fuel data) e n w in
    exists cs tail,
      evs o = (map chunk_event cs ++ tail)%list /\
      Forall (fun c => 0 < String.length c <= 1024) cs /\
      (exists rest, data = body_of cs ++ rest) /\
      ((tail = [EvFclose] /\ res o <> ESP_OK) \/
       tail = [EvFclose; EvRespSendChunk None]) /\
      ((forall m, 1024 <= r_len (answer e m)) ->
       tail = [EvFclose; EvRespSendChunk None] -> body_of cs = data).
Proof.
  induction fuel as [|fuel IH]; intros data e n w Hfuel; cbv zeta;
    rewrite stream_loop_turn; cbv zeta;
    pose proof (fread_length (answer e n) data) as Hlen;
    destruct (fread_prefix (answer e n) data) as [rest Hrest];
    set (buf := fread (answer e n) data) in *;
    (destruct (Nat.ltb 0 (String.length buf)) eqn:Hpos;
     [ apply Nat.ltb_lt in Hpos;
       destruct (r_rc (answer e n) =? ESP_OK)%Z eqn:Hrc;
       [ destruct (Nat.ltb (String.length buf) 1024) eqn:Hlt
       | cbn [res fin evs nxt];
         exists [buf], [EvFclose]; cbn [body_of fold_right map app];
         rewrite append_nil_r;
         split; [reflexivity|];
         split; [constructor; [lia | constructor]|];
         split; [now exists rest|];
         split; [left; split; [reflexivity|];
                 intros E; rewrite E in Hrc; discriminate
                | intros _ H; discriminate H] ]
     | apply Nat.ltb_ge in Hpos; cbn [res fin evs nxt];
       exists (@nil string), [EvFclose; EvRespSendChunk None];
       cbn [body_of fold_right map app];
       split; [reflexivity|]; split; [constructor|];
       split; [now exists data|]; split; [now right|];
       intros Hfull _; specialize (Hfull n);
       symmetry; apply length_zero_empty; lia ]).
  1, 3: cbn [res fin evs nxt];
    exists [buf], [EvFclose; EvRespSendChunk None];
    cbn [body_of fold_right map app]; rewrite append_nil_r;
    (split; [reflexivity|]);
    (split; [constructor; [apply Nat.ltb_lt in Hlt; lia | constructor]|]);
    (split; [now exists rest|]); (split; [now right|]);
    intros Hfull _; specialize (Hfull n); apply Nat.ltb_lt in Hlt;
    subst buf; rewrite fread_full by exact Hfull;
    rewrite fread_full in Hlt by exact Hfull;
    rewrite substring_length_min in Hlt;
    apply substring_short; lia.
  - apply Nat.ltb_ge in Hlt.
    destruct (fread_whole_buffer _ _ Hlt) as [_ Hd].
    assert (1 <= String.length data / 1024)
      by (apply Nat.div_le_lower_bound; lia).
    lia.
  - apply Nat.ltb_ge in Hlt.
    destruct (fread_whole_buffer _ _ Hlt) as [Hb Hd].
    assert (Hsplit : data = buf ++ substr 1024 data)
      by (fold buf in Hb; rewrite Hb; now apply buffer_split).
    assert (Hrest' : String.length (substr 1024 data) / 1024 <= fuel).
    { rewrite substr_length by lia.
      replace (String.length data)
        with (String.length data - 1024 + 1 * 1024) in Hfuel by lia.
      rewrite Nat.div_add in Hfuel by lia. lia. }
    destruct (IH (substr 1024 data) e (S n) (others e n w) Hrest')
      as (cs & tail & Hevs & Hcs & (rest' & Hpre) & Htail & Hall).
    exists (buf :: cs), tail.
    cbn [res fin evs nxt body_of fold_right map app]. fold (body_of cs).
    split; [rewrite Hevs; reflexivity|].
    split; [constructor; [lia | exact Hcs]|].
    split; [exists rest'; rewrite append_assoc, <- Hpre; exact Hsplit|].
    split; [exact Htail|].
    intros Hfull Ht. rewrite (Hall Hfull Ht). now symmetry.
Qed.


Lemma filter_none (P ok : event -> bool) (l : list event) :
  (forall ev, ok ev = true -> P ev = false) ->
  forallb ok l = true -> filter P l = [].
Proof.
  intros H. induction l as [|x l IH]; cbn; [reflexivity|].
  rewrite andb_true_iff. intros [Hx Hl]. now rewrite (H x Hx), IH.
Qed.

Lemma filter_chunk_events (P : event -> bool) (cs : list string) :
  (forall c, P (chunk_event c) = false) ->
  filter P (map chunk_event cs) = [].
Proof.
  intros H. induction cs as [|c cs IH]; cbn; [reflexivity|].
  now rewrite H.
Qed.

(** The run of [try_serve_from_fs] on a request: calls that mount and
    probe, then either a result that is not [ESP_OK] or the run of the
    streamer on the resolved asset. *)
Lemma try_serve_from_fs_cases (rq : httpd_req_t) (e : env) (n : nat)
      (w : world) :
  let o := exec (try_serve_from_fs (Some rq)) e n w in
  exists quiet,
    forallb is_quiet_event quiet = true /\
    ((evs o = quiet /\
      (res o = ESP_ERR_NOT_SUPPORTED \/ res o = ESP_ERR_NOT_FOUND \/
       res o = ESP_ERR_HTTPD_INVALID_REQ)) \/
     (exists (a : ResolvedAsset) (n' : nat) (w' : world),
        fst (resolve_fs_path kFsBase fs (Some (req_uri rq))) = Some a /\
        let s := exec (send_file_stream (out_full_path a) (out_ctype a)
                                        (out_is_gz a)) e n' w' in
        evs o = (quiet ++ evs s)%list /\ res o = res s)).
Proof.
  cbv zeta. unfold try_serve_from_fs.
  destruct CONFIG_HTTP_SERVER_ENABLE_LITTLEFS; cbn [negb];
    [|exists (@nil event); split; [reflexivity | left; cbn; auto]].
  destruct (String.eqb (req_uri rq) "");
    [exists (@nil event); split; [reflexivity | left; cbn; auto]|].
  rewrite exec_bind. cbv zeta.
  set (m := exec ensure_fs_mounted e n w).
  assert (Hm : forallb is_quiet_event (evs m) = true).
  { subst m. unfold ensure_fs_mounted. rewrite exec_act. cbn.
    destruct (lock_mutex _ _ _); cbn; [|reflexivity].
    destruct (s_fs_mounted _); cbn; [reflexivity|].
    now destruct (r_rc (answer e n) =? ESP_OK)%Z. }
  destruct (res m =? ESP_OK)%Z; cbn [negb].
  - rewrite exec_bind, exec_act. cbv zeta. cbn [res fin evs nxt fst snd].
    destruct (resolve_fs_path kFsBase fs (Some (req_uri rq))) as [a probes].
    cbn [res fin evs nxt fst snd].
    assert (Hp : forallb is_quiet_event (evs m ++ map EvFileExists probes)
                 = true).
    { rewrite forallb_app, Hm. cbn [andb]. clear.
      induction probes; cbn; auto. }
    exists (evs m ++ map EvFileExists probes)%list. split; [exact Hp|].
    destruct a as [[full_path ctype is_gz]|].
    + right. exists (mkAsset full_path ctype is_gz). do 2 eexists.
      split; [reflexivity|]. cbv zeta. cbn [out_full_path out_ctype out_is_gz].
      split; [|reflexivity]. cbn [evs]. now rewrite <- List.app_assoc.
    + left. cbn [exec evs res]. rewrite List.app_nil_r. auto.
  - exists (evs m). split; [exact Hm|]. left.
    cbn [exec evs res]. rewrite List.app_nil_r. auto.
Qed.

Lemma completes_app (a b : list event) : completes b -> completes (a ++ b).
Proof.
  intros (pre & ev & -> & Hev). exists (a ++ pre)%list, ev.
  split; [now rewrite List.app_assoc | exact Hev].
Qed.

(** The streamer opens at most one file and closes it exactly when it
    opened; when it answers [ESP_OK] its last call completed a
    response. *)
Lemma send_file_stream_calls (full_path ctype : string) (is_gz : bool)
      (e : env) (n : nat) (w : world) :
  let o := exec (send_file_stream full_path ctype is_gz) e n w in
  List.length (filter (is_fopen true) (evs o)) =
    List.length (filter is_fclose (evs o)) /\
  List.length (filter is_any_fopen (evs o)) = 1 /\
  (res o = ESP_OK -> completes (evs o)).
Proof.
  cbv zeta. unfold send_file_stream.
  rewrite exec_bind, exec_act. cbn [res fin evs nxt fst snd].
  destruct (match fs full_path with
            | Some data => if r_ok (answer e n) then Some data else None
            | None => None
            end) as [data|].
  - exec_norm.
    match goal with
    | |- context [exec (stream_loop ?f data) ?e' ?n' ?w'] =>
        destruct (stream_loop_shape f data e' n' w' (Nat.le_refl _))
          as (cs & tail & Hevs & _ & _ & Htail & _)
    end.
    rewrite Hevs.
    assert (Hf : forall P : event -> bool,
               (forall c, P (chunk_event c) = false) ->
               P (EvRespSetType ctype) = false ->
               P (EvRespSetHdr "Content-Encoding" "gzip") = false ->
               filter P no_cache_headers = [] ->
               filter P ([EvFopen full_path true] ++
                  (EvRespSetType ctype
                   :: (if is_gz
                       then [EvRespSetHdr "Content-Encoding" "gzip"]
                       else [])) ++
                  no_cache_headers ++ map chunk_event cs ++ tail) =
               (filter P [EvFopen full_path true] ++ filter P tail)%list).
    { intros P Hc Ht Hg Hn.
      rewrite !filter_app, Hn, filter_chunk_events by exact Hc.
      cbn [filter app]. rewrite Ht.
      destruct is_gz; cbn [filter app]; rewrite ?Hg; reflexivity. }
    change (snd (set_no_cache_headers _ _)) with no_cache_headers.
    rewrite (Hf (is_fopen true)), (Hf is_fclose), (Hf is_any_fopen)
      by reflexivity.
    split; [|split].
    + destruct Htail as [(-> & _) | ->]; reflexivity.
    + destruct Htail as [(-> & _) | ->]; reflexivity.
    + intros Hres. destruct Htail as [(_ & Hne) | ->];
        [contradiction|].
      do 4 apply completes_app.
      exists [EvFclose], (EvRespSendChunk None). now split.
  - unfold send_text. rewrite exec_act. cbn [res fin evs nxt fst snd].
    split; [reflexivity|]. split; [reflexivity|]. intros _.
    exists [EvFopen full_path false;
            EvRespSetStatus (status_for 500);
            EvRespSetType "text/plain; charset=utf-8"],
           (EvRespSend ("File open failed" ++ LF)).
    now split.
Qed.

Lemma handle_favicon_ico_trace (rq : option httpd_req_t) (e : env) (n : nat)
      (w : world) :
  let o := exec (try_serve_from_fs rq) e n w in
  evs (exec (handle_favicon_ico rq) e n w) =
  (evs o ++ favicon_tail (res o))%list.
Proof.
  cbv zeta. unfold handle_favicon_ico. rewrite exec_bind. cbv zeta. cbn [evs].
  set (o := exec (try_serve_from_fs rq) e n w).
  f_equal. unfold favicon_tail.
  destruct (res o =? ESP_OK)%Z; [reflexivity|].
  destruct (negb (res o =? ESP_ERR_NOT_FOUND)%Z &&
            negb (res o =? ESP_ERR_NOT_SUPPORTED)%Z); [reflexivity|].
  exec_norm. reflexivity.
Qed.

Lemma try_serve_from_fs_null (e : env) (n : nat) (w : world) :
  evs (exec (try_serve_from_fs None) e n w) = [].
Proof.
  unfold try_serve_from_fs.
  now destruct CONFIG_HTTP_SERVER_ENABLE_LITTLEFS.
Qed.

(** What the handlers add after [try_serve_from_fs] are calls on the
    response only. *)
Lemma handler_tails_respond (rc : esp_err_t) :
  forallb is_response_event (root_tail rc) = true /\
  forallb is_response_event (favicon_tail rc) = true.
Proof.
  unfold root_tail, favicon_tail.
  destruct (rc =? ESP_OK)%Z; [now split|].
  destruct (negb (rc =? ESP_ERR_NOT_FOUND)%Z &&
            negb (rc =? ESP_ERR_NOT_SUPPORTED)%Z); now split.
Qed.

Lemma try_serve_from_fs_files (req : option httpd_req_t) (e : env) (n : nat)
      (w : world) :
  let tr := evs (exec (try_serve_from_fs req) e n w) in
  List.length (filter (is_fopen true) tr) =
    List.length (filter is_fclose tr) /\
  List.length (filter is_any_fopen tr) <= 1.
Proof.
  cbv zeta. destruct req as [rq|];
    [|rewrite try_serve_from_fs_null; cbn; lia].
  destruct (try_serve_from_fs_cases rq e n w)
    as (quiet & Hq & [(-> & _) | (a & n' & w' & _ & -> & _)]).
  - rewrite !(filter_none _ is_quiet_event quiet); trivial;
      try (now intros []); cbn; lia.
  - rewrite !filter_app, !(filter_none _ is_quiet_event quiet); trivial;
      try (now intros []).
    cbn [app].
    destruct (send_file_stream_calls (out_full_path a) (out_ctype a)
                (out_is_gz a) e n' w') as (H1 & H2 & _).
    split; [exact H1 | lia].
Qed.

Lemma handle_root_split (req : option httpd_req_t) (e : env) (n : nat)
      (w : world) :
  exists tail,
    evs (exec (handle_root req) e n w) =
      (evs (exec (try_serve_from_fs req) e n w) ++ tail)%list /\
    forallb is_response_event tail = true.
Proof.
  unfold handle_root. rewrite exec_bind. cbv zeta. cbn [evs].
  eexists. split; [reflexivity|].
  apply exec_emits.
  destruct (_ =? ESP_OK)%Z; [exact I|].
  destruct (negb _ && negb _); [apply prog_all_act; now intros r v|].
  unfold send_template, send_text.
  destruct req; [|exact I].
  apply prog_all_bind; [apply prog_all_act; now intros r v|].
  intros _. apply prog_all_act. now intros r v.
Qed.

Lemma stdio_calls_app (a b : list event) :
  stdio_calls (a ++ b) = (stdio_calls a ++ stdio_calls b)%list.
Proof. apply flat_map_app. Qed.

Lemma files_held_app (a b : list stdio_call) (held : bool) :
  files_held (a ++ b) held =
  match files_held a held with
  | Some h => files_held b h
  | None => None
  end.
Proof.
  revert held. induction a as [|c a IH]; intros held; [reflexivity|].
  cbn [app files_held]. destruct c as [p [|]|]; destruct held;
    try reflexivity; apply IH.
Qed.

Lemma stdio_calls_none (ok : event -> bool) (l : list event) :
  (forall ev, ok ev = true -> stdio_of ev = []) ->
  forallb ok l = true -> stdio_calls l = [].
Proof.
  intros Hok. induction l as [|ev l IH]; [reflexivity|].
  cbn [forallb]. intros H. apply andb_prop in H as [H1 H2].
  unfold stdio_calls. cbn [flat_map]. rewrite (Hok ev H1).
  exact (IH H2).
Qed.

Lemma stdio_calls_response (l : list event) :
  forallb is_response_event l = true -> stdio_calls l = [].
Proof. apply stdio_calls_none. now intros []. Qed.

(** The probes leave no file held. *)
Lemma files_held_quiet (q : list event) :
  forallb is_quiet_event q = true ->
  files_held (stdio_calls q) false = Some false.
Proof.
  induction q as [|ev q IH]; [reflexivity|].
  cbn [forallb]. intros H. apply andb_prop in H as [H1 H2].
  unfold stdio_calls. cbn [flat_map]. rewrite files_held_app.
  destruct ev; try discriminate H1; cbn [stdio_of files_held];
    try exact (IH H2).
  destruct (file_exists fs path); cbn [files_held]; exact (IH H2).
Qed.

Lemma std_fopen_count (tr : list event) :
  List.length (filter is_std_fopen (stdio_calls tr)) =
  List.length (filter is_file_probe tr) +
  List.length (filter is_any_fopen tr).
Proof.
  induction tr as [|ev tr IH]; [reflexivity|].
  unfold stdio_calls. cbn [flat_map]. rewrite filter_app, List.length_app.
  fold (stdio_calls tr). rewrite IH.
  destruct ev; cbn [stdio_of filter is_file_probe is_any_fopen is_std_fopen
                    List.length]; try lia.
  destruct (file_exists fs path);
    cbn [filter is_std_fopen List.length]; lia.
Qed.

Lemma resolve_fs_path_probe_bound (base : string) (fsx : filesystem)
      (uri : option string) :
  List.length (snd (resolve_fs_path base fsx uri)) <= 4.
Proof using.
  clear pdMS_TO_TICKS default_max_open_sockets.
  destruct uri as [uri|];
    [|rewrite (resolver_unrooted_none base fsx None); [cbn; lia | now left]].
  destruct (prefix "/" uri) eqn:Hs.
  - destruct (has_dotdot uri) eqn:Hd.
    + apply has_dotdot_iff in Hd.
      rewrite (resolver_dotdot_none base fsx uri Hd). cbn. lia.
    + rewrite resolve_accepted by assumption.
      destruct (logical_path_clean uri Hs Hd) as [Hls Hld].
      destruct (candidates_clean _ Hls Hld) as [_ Hlen].
      destruct (probe_candidates_log base fsx (candidates (logical_path uri)))
        as [Hl _].
      lia.
  - rewrite (resolver_unrooted_none base fsx (Some uri)); [cbn; lia|].
    right. now exists uri.
Qed.

(** The streamer holds one file at most and none when it returns; it
    makes no probe. *)
Lemma send_file_stream_files (full_path ctype : string) (is_gz : bool)
      (e : env) (n : nat) (w : world) :
  let o := exec (send_file_stream full_path ctype is_gz) e n w in
  files_held (stdio_calls (evs o)) false = Some false /\
  filter is_file_probe (evs o) = [].
Proof.
  cbv zeta. unfold send_file_stream.
  rewrite exec_bind, exec_act. cbn [res fin evs nxt fst snd].
  destruct (match fs full_path with
            | Some data => if r_ok (answer e n) then Some data else None
            | None => None
            end) as [data|].
  - exec_norm.
    match goal with
    | |- context [exec (stream_loop ?f data) ?e' ?n' ?w'] =>
        destruct (stream_loop_shape f data e' n' w' (Nat.le_refl _))
          as (cs & tail & Hevs & _ & _ & Htail & _)
    end.
    rewrite Hevs.
    change (snd (set_no_cache_headers _ _)) with no_cache_headers.
    assert (Hc : forallb is_response_event (map chunk_event cs) = true)
      by (clear; induction cs; cbn; auto).
    assert (Hh : forallb is_response_event
                   (EvRespSetType ctype
                    :: (if is_gz
                        then [EvRespSetHdr "Content-Encoding" "gzip"]
                        else [])) = true) by now destruct is_gz.
    split.
    + rewrite !stdio_calls_app, (stdio_calls_response _ Hc),
        (stdio_calls_response _ Hh),
        (stdio_calls_response no_cache_headers eq_refl).
      destruct Htail as [(-> & _) | ->]; reflexivity.
    + rewrite !filter_app,
        (filter_none is_file_probe is_response_event _ ltac:(now intros [])
                     Hc),
        (filter_none is_file_probe is_response_event _ ltac:(now intros [])
                     Hh).
      destruct Htail as [(-> & _) | ->]; reflexivity.
  - unfold send_text. rewrite exec_act. cbn [res fin evs nxt fst snd].
    split; reflexivity.
Qed.

Lemma try_serve_from_fs_probes (req : option httpd_req_t) (e : env) (n : nat)
      (w : world) :
  List.length (filter is_file_probe
                      (evs (exec (try_serve_from_fs req) e n w))) <= 4.
Proof.
  unfold try_serve_from_fs.
  destruct CONFIG_HTTP_SERVER_ENABLE_LITTLEFS; cbn [negb]; [|cbn; lia].
  destruct req as [rq|]; [|cbn; lia].
  destruct (String.eqb (req_uri rq) ""); [cbn; lia|].
  rewrite exec_bind. cbv zeta.
  set (m := exec ensure_fs_mounted e n w).
  assert (Hm : filter is_file_probe (evs m) = []).
  { subst m. unfold ensure_fs_mounted. rewrite exec_act. cbn.
    destruct (lock_mutex _ _ _); cbn; [|reflexivity].
    destruct (s_fs_mounted _); cbn; [reflexivity|].
    now destruct (r_rc (answer e n) =? ESP_OK)%Z. }
  cbn [evs]. rewrite filter_app, Hm. cbn [app].
  destruct (res m =? ESP_OK)%Z; cbn [negb]; [|cbn; lia].
  rewrite exec_bind, exec_act. cbv zeta. cbn [res fin evs nxt fst snd].
  pose proof (resolve_fs_path_probe_bound kFsBase fs (Some (req_uri rq)))
    as Hb.
  destruct (resolve_fs_path kFsBase fs (Some (req_uri rq))) as [a probes].
  cbn [res fin evs nxt fst snd] in *.
  assert (Hp : filter is_file_probe (map EvFileExists probes) =
               map EvFileExists probes)
    by (clear; induction probes as [|x l IH]; cbn; [|rewrite IH];
        reflexivity).
  rewrite filter_app, Hp, List.length_app, List.length_map.
  destruct a as [[full_path ctype is_gz]|]; [|cbn; lia].
  match goal with
  | |- context [exec (send_file_stream full_path ctype is_gz) ?e' ?n' ?w'] =>
      destruct (send_file_stream_files full_path ctype is_gz e' n' w')
        as [_ Hn]
  end.
  cbv zeta in Hn. rewrite Hn. cbn. lia.
Qed.

(** X8.  Neither handler leaks a file.  The calls of [fopen] and
    [fclose] of a run are those of [file_exists] (an open, and the close
    if the file opened) and those of [send_file_stream].  In every run
    of a handler, whatever the request and whatever the other tasks and
    the engine do, no file is opened while another is held, every close
    is the close of the file held, and no file is held when the handler
    returns; [fopen] is called at most five times, four of them at most
    by [file_exists] and one at most by [send_file_stream]. *)
Theorem handlers_close_what_they_open (req : option httpd_req_t)
        (e : env) (n : nat) (w : world) :
  let root := evs (exec (handle_root req) e n w) in
  let icon := evs (exec (handle_favicon_ico req) e n w) in
  (files_held (stdio_calls root) false = Some false /\
   List.length (filter is_std_fopen (stdio_calls root)) <= 5 /\
   List.length (filter is_file_probe root) <= 4 /\
   List.length (filter is_any_fopen root) <= 1) /\
  (files_held (stdio_calls icon) false = Some false /\
   List.length (filter is_std_fopen (stdio_calls icon)) <= 5 /\
   List.length (filter is_file_probe icon) <= 4 /\
   List.length (filter is_any_fopen icon) <= 1).
Proof.
  cbv zeta.
  destruct (try_serve_from_fs_files req e n w) as [_ Ho].
  pose proof (try_serve_from_fs_probes req e n w) as Hp.
  assert (Hh : files_held
                 (stdio_calls (evs (exec (try_serve_from_fs req) e n w)))
                 false = Some false).
  { destruct req as [rq|]; [|now rewrite try_serve_from_fs_null].
    destruct (try_serve_from_fs_cases rq e n w)
      as (quiet & Hq & [(-> & _) | (a & n' & w' & _ & -> & _)]).
    - now apply files_held_quiet.
    - rewrite stdio_calls_app, files_held_app, (files_held_quiet _ Hq).
      apply send_file_stream_files. }
  assert (Hall : forall tail,
             forallb is_response_event tail = true ->
             let tr := (evs (exec (try_serve_from_fs req) e n w) ++ tail)%list
             in
             files_held (stdio_calls tr) false = Some false /\
             List.length (filter is_std_fopen (stdio_calls tr)) <= 5 /\
             List.length (filter is_file_probe tr) <= 4 /\
             List.length (filter is_any_fopen tr) <= 1).
  { intros tail Ht. cbv zeta.
    assert (H1 : filter is_file_probe tail = [])
      by (apply (filter_none _ is_response_event); trivial; now intros []).
    assert (H2 : filter is_any_fopen tail = [])
      by (apply (filter_none _ is_response_event); trivial; now intros []).
    rewrite std_fopen_count, !filter_app, H1, H2, !List.app_nil_r,
      stdio_calls_app, (stdio_calls_response _ Ht), List.app_nil_r.
    split; [exact Hh|]. split; [lia|]. split; [exact Hp | exact Ho]. }
  split.
  - destruct (handle_root_split req e n w) as (tail & -> & Ht).
    exact (Hall tail Ht).
  - rewrite handle_favicon_ico_trace. cbv zeta.
    destruct (handler_tails_respond
                (res (exec (try_serve_from_fs req) e n w))) as [_ Ht].
    exact (Hall _ Ht).
Qed.

Lemma try_serve_from_fs_ok (rq : httpd_req_t) (e : env) (n : nat)
      (w : world) :
  let o := exec (try_serve_from_fs (Some rq)) e n w in
  res o = ESP_OK -> completes (evs o).
Proof.
  cbv zeta. intros Hres.
  destruct (try_serve_from_fs_cases rq e n w)
    as (quiet & Hq & [(_ & Hr) | (a & n' & w' & _ & Hevs & Hr)]).
  - rewrite Hres in Hr. destruct Hr as [Hr | [Hr | Hr]]; discriminate Hr.
  - destruct (send_file_stream_calls (out_full_path a) (out_ctype a)
                (out_is_gz a) e n' w') as (_ & _ & Hfin).
    rewrite Hres in Hr. rewrite Hevs. apply completes_app, Hfin.
    now symmetry.
Qed.

Lemma handler_tails_complete (rc : esp_err_t) :
  rc <> ESP_OK -> completes (root_tail rc) /\ completes (favicon_tail rc).
Proof.
  intros Hrc. unfold root_tail, favicon_tail.
  destruct (Z.eqb_spec rc ESP_OK) as [E|_]; [contradiction|].
  destruct (negb (rc =? ESP_ERR_NOT_FOUND)%Z &&
            negb (rc =? ESP_ERR_NOT_SUPPORTED)%Z); split.
  - exists [EvRespSetStatus "500 Internal Server Error";
            EvRespSetType "text/plain; charset=utf-8"],
           (EvRespSend ("Internal file server error" ++ LF)).
    now split.
  - exists [EvRespSetStatus "500 Internal Server Error";
            EvRespSetType "text/plain; charset=utf-8"],
           (EvRespSend ("Internal file server error" ++ LF)).
    now split.
  - exists (no_cache_headers ++
            [EvRespSetStatus "200 OK";
             EvRespSetType "text/html; charset=utf-8"])%list,
           (EvRespSend kRoot).
    now split.
  - exists (no_cache_headers ++ [EvRespSetType "image/x-icon"])%list,
           (EvRespSend kFaviconIco).
    now split.
Qed.

(** X9.  A handler never leaves a request without an answer: on every
    request, whatever the other tasks and the engine do, the last call of
    the root handler and of the icon handler is one that completes a
    response, a full send or the terminating chunk. *)
Theorem handlers_complete_response (rq : httpd_req_t) (e : env) (n : nat)
        (w : world) :
  completes (evs (exec (handle_root (Some rq)) e n w)) /\
  completes (evs (exec (handle_favicon_ico (Some rq)) e n w)).
Proof.
  rewrite handle_root_trace, handle_favicon_ico_trace. cbv zeta.
  pose proof (try_serve_from_fs_ok rq e n w) as Hok. cbv zeta in Hok.
  set (o := exec (try_serve_from_fs (Some rq)) e n w) in *.
  destruct (Z.eq_dec (res o) ESP_OK) as [E|E].
  - unfold root_tail, favicon_tail. rewrite E. cbn [Z.eqb ESP_OK].
    rewrite !List.app_nil_r. split; now apply Hok.
  - destruct (handler_tails_complete (res o) E) as [Hr Hf].
    split; now apply completes_app.
Qed.

Lemma filter_quiet_response (l : list event) :
  forallb is_quiet_event l = true -> filter is_response_event l = [].
Proof. apply filter_none. now intros []. Qed.

(** X10.  When the requested path resolves to no file, the icon handler
    answers with the embedded icon: the four cache headers, the icon
    content type and the embedded bytes, nothing else on the response,
    and its result is what the engine answered to that send. *)
Theorem favicon_fallback (rq : httpd_req_t) (e : env) (n : nat) (w : world) :
  req_uri rq <> ""%string ->
  fst (resolve_fs_path kFsBase fs (Some (req_uri rq))) = None ->
  let o := exec (handle_favicon_ico (Some rq)) e n w in
  filter is_response_event (evs o) = embedded_favicon_response /\
  res o = r_rc (answer e (Nat.pred (nxt o))).
Proof.
  intros Hu Hr. cbv zeta.
  destruct (try_serve_unresolved rq e n w Hu Hr) as [Hq Hres].
  cbv zeta in Hq, Hres. split.
  - rewrite handle_favicon_ico_trace. cbv zeta.
    rewrite filter_app, (filter_quiet_response _ Hq).
    destruct Hres as [-> | ->]; reflexivity.
  - unfold handle_favicon_ico. rewrite exec_bind. cbv zeta.
    cbn [res nxt].
    destruct Hres as [-> | ->]; cbn [Z.eqb negb andb ESP_ERR_NOT_SUPPORTED
      ESP_ERR_NOT_FOUND ESP_OK Pos.eqb]; exec_norm; reflexivity.
Qed.

(** X11.  In a build without LittleFS the handlers serve the embedded
    pages and nothing else: no step of theirs takes the lock, touches the
    statics or the volume; a request to the root handler is answered
    with exactly the embedded page, a request to the icon handler with
    exactly the embedded icon, and the root handler turns a null request
    down with [ESP_FAIL] without a call. *)
Theorem handlers_without_littlefs (req : option httpd_req_t)
        (rq : httpd_req_t) (e : env) (n : nat) (w : world) :
  CONFIG_HTTP_SERVER_ENABLE_LITTLEFS = false ->
  prog_all (fun A f => forall r v, snd (fst (f r v)) = v) (handle_root req) /\
  prog_all (fun A f => forall r v, snd (fst (f r v)) = v)
           (handle_favicon_ico req) /\
  evs (exec (handle_root (Some rq)) e n w) = embedded_root_response /\
  evs (exec (handle_favicon_ico req) e n w) = embedded_favicon_response /\
  exec (handle_root None) e n w = mkOutcome ESP_FAIL w [] n.
Proof.
  intros Hcfg. unfold handle_root, handle_favicon_ico, try_serve_from_fs.
  rewrite Hcfg. cbn [negb bind]. repeat split.
  cbn. destruct req; cbn; auto.
Qed.

(** ** Further properties of the life cycle *)

(** X12.  Left alone by the other tasks, [ensure_mutex] answers exactly
    whether the mutex exists when it returns, and with a positive answer
    the event group exists too: a failure to create the event group
    deletes the mutex again, also one that existed before the call.
    With both in place it makes no call and changes nothing. *)
Theorem ensure_mutex_outcome (e : env) (n : nat) (w : world) :
  undisturbed e ->
  let o := exec ensure_mutex e n w in
  res o = s_mutex (fin o) /\
  (res o = true -> s_evt (fin o) = true) /\
  (substrate w -> fin o = w /\ evs o = []) /\
  (s_evt w = false -> r_ok (answer e (S n)) = false -> res o = false).
Proof.
  intros Hq. cbv zeta.
  unfold ensure_mutex, substrate, ensure_mutex_sem, ensure_mutex_evt.
  cbn [bind act exec]. rewrite Hq.
  destruct (s_mutex w) eqn:Hm; [|destruct (r_ok (answer e n))];
    cbn [negb bind act exec res fin evs nxt app]; rewrite ?Hq;
    cbn [s_evt s_mutex set_s_mutex];
    try (destruct (s_evt w) eqn:He; [|destruct (r_ok (answer e (S n)))]);
    cbn; rewrite ?Hm; repeat split; intros; try discriminate;
    try congruence; try (destruct H; congruence).
Qed.

Lemma poll_delays_app (a b : list event) :
  poll_delays (a ++ b) = (poll_delays a ++ poll_delays b)%list.
Proof. apply flat_map_app. Qed.

(** The polling loop of [stop_worker_task]: [k] delays of 20 ms, and an
    answer of [true] only from a locked look at a cleared handle. *)
Lemma stop_worker_poll_trace (i : nat) :
  forall (e : env) (n : nat) (w : world),
    let o := exec (stop_worker_poll i) e n w in
    exists k,
      k <= i /\
      evs o = repeat (EvTaskDelay Poll (pdMS_TO_TICKS 20)) k /\
      (res o = true -> s_task (fin o) = None /\ s_mutex (fin o) = true) /\
      (res o = false -> k = i).
Proof.
  induction i as [|i IH]; intros e n w; cbv zeta; cbn [stop_worker_poll].
  - exists 0. cbn. repeat split; auto; discriminate.
  - rewrite exec_bind, exec_act. cbv zeta. cbn [res fin evs nxt fst snd].
    set (v := others e n w).
    assert (Hgo : forall b : bool,
               let o := exec (if b then Ret true
                              else act (fun _ w0 =>
                                          (tt, w0,
                                           [EvTaskDelay Poll
                                              (pdMS_TO_TICKS 20)])) ;;;
                                   stop_worker_poll i) e (S n) v in
               (b = true -> s_task v = None /\ s_mutex v = true) ->
               exists k,
                 k <= S i /\
                 ([] ++ evs o)%list =
                   repeat (EvTaskDelay Poll (pdMS_TO_TICKS 20)) k /\
                 (res o = true ->
                  s_task (fin o) = None /\ s_mutex (fin o) = true) /\
                 (res o = false -> k = S i)).
    { intros [|]; cbv zeta; intros Hb.
      - exists 0. cbn. repeat split; try lia; try discriminate; now apply Hb.
      - rewrite exec_bind, exec_act. cbv zeta. cbn [res fin evs nxt fst snd].
        match goal with
        | |- context [exec (stop_worker_poll i) ?e' ?n' ?w'] =>
            destruct (IH e' n' w') as (k & Hk & Hevs & Ht' & Hf)
        end.
        exists (S k). rewrite Hevs. cbn [repeat app].
        split; [lia|]. split; [reflexivity|].
        split; [exact Ht' | intros H; f_equal; auto]. }
    unfold lock_mutex.
    destruct (s_mutex v) eqn:Hm;
      [destruct (xSemaphoreTake (pdMS_TO_TICKS 50) (answer e n));
       [destruct (s_task v) eqn:Ht|]|];
      cbn [fst snd]; first [apply (Hgo true) | apply (Hgo false)];
      intros; try discriminate; auto.
Qed.

(** The run of [stop_worker_task]. *)
Lemma stop_worker_task_trace (e : env) (n : nat) (w : world) :
  let o := exec stop_worker_task e n w in
  exists wake k,
    evs o = (wake ++ repeat (EvTaskDelay Poll (pdMS_TO_TICKS 20)) k)%list /\
    k <= 50 /\
    (wake = [] \/ exists t, wake = [EvTaskNotifyGive t]) /\
    (res o = true -> s_task (fin o) = None /\ s_mutex (fin o) = true) /\
    (res o = false -> k = 50 \/ s_mutex (others e n w) = false).
Proof.
  cbv zeta. unfold stop_worker_task.
  rewrite exec_bind, exec_act. cbv zeta. cbn [res fin evs nxt fst snd].
  rewrite lock_mutex_forever. set (v := others e n w).
  destruct (s_mutex v) eqn:Hm; cbn [negb fst snd exec res fin evs nxt app].
  - destruct (s_task v) eqn:Ht; cbn [fst snd exec res fin evs nxt app].
    + rewrite exec_bind, exec_act. cbv zeta. cbn [res fin evs nxt fst snd].
      match goal with
      | |- context [exec (stop_worker_poll 50) ?e' ?n' ?w'] =>
          destruct (stop_worker_poll_trace 50 e' n' w')
            as (k & Hk & Hevs & Ht' & Hf)
      end.
      rewrite Hevs. cbn [app].
      eexists _, k. split; [reflexivity|]. split; [exact Hk|].
      split; [|split; [exact Ht' | intros H; left; auto]].
      unfold notify_worker.
      destruct (s_task (others e (S n) (set_s_task_exit true v))) as [t|];
        [right; exists t; reflexivity | left; reflexivity].
    + exists [], 0. cbn. repeat split; auto; try lia; discriminate.
  - exists [], 0. cbn. repeat split; auto; try lia.
Qed.

(** X13.  [stop_worker_task] waits a bounded time: after raising the
    exit flag and waking the worker once it polls at most 50 times, 20 ms
    apart, and nothing else; it answers [true] only when a look under the
    lock found the worker's handle cleared, and it answers [false] only
    without the mutex or after all 50 polls. *)
Theorem stop_worker_task_bounded (e : env) (n : nat) (w : world) :
  let o := exec stop_worker_task e n w in
  exists wake k,
    evs o = (wake ++ repeat (EvTaskDelay Poll (pdMS_TO_TICKS 20)) k)%list /\
    k <= 50 /\
    (wake = [] \/ exists t, wake = [EvTaskNotifyGive t]) /\
    (res o = true -> s_task (fin o) = None /\ s_mutex (fin o) = true) /\
    (res o = false -> k = 50 \/ s_mutex (others e n w) = false).
Proof. exact (stop_worker_task_trace e n w). Qed.

Lemma stop_server_trace (e : env) (n : nat) (w : world) :
  let o := exec stop_server e n w in
  evs o = [] \/
  exists srv, s_server (others e n w) = Some srv /\ evs o = [EvHttpdStop srv].
Proof.
  cbv zeta. unfold stop_server. rewrite exec_bind, exec_act. cbv zeta.
  cbn [res fin evs nxt fst snd].
  destruct (lock_mutex _ _ _); cbn [negb fst snd exec evs app];
    [|now left].
  destruct (s_server _) as [srv|]; cbn [fst snd exec evs app]; [|now left].
  right. exists srv. now rewrite exec_act.
Qed.

Lemma stop_pieces_keep :
  prog_all (keeps substrate) (act notify_worker) /\
  prog_all (keeps substrate) stop_worker_task /\
  prog_all (keeps substrate) clear_deferred_state /\
  prog_all (keeps substrate) stop_server.
Proof.
  unfold stop_worker_task, clear_deferred_state, stop_server.
  split; [|split; [|split]].
  - apply prog_all_act. keeps_substrate_tac.
  - apply prog_all_bind; [apply prog_all_act; keeps_substrate_tac|].
    intros [b|]; [exact I|].
    apply prog_all_bind; [apply prog_all_act; keeps_substrate_tac|].
    intros _. apply stop_worker_poll_keeps.
  - apply prog_all_act. keeps_substrate_tac.
  - prog_all_tac keeps_substrate_tac.
Qed.

(** X14.  [stop], once the mutex and the event group are in place and as
    long as the other tasks leave them in place: in [STOPPED] it returns
    at once, with no call and no change; in every other state it wakes
    the worker (at most twice), polls for its exit at most 50 times 20 ms
    apart, stops the engine at most once, and returns with the state
    [STOPPED] and the readiness bit clear, whether or not the worker
    went away in time. *)
Theorem stop_spec (e : env) (n : nat) (w : world) :
  ensure_ok e n w ->
  keeps_substrate e ->
  let oe := exec ensure_mutex e n w in
  let wc := others e (nxt oe) (fin oe) in
  let o := exec stop e n w in
  (s_state wc = STOPPED -> evs o = evs oe /\ fin o = wc) /\
  (s_state wc <> STOPPED ->
   s_state (fin o) = STOPPED /\ ready_bit (fin o) = false /\
   exists wake k stops,
     evs o = (evs oe ++ wake ++
              repeat (EvTaskDelay Poll (pdMS_TO_TICKS 20)) k ++ stops)%list /\
     forallb is_notify wake = true /\ List.length wake <= 2 /\ k <= 50 /\
     (stops = [] \/ exists srv, stops = [EvHttpdStop srv])).
Proof.
  intros Hok Hk oe wc o. subst o.
  pose proof (Hk (nxt oe) (fin oe) (proj2 Hok)) as Hwc. fold wc in Hwc.
  destruct stop_pieces_keep as (Kn & Kw & Kc & Ks).
  assert (Hke : forall m v, substrate v -> substrate (others e m v))
    by (intros m v; apply Hk).
  unfold stop. rewrite exec_after_ensure by assumption. cbv zeta. fold oe.
  cbn [negb]. rewrite exec_bind, exec_act. cbv zeta. fold wc.
  cbn [res fin evs nxt fst snd].
  set (w1 := set_s_task_exit true
               (set_ready_bit false (set_s_state STOPPING wc))).
  assert (Hsb : stop_begin (answer e (nxt oe)) wc =
                match s_state wc with
                | STOPPED => (None, wc, [])
                | _ => (Some (s_task wc), w1, [])
                end).
  { unfold stop_begin. rewrite lock_mutex_forever, (proj1 Hwc).
    reflexivity. }
  rewrite Hsb. clear Hsb. split.
  - intros St. rewrite St. cbn [fst snd exec evs fin app].
    now rewrite List.app_nil_r.
  - intros St.
    replace (match s_state wc with
             | STOPPED => (None, wc, [])
             | _ => (Some (s_task wc), w1, [])
             end) with (Some (s_task wc), w1, @nil event)
      by (destruct (s_state wc); congruence).
    cbn [fst snd app].
    assert (S1 : substrate w1) by exact Hwc.
    rewrite exec_bind. cbv zeta.
    set (o1 := exec (match s_task wc with
                     | Some _ => act notify_worker
                     | None => Ret tt
                     end) e (S (nxt oe)) w1).
    assert (S2 : substrate (fin o1)).
    { apply exec_keeps; trivial. destruct (s_task wc); [exact Kn | exact I]. }
    assert (E1 : forallb is_notify (evs o1) = true /\
                 List.length (evs o1) <= 1).
    { subst o1. destruct (s_task wc); [|cbn; split; [reflexivity | lia]].
      rewrite exec_act. cbn [evs]. unfold notify_worker.
      destruct (s_task _); cbn; split; trivial; lia. }
    rewrite exec_bind. cbv zeta.
    set (o2 := exec stop_worker_task e (nxt o1) (fin o1)).
    assert (S3 : substrate (fin o2)) by (apply exec_keeps; trivial).
    destruct (stop_worker_task_trace e (nxt o1) (fin o1))
      as (wake & k & E2 & Hk50 & Hwake & _). fold o2 in E2.
    rewrite exec_bind. cbv zeta.
    set (o3 := exec clear_deferred_state e (nxt o2) (fin o2)).
    assert (S4 : substrate (fin o3)) by (apply exec_keeps; trivial).
    assert (E3 : evs o3 = []) by reflexivity.
    rewrite exec_bind. cbv zeta.
    set (o4 := exec stop_server e (nxt o3) (fin o3)).
    assert (S5 : substrate (fin o4)) by (apply exec_keeps; trivial).
    pose proof (stop_server_trace e (nxt o3) (fin o3)) as E4.
    cbv zeta in E4. fold o4 in E4.
    rewrite exec_act. cbn [res fin evs nxt].
    unfold stop_finish. rewrite lock_mutex_forever.
    rewrite (proj1 (Hke (nxt o4) _ S5)). cbn [fst snd].
    split; [reflexivity|]. split; [reflexivity|].
    exists (evs o1 ++ wake)%list, k,
           (evs o4).
    split; [|split; [|split; [|split]]].
    + rewrite E2, E3. cbn [app]. rewrite List.app_nil_r.
      now rewrite <- !List.app_assoc.
    + rewrite forallb_app, (proj1 E1).
      destruct Hwake as [-> | [t ->]]; reflexivity.
    + rewrite List.length_app.
      destruct Hwake as [-> | [t ->]]; cbn [List.length]; lia.
    + exact Hk50.
    + destruct E4 as [-> | (srv & _ & ->)]; [now left | right; now exists srv].
Qed.

Lemma register_uri_internal_run (u : string) (m : httpd_method_t)
      (h : handler_fn) (srv : nat) (e : env) (n : nat) (w : world) :
  undisturbed e ->
  s_mutex w = true ->
  s_server w = Some srv ->
  exec (register_uri_internal (Some u) m (Some h)) e n w =
  if State_eqb (s_state w) STARTING || State_eqb (s_state w) RUNNING
  then mkOutcome (r_rc (answer e n)) w [EvRegisterUri srv u m h] (S n)
  else mkOutcome ESP_ERR_INVALID_STATE w [] (S n).
Proof.
  intros Hq Hm Hs. unfold register_uri_internal.
  rewrite exec_act, Hq, lock_mutex_forever, Hm, Hs. cbn [negb].
  destruct (State_eqb (s_state w) STARTING),
           (State_eqb (s_state w) RUNNING); reflexivity.
Qed.

Lemma stop_server_run (srv : nat) (e : env) (n : nat) (w : world) :
  undisturbed e ->
  s_mutex w = true ->
  s_server w = Some srv ->
  exec stop_server e n w =
  mkOutcome tt (set_s_server None w) [EvHttpdStop srv] (S (S n)).
Proof.
  intros Hq Hm Hs. unfold stop_server.
  rewrite exec_bind, exec_act. cbv zeta.
  rewrite Hq, lock_mutex_forever, Hm, Hs. cbn [negb fst snd res fin evs nxt].
  rewrite exec_act, Hq. reflexivity.
Qed.

(** The mount step of [start_server] leaves everything but the mount
    flag as it was and calls only the file system. *)
Lemma start_server_mount_run (e : env) (n : nat) (w : world) :
  undisturbed e ->
  let o := exec (if CONFIG_HTTP_SERVER_ENABLE_LITTLEFS
                 then ensure_fs_mounted else Ret ESP_OK) e n w in
  (fin o = w \/ fin o = set_s_fs_mounted true w) /\
  forallb is_quiet_event (evs o) = true.
Proof.
  intros Hq. cbv zeta.
  destruct CONFIG_HTTP_SERVER_ENABLE_LITTLEFS; [|cbn; auto].
  unfold ensure_fs_mounted. rewrite exec_act, Hq.
  destruct (lock_mutex _ _ _); cbn [negb]; [|cbn; auto].
  destruct (s_fs_mounted w); [cbn; auto|].
  destruct (r_rc (answer e n) =? ESP_OK)%Z; cbn; auto.
Qed.

Lemma start_server_mount_nxt (e : env) (n : nat) (w : world) :
  nxt (exec (if CONFIG_HTTP_SERVER_ENABLE_LITTLEFS
             then ensure_fs_mounted else Ret ESP_OK) e n w) =
  n + (if CONFIG_HTTP_SERVER_ENABLE_LITTLEFS then 1 else 0).
Proof.
  destruct CONFIG_HTTP_SERVER_ENABLE_LITTLEFS; cbn [exec nxt]; [|lia].
  unfold ensure_fs_mounted. rewrite exec_act. cbn [nxt]. lia.
Qed.

Lemma answer_at (e : env) (n i : nat) (rc : esp_err_t) :
  r_rc (answer e (i + n)) = rc -> r_rc (answer e (n + i)) = rc.
Proof. now rewrite Nat.add_comm. Qed.

(** The registrations of [start_server] on a started engine: the
    routes are registered in order up to the first one the engine
    refuses, whose error is the result. *)
Lemma start_server_routes (srv : nat) (e : env) (n : nat) (w : world) :
  undisturbed e ->
  s_mutex w = true ->
  s_server w = Some srv ->
  let o :=
    exec (reg_rc <- register_uri_internal (Some "/"%string) HTTP_GET
                                          (Some handle_root_fn) ;;
          if negb (reg_rc =? ESP_OK)%Z then start_server_fail reg_rc else
          reg_rc <- register_uri_internal (Some "/index.html"%string) HTTP_GET
                                          (Some handle_root_fn) ;;
          if negb (reg_rc =? ESP_OK)%Z then start_server_fail reg_rc else
          reg_rc <- register_uri_internal (Some "/index.htm"%string) HTTP_GET
                                          (Some handle_root_fn) ;;
          if negb (reg_rc =? ESP_OK)%Z then start_server_fail reg_rc else
          reg_rc <- register_uri_internal (Some "/favicon.ico"%string) HTTP_GET
                                          (Some handle_favicon_ico_fn) ;;
          if negb (reg_rc =? ESP_OK)%Z then start_server_fail reg_rc else
          Ret ESP_OK) e n w in
  exists k,
    k <= 4 /\
    evs o = (firstn k (builtin_routes srv) ++
             (if (res o =? ESP_OK)%Z then [] else [EvHttpdStop srv]))%list /\
    fin o = (if (res o =? ESP_OK)%Z then w else set_s_server None w) /\
    (res o = ESP_OK -> k = 4) /\
    (State_eqb (s_state w) STARTING || State_eqb (s_state w) RUNNING = false ->
     k = 0 /\ res o = ESP_ERR_INVALID_STATE) /\
    (State_eqb (s_state w) STARTING || State_eqb (s_state w) RUNNING = true ->
     (forall i, S i < k -> r_rc (answer e (n + i)) = ESP_OK) /\
     (res o <> ESP_OK ->
      exists j, k = S j /\ r_rc (answer e (n + j)) = res o) /\
     (res o = ESP_OK -> forall i, i < 4 -> r_rc (answer e (n + i)) = ESP_OK)).
Proof.
  intros Hq Hm Hs. cbv zeta.
  assert (Hfail : forall rc m,
             (rc =? ESP_OK)%Z = false ->
             exec (start_server_fail rc) e m w =
             mkOutcome rc (set_s_server None w) [EvHttpdStop srv]
                       (S (S m))).
  { intros rc m Hrc. unfold start_server_fail. rewrite exec_bind.
    cbv zeta. now rewrite (stop_server_run srv). }
  rewrite exec_bind. cbv zeta.
  rewrite (register_uri_internal_run _ _ _ srv) by assumption.
  destruct (State_eqb (s_state w) STARTING || State_eqb (s_state w) RUNNING)
           eqn:Hst; cbn [res fin evs nxt].
  2: { cbn [Z.eqb ESP_ERR_INVALID_STATE ESP_OK negb].
       rewrite Hfail by reflexivity. cbn [res fin evs nxt].
       exists 0. cbn. repeat split; auto; try lia; discriminate. }
  destruct (Z.eqb_spec (r_rc (answer e n)) ESP_OK) as [R1|R1]; cbn [negb].
  2: { rewrite Hfail by now apply Z.eqb_neq. cbn [res fin evs nxt].
       apply Z.eqb_neq in R1 as R1'. rewrite R1'.
       exists 1. split; [lia|]. do 3 (split; [auto; congruence|]).
       split; [discriminate|]. intros _.
       split; [intros i Hi; lia|]. split; [|congruence].
       intros _. exists 0. split; [reflexivity|].
       apply answer_at. reflexivity. }
  rewrite exec_bind. cbv zeta.
  rewrite (register_uri_internal_run _ _ _ srv), Hst by assumption.
  cbn [res fin evs nxt].
  destruct (Z.eqb_spec (r_rc (answer e (S n))) ESP_OK) as [R2|R2];
    cbn [negb].
  2: { rewrite Hfail by now apply Z.eqb_neq. cbn [res fin evs nxt].
       apply Z.eqb_neq in R2 as R2'. rewrite R2'.
       exists 2. split; [lia|]. do 3 (split; [auto; congruence|]).
       split; [discriminate|]. intros _.
       split; [|split; [|congruence]].
       - intros [|i] Hi; [|lia]. apply answer_at. exact R1.
       - intros _. exists 1. split; [reflexivity|].
         apply answer_at. reflexivity. }
  rewrite exec_bind. cbv zeta.
  rewrite (register_uri_internal_run _ _ _ srv), Hst by assumption.
  cbn [res fin evs nxt].
  destruct (Z.eqb_spec (r_rc (answer e (S (S n)))) ESP_OK) as [R3|R3];
    cbn [negb].
  2: { rewrite Hfail by now apply Z.eqb_neq. cbn [res fin evs nxt].
       apply Z.eqb_neq in R3 as R3'. rewrite R3'.
       exists 3. split; [lia|]. do 3 (split; [auto; congruence|]).
       split; [discriminate|]. intros _.
       split; [|split; [|congruence]].
       - intros [|[|i]] Hi; [| |lia]; apply answer_at; assumption.
       - intros _. exists 2. split; [reflexivity|].
         apply answer_at. reflexivity. }
  rewrite exec_bind. cbv zeta.
  rewrite (register_uri_internal_run _ _ _ srv), Hst by assumption.
  cbn [res fin evs nxt].
  destruct (Z.eqb_spec (r_rc (answer e (S (S (S n))))) ESP_OK) as [R4|R4];
    cbn [negb].
  2: { rewrite Hfail by now apply Z.eqb_neq. cbn [res fin evs nxt].
       apply Z.eqb_neq in R4 as R4'. rewrite R4'.
       exists 4. split; [lia|]. do 3 (split; [auto; congruence|]).
       split; [discriminate|]. intros _.
       split; [|split; [|congruence]].
       - intros [|[|[|i]]] Hi; [| | |lia]; apply answer_at; assumption.
       - intros _. exists 3. split; [reflexivity|].
         apply answer_at. reflexivity. }
  cbn [exec res fin evs nxt]. exists 4.
  split; [lia|]. do 3 (split; [auto|]).
  split; [discriminate|]. intros _.
  split; [|split; [intros H; now contradiction H|]].
  - intros [|[|[|i]]] Hi; [| | |lia]; apply answer_at; assumption.
  - intros _ [|[|[|[|i]]]] Hi; [| | | |lia]; apply answer_at; assumption.
Qed.

Lemma filter_quiet_engine (l : list event) :
  forallb is_quiet_event l = true -> filter is_engine_call l = [].
Proof. apply filter_none. now intros []. Qed.

Lemma filter_engine_routes (srv k : nat) :
  filter is_engine_call (firstn k (builtin_routes srv)) =
  firstn k (builtin_routes srv).
Proof. do 5 (destruct k as [|k]; [reflexivity|]). reflexivity. Qed.

(** X15.  [start_server], holding the mutex and left alone by the other
    tasks, answers [ESP_OK] exactly when it leaves an engine behind.
    With an engine already there it does nothing.  Otherwise it starts
    one; if that fails the engine's error is the answer.  On a started
    engine, in [STARTING] or [RUNNING], it registers the four built-in
    routes in order up to the first registration the engine refuses:
    every registration before that one was accepted, the error of that
    one is the answer of [start_server], and the engine is stopped
    again, so that a failed start leaves no engine; if the engine
    accepts all four the answer is [ESP_OK].  Outside [STARTING] and
    [RUNNING] the first registration is refused without a call of the
    engine, and the engine just started is stopped.  (The registrations
    take the answers after the one of [httpd_start] and, in a build with
    LittleFS, the one of the mount.) *)
Theorem start_server_outcome (e : env) (n : nat) (w : world) :
  undisturbed e ->
  s_mutex w = true ->
  let o := exec start_server e n w in
  let reg i :=
    r_rc (answer e (S n + (if CONFIG_HTTP_SERVER_ENABLE_LITTLEFS
                           then 1 else 0) + i)) in
  (res o = ESP_OK <-> s_server (fin o) <> None) /\
  (s_server w <> None -> fin o = w /\ evs o = []) /\
  (s_server w = None ->
   (r_rc (answer e n) <> ESP_OK ->
    res o = r_rc (answer e n) /\ evs o = [EvHttpdStart]) /\
   (r_rc (answer e n) = ESP_OK ->
    exists k,
      k <= 4 /\
      filter is_engine_call (evs o) =
        (EvHttpdStart :: firstn k (builtin_routes (httpd_seq w)) ++
         (if (res o =? ESP_OK)%Z then []
          else [EvHttpdStop (httpd_seq w)]))%list /\
      (res o = ESP_OK -> k = 4) /\
      (State_eqb (s_state w) STARTING || State_eqb (s_state w) RUNNING
       = false -> k = 0 /\ res o = ESP_ERR_INVALID_STATE) /\
      (State_eqb (s_state w) STARTING || State_eqb (s_state w) RUNNING
       = true ->
       (forall i, S i < k -> reg i = ESP_OK) /\
       (res o <> ESP_OK -> exists j, k = S j /\ reg j = res o) /\
       (res o = ESP_OK -> forall i, i < 4 -> reg i = ESP_OK)))).
Proof.
  intros Hq Hm. cbv zeta. unfold start_server.
  rewrite exec_bind, exec_act. cbv zeta. rewrite Hq.
  unfold start_server_begin. rewrite lock_mutex_forever, Hm. cbn [negb].
  destruct (s_server w) as [srv0|] eqn:Hs.
  { cbn. rewrite Hs. repeat split; auto; try discriminate; congruence. }
  destruct (Z.eqb_spec (r_rc (answer e n)) ESP_OK) as [R0|R0]; cbn [negb].
  2: { cbn. repeat split; auto; try congruence; try contradiction. }
  cbn [fst snd res fin evs nxt].
  set (w1 := set_httpd_seq _ _).
  rewrite exec_bind. cbv zeta.
  destruct (start_server_mount_run e (S n) w1 Hq) as [Hfin Hquiet].
  cbv zeta in Hfin, Hquiet.
  pose proof (start_server_mount_nxt e (S n) w1) as Hnxt.
  set (om := exec (if CONFIG_HTTP_SERVER_ENABLE_LITTLEFS
                   then ensure_fs_mounted else Ret ESP_OK) e (S n) w1) in *.
  assert (Hm2 : s_mutex (fin om) = true)
    by (destruct Hfin as [-> | ->]; exact Hm).
  assert (Hs2 : s_server (fin om) = Some (httpd_seq w))
    by (destruct Hfin as [-> | ->]; reflexivity).
  assert (Hst2 : s_state (fin om) = s_state w)
    by (destruct Hfin as [-> | ->]; reflexivity).
  destruct (start_server_routes (httpd_seq w) e (nxt om) (fin om) Hq Hm2 Hs2)
    as (k & Hk & Hevs & Hfin2 & Hk4 & Hk0 & Hreg).
  cbv zeta in Hevs, Hfin2, Hk4, Hk0, Hreg.
  match type of Hevs with
  | evs ?x = _ => set (o := x) in *
  end.
  cbn [res fin evs nxt].
  assert (Hres : res o = ESP_OK <-> s_server (fin o) <> None).
  { rewrite Hfin2. destruct (Z.eqb_spec (res o) ESP_OK) as [E|E].
    - rewrite Hs2. split; [discriminate | trivial].
    - cbn. split; [contradiction | congruence]. }
  split; [exact Hres|].
  split; [intros H; now contradiction H|]. intros _.
  split; [intros H; now contradiction H|]. intros _. exists k.
  split; [exact Hk|]. split; [|split; [exact Hk4|split]].
  - rewrite Hevs. cbn [app filter is_engine_call].
    rewrite !filter_app, (filter_quiet_engine _ Hquiet), filter_engine_routes.
    cbn [app]. now destruct (res o =? ESP_OK)%Z.
  - intros Hst. apply Hk0. now rewrite Hst2.
  - intros Hst. rewrite <- Hnxt. apply Hreg. now rewrite Hst2.
Qed.

(** X16.  [start_worker_task] never leaves a task behind that nobody
    holds: the only task it deletes is the one it has just created, when
    it finds a worker stored in the meantime.  Holding the mutex and left
    alone by the other tasks, it answers [true] exactly when a worker
    handle is stored on return; with a worker already stored it does
    nothing, and the exit flag stays as it is; otherwise it clears the
    exit flag, creates one task and stores its handle, or answers [false]
    when the task cannot be created. *)
Theorem start_worker_task_outcome (e : env) (n : nat) (w : world) :
  let o := exec start_worker_task e n w in
  let w1 := others e n w in
  let w2 := others e (S n) (set_s_task_exit false w1) in
  (forall t, In (EvTaskDelete t) (evs o) ->
             s_task w1 = None /\ r_ok (answer e (S n)) = true /\
             t = List.length (tasks w2)) /\
  (undisturbed e -> s_mutex w = true ->
   (res o = true <-> s_task (fin o) <> None) /\
   (s_task w <> None -> fin o = w /\ evs o = []) /\
   (s_task w = None ->
    evs o = [EvTaskCreate] /\ s_task_exit (fin o) = false /\
    (r_ok (answer e (S n)) = true ->
     s_task (fin o) = Some (List.length (tasks w)) /\
     tasks (fin o) = (tasks w ++ [mkTask T_ENTRY O])%list) /\
    (r_ok (answer e (S n)) = false -> tasks (fin o) = tasks w))).
Proof.
  cbv zeta. unfold start_worker_task.
  rewrite exec_bind, exec_act. cbv zeta. cbn [res fin evs nxt].
  rewrite lock_mutex_forever. split.
  - intros t.
    destruct (s_mutex (others e n w)); cbn [negb fst snd exec evs app];
      [|intros []].
    destruct (s_task (others e n w)); cbn [fst snd exec evs app];
      [intros []|].
    rewrite exec_bind, exec_act. cbv zeta. cbn [res fin evs nxt].
    destruct (r_ok (answer e (S n))); cbn [fst snd exec evs app];
      [|intros [H | []]; discriminate H].
    rewrite exec_bind, exec_act. cbv zeta. cbn [res fin evs nxt].
    rewrite lock_mutex_forever.
    destruct (s_mutex _); cbn [negb fst snd];
      [destruct (s_task _); cbn [fst snd]|];
      exec_norm; cbn [vTaskDelete fst snd app];
      intros H; repeat (destruct H as [H | H]; try discriminate H);
      try contradiction; injection H as <-; auto.
  - intros Hq Hm. rewrite !Hq, Hm. cbn [negb].
    destruct (s_task w) eqn:Ht; cbn [fst snd exec res fin evs nxt app].
    + rewrite Ht. repeat split; auto; try discriminate; congruence.
    + rewrite exec_bind, exec_act. cbv zeta. cbn [res fin evs nxt].
      rewrite !Hq.
      destruct (r_ok (answer e (S n))); cbn [fst snd exec res fin evs nxt app].
      * rewrite exec_bind, exec_act. cbv zeta. cbn [res fin evs nxt].
        rewrite !Hq, lock_mutex_forever. cbn [s_mutex set_tasks
          set_s_task_exit s_task]. rewrite Hm, Ht.
        cbn. repeat split; auto; try discriminate; congruence.
      * cbn. rewrite Ht. repeat split; auto; try discriminate; congruence.
Qed.

Lemma nth_error_update_task (j : nat) (f : task -> task) (l : list task) :
  nth_error (update_task j f l) j = option_map f (nth_error l j).
Proof.
  revert j. induction l as [|t l IH]; intros [|j]; cbn; auto.
Qed.

Lemma update_task_twice (j : nat) (f g : task -> task) (l : list task) :
  update_task j g (update_task j f l) = update_task j (fun t => g (f t)) l.
Proof.
  revert j. induction l as [|t l IH]; intros [|j]; cbn; auto.
  now rewrite IH.
Qed.

(** X17.  The worker between wake-ups.  Blocked in its wait with
    notifications pending and the mutex in place, it takes all pending
    notifications as one and looks at the exit flag under the lock.
    With the flag clear it goes back to its wait, blocked, having changed
    nothing else.  With the flag set it leaves the loop, clears the
    readiness bit and its own handle under the lock and deletes itself:
    after three schedulings it is gone for good, and the state variable
    was not touched. *)
Theorem worker_wake_up (j c : nat) (w : world) :
  nth_error (tasks w) j = Some (mkTask T_WAIT (S c)) ->
  s_mutex w = true ->
  s_evt w = true ->
  if s_task_exit w
  then exists w',
      run_task j 3 w = Some w' /\
      s_task w' = None /\ ready_bit w' = false /\
      s_state w' = s_state w /\
      nth_error (tasks w') j = Some (mkTask T_DELETED O) /\
      http_srv_task j w' = None
  else exists w',
      run_task j 2 w = Some w' /\
      w' = set_tasks (update_task j (fun _ => mkTask T_WAIT O) (tasks w)) w /\
      http_srv_task j w' = None.
Proof.
  intros Hj Hm He.
  assert (Hstep1 : http_srv_task j w =
                   Some (set_tasks
                           (update_task j (fun _ => mkTask T_CHECK O)
                                        (tasks w)) w)).
  { unfold http_srv_task. now rewrite Hj. }
  destruct (s_task_exit w) eqn:Hx.
  - eexists. cbn [run_task]. rewrite Hstep1.
    unfold http_srv_task at 1. cbn [tasks set_tasks].
    rewrite nth_error_update_task, Hj. cbn [option_map t_pc].
    cbn [s_mutex s_task_exit set_tasks]. rewrite Hm, Hx. cbn [andb].
    unfold http_srv_task at 1, set_task_pc. cbn [tasks set_tasks].
    rewrite update_task_twice, nth_error_update_task, Hj.
    cbn [option_map t_pc t_notify s_evt s_mutex set_tasks]. rewrite He, Hm.
    split; [reflexivity|].
    cbn [s_task ready_bit s_state set_tasks set_s_task set_ready_bit tasks].
    rewrite !update_task_twice.
    repeat split.
    + now rewrite nth_error_update_task, Hj.
    + unfold http_srv_task. cbn [tasks set_tasks].
      now rewrite nth_error_update_task, Hj.
  - eexists. cbn [run_task]. rewrite Hstep1.
    unfold http_srv_task at 1. cbn [tasks set_tasks].
    rewrite nth_error_update_task, Hj. cbn [option_map t_pc].
    cbn [s_mutex s_task_exit set_tasks]. rewrite Hm, Hx. cbn [andb].
    unfold set_task_pc. cbn [tasks set_tasks].
    rewrite update_task_twice. cbn [t_notify].
    split; [reflexivity|]. split; [reflexivity|].
    unfold http_srv_task. cbn [tasks set_tasks].
    now rewrite nth_error_update_task, Hj.
Qed.

(** ** An invariant of the system *)
















(** ** Further properties of the public interface *)

(** X19.  [is_running], once the mutex and the event group are in
    place, answers [true] exactly when the state read under the lock is
    [RUNNING], in every other state [false]; it makes no call of its own
    and changes nothing. *)
Theorem is_running_spec (e : env) (n : nat) (w : world) :
  ensure_ok e n w ->
  keeps_substrate e ->
  let oe := exec ensure_mutex e n w in
  let wc := others e (nxt oe) (fin oe) in
  let o := exec is_running e n w in
  (res o = true <-> s_state wc = RUNNING) /\
  evs o = evs oe /\ fin o = wc /\ nxt o = S (nxt oe).
Proof.
  intros Hok Hk oe wc o. subst o.
  pose proof (Hk (nxt oe) (fin oe) (proj2 Hok)) as [Hm He].
  fold wc in Hm, He.
  unfold is_running.
  rewrite !exec_after_ensure by assumption. cbv zeta. fold oe.
  cbn [negb]. rewrite exec_act. fold wc.
  rewrite !lock_mutex_forever, Hm. cbn [negb fst snd res fin evs nxt].
  rewrite List.app_nil_r.
  split; [|repeat split].
  destruct (s_state wc); cbn; split; intros H; try discriminate H;
    reflexivity.
Qed.

(** X20.  The registration used while starting and the public one
    differ in one state only.  Run at the same point, with the mutex and
    the event group in place, [register_uri_internal] and [register_uri]
    give the same answer and make the same call in every state but
    [STARTING]; in [STARTING], with an engine started, the internal one
    registers on it and hands back the engine's answer, and the public
    one answers [ESP_ERR_INVALID_STATE] without a call.  Neither changes
    the statics. *)
Theorem register_uri_internal_vs_public (u : string) (m : httpd_method_t)
        (h : handler_fn) (e : env) (n : nat) (w : world) :
  ensure_ok e n w ->
  keeps_substrate e ->
  let oe := exec ensure_mutex e n w in
  let wc := others e (nxt oe) (fin oe) in
  let o := exec (register_uri (Some u) m (Some h)) e n w in
  let oi := exec (register_uri_internal (Some u) m (Some h))
                 e (nxt oe) (fin oe) in
  fin oi = wc /\ fin o = wc /\
  (s_state wc <> STARTING ->
   res o = res oi /\ evs o = (evs oe ++ evs oi)%list) /\
  (s_state wc = STARTING ->
   forall srv, s_server wc = Some srv ->
     res o = ESP_ERR_INVALID_STATE /\ evs o = evs oe /\
     res oi = r_rc (answer e (nxt oe)) /\
     evs oi = [EvRegisterUri srv u m h]).
Proof.
  intros Hok Hk oe wc o oi. subst o oi.
  pose proof (Hk (nxt oe) (fin oe) (proj2 Hok)) as [Hm He].
  fold wc in Hm, He.
  unfold register_uri, register_uri_internal.
  rewrite !exec_after_ensure by assumption. cbv zeta. fold oe.
  cbn [negb]. rewrite !exec_act. fold wc.
  rewrite !lock_mutex_forever, Hm. cbn [negb res fin evs nxt].
  destruct (s_server wc) as [srv0|]; destruct (s_state wc) eqn:St;
    cbn [State_eqb negb andb fst snd]; rewrite ?List.app_nil_r;
    repeat split; try reflexivity; try congruence; try discriminate;
    intros; try congruence; try discriminate.
Qed.

(** ** The start-up, run by run *)

(** A program run among tasks that leave alone the statics it keeps in
    [I] runs as if it were alone. *)
Lemma exec_left_alone (I : world -> Prop) {R : Type} (p : prog R)
      (e : env) :
  (forall m v, I v -> others e m v = v) ->
  forall (n : nat) (w : world),
    prog_all (keeps I) p -> I w ->
    exec p e n w = exec p (answers_of e) n w.
Proof.
  intros He. induction p as [r | A f k IH]; intros n w Hp Hw;
    [reflexivity|].
  cbn [exec]. cbn [prog_all] in Hp. destruct Hp as [Hf Hk].
  rewrite He by exact Hw. cbn [answers_of others answer].
  specialize (Hf (answer e n) w Hw).
  destruct (f (answer e n) w) as [[a w1] ev]. cbn [fst snd] in Hf.
  now rewrite IH.
Qed.

Lemma answers_of_undisturbed (e : env) : undisturbed (answers_of e).
Proof. intros m v. reflexivity. Qed.

Lemma undisturbed_keeps_substrate (e : env) :
  undisturbed e -> keeps_substrate e.
Proof. intros Hq m v Hv. now rewrite Hq. Qed.

Lemma milestones_quiet (l : list event) :
  forallb is_quiet_event l = true -> milestones l = [].
Proof.
  intros H. apply milestones_none. rewrite forallb_forall in H |- *.
  intros ev Hin. specialize (H _ Hin). now destruct ev.
Qed.

(** [start], once past its opening section, is the loop of five
    attempts, entered with the state [STARTING] and the readiness bit
    and the exit flag clear. *)
Lemma start_enters (e : env) (n : nat) (w : world) :
  let oe := exec ensure_mutex e n w in
  let wc := others e (nxt oe) (fin oe) in
  let w1 := set_ready_bit false
              (set_s_task_exit false (set_s_state STARTING wc)) in
  let o' := exec (start_attempts 5 (pdMS_TO_TICKS 50)) e (S (nxt oe)) w1 in
  res oe = true -> s_mutex wc = true -> s_state wc = STOPPED ->
  exec start e n w =
  mkOutcome (res o') (fin o') (evs oe ++ evs o') (nxt o').
Proof.
  cbv zeta. intros Hres Hm Hst. unfold start.
  rewrite exec_ensure_then. cbv zeta. rewrite Hres. cbn [negb].
  rewrite exec_bind, exec_act. cbv zeta.
  cbn [res fin evs nxt fst snd]. unfold start_begin.
  rewrite lock_mutex_forever, Hm, Hst. cbn [negb fst snd List.app].
  reflexivity.
Qed.

(** Without the mutex, or in another state than [STOPPED], [start]
    returns from its opening section. *)
Lemma start_returns (e : env) (n : nat) (w : world) :
  let oe := exec ensure_mutex e n w in
  let wc := others e (nxt oe) (fin oe) in
  let o := exec start e n w in
  res oe && s_mutex wc && State_eqb (s_state wc) STOPPED = false ->
  fin o = (if res oe then wc else fin oe) /\ evs o = evs oe.
Proof.
  cbv zeta. intros H. unfold start.
  rewrite exec_ensure_then. cbv zeta.
  destruct (res (exec ensure_mutex e n w)); cbn [negb andb] in *;
    [|cbn [exec fin evs]; now rewrite List.app_nil_r].
  rewrite exec_bind, exec_act. cbv zeta.
  cbn [res fin evs nxt fst snd]. unfold start_begin.
  rewrite lock_mutex_forever.
  destruct (s_mutex _); cbn [negb andb] in *;
    [|cbn [exec fst snd fin evs List.app]; now rewrite List.app_nil_r].
  destruct (s_state _); try discriminate H;
    cbn [negb exec fst snd fin evs List.app]; now rewrite List.app_nil_r.
Qed.

(** The loop of [start] ends after a wait that saw the readiness bit or
    after the back-off of its last attempt. *)
Lemma start_attempts_ends (left : nat) :
  forall (backoff : Z) (e : env) (n : nat) (w : world),
    let o := exec (start_attempts left backoff) e n w in
    List.length (backoffs (evs o)) = left \/
    exists pre,
      milestones (evs o) = (pre ++ [Wait kWorkerReadyTimeout])%list.
Proof.
  induction left as [|left IH]; intros backoff e n w; cbv zeta.
  - left. cbn [start_attempts]. rewrite exec_act. cbn [evs].
    unfold start_give_up. now destruct (lock_mutex _ _ _).
  - cbn [start_attempts]. rewrite exec_bind. cbv zeta.
    set (oa := exec (start_attempt backoff) e n w).
    destruct (start_attempt_shape backoff e n w) as [_ Hback].
    destruct (start_attempt_milestones backoff e n w)
      as (s & t & _ & _ & Hms).
    cbv zeta in Hback, Hms. fold oa in Hback, Hms.
    destruct (res oa) eqn:Hres.
    + right. cbn [exec res fin evs nxt]. rewrite List.app_nil_r.
      destruct Hms as [[H _] | [[H _] | [[_ H] | [H _]]]];
        try discriminate H.
      exists (s ++ t)%list. now rewrite <- List.app_assoc.
    + cbn [res fin evs nxt].
      destruct (IH (tick_add backoff backoff) e (nxt oa) (fin oa))
        as [Hl | (pre & Hp)].
      * left. unfold backoffs at 1. rewrite flat_map_app.
        fold (backoffs (evs oa)).
        match goal with
        | |- context [flat_map ?f (evs ?x)] =>
            change (flat_map f (evs x)) with (backoffs (evs x))
        end.
        rewrite Hback, List.length_app, Hl. reflexivity.
      * right. exists (milestones (evs oa) ++ pre)%list.
        now rewrite milestones_app, Hp, List.app_assoc.
Qed.

(** An attempt in which the engine does not come up: the bring-up, then
    the back-off. *)
Lemma start_attempt_no_engine (backoff : Z) (e : env) (n : nat)
      (w : world) :
  undisturbed e ->
  s_mutex w = true -> s_server w = None ->
  r_rc (answer e n) <> ESP_OK ->
  exec (start_attempt backoff) e n w =
  mkOutcome false
            (set_s_server None
               (set_s_max_open_sockets default_max_open_sockets w))
            [EvHttpdStart; EvTaskDelay Backoff backoff] (S (S n)).
Proof.
  intros Hq Hm Hs Hrc. unfold start_attempt, start_server.
  rewrite !exec_bind, exec_act. cbv zeta. rewrite Hq.
  unfold start_server_begin. rewrite lock_mutex_forever, Hm, Hs.
  cbn [negb]. apply Z.eqb_neq in Hrc as Hrc'. rewrite Hrc'.
  cbn [negb fst snd res fin evs nxt exec]. rewrite Hrc'. cbn [negb].
  rewrite exec_bind, exec_act. cbv zeta. rewrite Hq.
  reflexivity.
Qed.

(** The loop when the engine never comes up: every attempt is a
    bring-up and a back-off, and the task side of the statics is not
    touched before the closing section. *)
Lemma start_attempts_no_engine (left : nat) :
  forall (backoff : Z) (e : env) (n : nat) (w : world),
    undisturbed e ->
    s_mutex w = true -> s_server w = None ->
    (forall m, n <= m -> r_rc (answer e m) <> ESP_OK) ->
    let o := exec (start_attempts left backoff) e n w in
    evs o = concat (map (fun i => [EvHttpdStart;
                                   EvTaskDelay Backoff (nth_backoff i backoff)])
                        (seq 0 left)) /\
    s_state (fin o) = STOPPED /\ ready_bit (fin o) = false /\
    s_server (fin o) = None /\ s_mutex (fin o) = true /\
    s_evt (fin o) = s_evt w /\
    s_task (fin o) = s_task w /\ tasks (fin o) = tasks w.
Proof.
  induction left as [|left IH]; intros backoff e n w Hq Hm Hs Hrc; cbv zeta.
  - cbn [start_attempts]. rewrite exec_act, Hq. cbn [res fin evs nxt].
    unfold start_give_up. rewrite lock_mutex_forever, Hm. cbn.
    repeat split; assumption.
  - cbn [start_attempts]. rewrite exec_bind. cbv zeta.
    rewrite start_attempt_no_engine by auto. cbn [res fin evs nxt].
    set (w' := set_s_server None _).
    assert (Hrc' : forall m, S (S n) <= m -> r_rc (answer e m) <> ESP_OK)
      by (intros m Hle; apply Hrc; lia).
    destruct (IH (tick_add backoff backoff) e (S (S n)) w' Hq Hm eq_refl Hrc')
      as (Hev & Hst & Hbit & Hsrv & Hmx & Hevt & Htask & Htasks).
    rewrite Hev. split; [|repeat split; assumption].
    cbn [seq map concat List.app]. do 2 f_equal.
    rewrite <- seq_shift, map_map. f_equal. apply map_ext. intros i.
    now rewrite nth_backoff_shift.
Qed.

Lemma task_statics_inv (a b : world) :
  task_statics a = task_statics b ->
  s_mutex a = s_mutex b /\ s_evt a = s_evt b /\ s_state a = s_state b /\
  ready_bit a = ready_bit b /\ s_task a = s_task b /\
  s_task_exit a = s_task_exit b /\ tasks a = tasks b.
Proof. unfold task_statics. intros H. inversion H. repeat split. Qed.

Lemma engine_statics_inv (a b : world) :
  engine_statics a = engine_statics b ->
  s_mutex a = s_mutex b /\ s_evt a = s_evt b /\ s_state a = s_state b /\
  ready_bit a = ready_bit b /\ s_task a = s_task b /\
  s_server a = s_server b /\ httpd_seq a = httpd_seq b.
Proof. unfold engine_statics. intros H. inversion H. repeat split. Qed.

(** A bring-up in which the engine starts and takes the four routes. *)
Lemma start_server_ok_run (e : env) (n : nat) (w : world) :
  undisturbed e ->
  (forall m, r_rc (answer e m) = ESP_OK) ->
  s_mutex w = true -> s_server w = None -> s_state w = STARTING ->
  let o := exec start_server e n w in
  res o = ESP_OK /\
  milestones (evs o) = [Bringup] /\
  filter is_engine_call (evs o) =
    EvHttpdStart :: builtin_routes (httpd_seq w) /\
  s_server (fin o) = Some (httpd_seq w) /\
  httpd_seq (fin o) = S (httpd_seq w) /\
  task_statics (fin o) = task_statics w.
Proof.
  intros Hq Hok Hm Hs Hst. cbv zeta. unfold start_server.
  rewrite exec_bind, exec_act. cbv zeta. rewrite Hq.
  unfold start_server_begin. rewrite lock_mutex_forever, Hm, Hs, Hok.
  cbn [negb Z.eqb ESP_OK fst snd res fin evs nxt].
  set (w1 := set_httpd_seq _ _).
  rewrite exec_bind. cbv zeta.
  destruct (start_server_mount_run e (S n) w1 Hq) as [Hfin Hquiet].
  cbv zeta in Hfin, Hquiet.
  set (om := exec (if CONFIG_HTTP_SERVER_ENABLE_LITTLEFS
                   then ensure_fs_mounted else Ret ESP_OK) e (S n) w1) in *.
  assert (Hm2 : s_mutex (fin om) = true)
    by (destruct Hfin as [-> | ->]; exact Hm).
  assert (Hs2 : s_server (fin om) = Some (httpd_seq w))
    by (destruct Hfin as [-> | ->]; reflexivity).
  assert (Hst2 : s_state (fin om) = STARTING)
    by (destruct Hfin as [-> | ->]; exact Hst).
  assert (Hseq : httpd_seq (fin om) = S (httpd_seq w))
    by (destruct Hfin as [-> | ->]; reflexivity).
  assert (Hcore : task_statics (fin om) = task_statics w)
    by (destruct Hfin as [-> | ->]; reflexivity).
  destruct (start_server_routes (httpd_seq w) e (nxt om) (fin om) Hq Hm2 Hs2)
    as (k & Hk & Hevs & Hfin2 & Hk4 & _ & Hreg).
  cbv zeta in Hevs, Hfin2, Hk4, Hreg.
  match type of Hevs with
  | evs ?x = _ => set (o := x) in *
  end.
  cbn [res fin evs nxt].
  assert (Hres : res o = ESP_OK).
  { destruct (Z.eq_dec (res o) ESP_OK) as [E|E]; [exact E|].
    rewrite Hst2 in Hreg. destruct (Hreg eq_refl) as (_ & Hf & _).
    destruct (Hf E) as (j & _ & Hj). now rewrite Hok in Hj. }
  rewrite Hres in Hevs, Hfin2. cbn [Z.eqb ESP_OK] in Hevs, Hfin2.
  rewrite (Hk4 Hres), List.app_nil_r in Hevs.
  split; [exact Hres|]. rewrite Hevs, Hfin2.
  split; [|split; [|split; [exact Hs2 | split; [exact Hseq | exact Hcore]]]].
  - cbn [List.app]. change (milestones (EvHttpdStart :: ?l))
      with (Bringup :: milestones l).
    now rewrite milestones_app, (milestones_quiet _ Hquiet).
  - cbn [List.app filter is_engine_call].
    now rewrite filter_app, (filter_quiet_engine _ Hquiet).
Qed.

Lemma start_server_keeps_no_task :
  prog_all (keeps (fun v => s_task v = None)) start_server.
Proof.
  unfold start_server, start_server_fail, stop_server, ensure_fs_mounted,
    register_uri_internal.
  prog_all_tac ltac:(unfold keeps, start_server_begin; step_tac).
Qed.

(** [start_worker_task] when no worker is stored: it clears the exit
    flag, creates the task and stores the handle. *)
Lemma start_worker_task_new_run (e : env) (n : nat) (w : world) :
  (forall m v, s_task v = None -> others e m v = v) ->
  r_ok (answer e (S n)) = true ->
  s_mutex w = true -> s_task w = None ->
  exec start_worker_task e n w =
  mkOutcome true
            (set_s_task (Some (List.length (tasks w)))
               (set_tasks (tasks w ++ [mkTask T_ENTRY O])
                  (set_s_task_exit false w)))
            [EvTaskCreate] (S (S (S n))).
Proof.
  intros Hq Hok Hm Ht. unfold start_worker_task.
  rewrite exec_bind, exec_act. cbv zeta. rewrite Hq by exact Ht.
  rewrite lock_mutex_forever, Hm, Ht. cbn [negb fst snd res fin evs nxt].
  rewrite exec_bind, exec_act. cbv zeta. rewrite Hq by exact Ht.
  rewrite Hok. cbn [fst snd res fin evs nxt].
  rewrite exec_bind, exec_act. cbv zeta. rewrite Hq by exact Ht.
  rewrite lock_mutex_forever. cbn [s_mutex set_tasks set_s_task_exit s_task].
  rewrite Hm, Ht. cbn [negb fst snd res fin evs nxt exec List.app].
  reflexivity.
Qed.

(** [start_worker_task] when a worker is stored: nothing to do. *)
Lemma start_worker_task_reuse_run (e : env) (n : nat) (w : world)
      (t : nat) :
  undisturbed e ->
  s_mutex w = true -> s_task w = Some t ->
  exec start_worker_task e n w = mkOutcome true w [] (S n).
Proof.
  intros Hq Hm Ht. unfold start_worker_task.
  rewrite exec_bind, exec_act. cbv zeta.
  rewrite Hq, lock_mutex_forever, Hm, Ht. reflexivity.
Qed.

Lemma stop_worker_poll_keeps_engine (w0 : world) (i : nat) :
  prog_all (keeps (fun v => engine_statics v = engine_statics w0))
           (stop_worker_poll i).
Proof.
  induction i as [|i IH]; cbn [stop_worker_poll]; [exact I|].
  prog_all_tac ltac:(unfold keeps; step_tac). exact IH.
Qed.

Lemma stop_worker_task_keeps_engine (w0 : world) :
  prog_all (keeps (fun v => engine_statics v = engine_statics w0))
           stop_worker_task.
Proof.
  unfold stop_worker_task.
  apply prog_all_bind; [apply prog_all_act; unfold keeps; step_tac|].
  intros [b|]; [exact I|].
  apply prog_all_bind;
    [apply prog_all_act; unfold keeps, notify_worker; step_tac|].
  intros _. apply stop_worker_poll_keeps_engine.
Qed.

Lemma filter_engine_polls (k : nat) (t : Z) :
  filter is_engine_call (repeat (EvTaskDelay Poll t) k) = [].
Proof. induction k; [reflexivity | exact IHk]. Qed.

(** Asking a worker to exit that never runs: the wait is used up, and
    only the exit flag and the notification are left behind. *)
Lemma stop_worker_task_stuck (e : env) (n : nat) (w : world) (t : nat) :
  undisturbed e ->
  s_mutex w = true -> s_task w = Some t ->
  let o := exec stop_worker_task e n w in
  res o = false /\
  milestones (evs o) = [] /\
  filter is_engine_call (evs o) = [] /\
  engine_statics (fin o) = engine_statics w.
Proof.
  intros Hq Hm Ht. cbv zeta.
  assert (Hk : engine_statics (fin (exec stop_worker_task e n w)) =
               engine_statics w).
  { apply (exec_keeps (fun v => engine_statics v = engine_statics w));
      [apply stop_worker_task_keeps_engine | | reflexivity].
    intros m v Hv. now rewrite Hq. }
  destruct (stop_worker_task_trace e n w)
    as (wake & k & Hev & _ & Hwake & Htrue & _).
  split; [|split; [|split; [|exact Hk]]].
  - destruct (res (exec stop_worker_task e n w)); [|reflexivity].
    destruct (Htrue eq_refl) as [Hnone _].
    apply engine_statics_inv in Hk as (_ & _ & _ & _ & Hk & _).
    rewrite Hnone, Ht in Hk. discriminate Hk.
  - apply milestones_none, exec_emits, stop_worker_task_quiet.
  - rewrite Hev, filter_app, filter_engine_polls.
    destruct Hwake as [-> | [j ->]]; reflexivity.
Qed.

(** An attempt in which the engine comes up but the worker task does
    not get to run: bring-up, creation of the worker unless one is
    stored, the wait, then the worker is asked to exit, the engine is
    stopped, and the caller backs off. *)
Lemma start_attempt_timeout (backoff : Z) (e : env) (n : nat) (w : world) :
  undisturbed e ->
  (forall m, succeeds (answer e m)) ->
  s_mutex w = true -> s_server w = None -> s_state w = STARTING ->
  ready_bit w = false ->
  let o := exec (start_attempt backoff) e n w in
  res o = false /\
  milestones (evs o) =
    (Bringup :: (match s_task w with Some _ => [] | None => [Create] end) ++
     [Wait kWorkerReadyTimeout; BackoffFor backoff])%list /\
  filter is_engine_call (evs o) = engine_round (httpd_seq w) /\
  s_mutex (fin o) = true /\ s_evt (fin o) = s_evt w /\
  s_server (fin o) = None /\
  s_state (fin o) = STARTING /\ ready_bit (fin o) = false /\
  s_task (fin o) = Some (match s_task w with
                         | Some t => t
                         | None => List.length (tasks w)
                         end) /\
  httpd_seq (fin o) = S (httpd_seq w).
Proof.
  intros Hq Hok Hm Hs Hst Hbit. cbv zeta. unfold start_attempt.
  rewrite exec_bind. cbv zeta.
  destruct (start_server_ok_run e n w Hq (fun m => proj1 (Hok m)) Hm Hs Hst)
    as (Hres & Hms & Hcalls & Hsrv & Hseq & Hcore).
  cbv zeta in Hres, Hms, Hcalls, Hsrv, Hseq, Hcore.
  set (os := exec start_server e n w) in *.
  apply task_statics_inv in Hcore
    as (Hm1 & He1 & Hst1 & Hbit1 & Ht1 & _ & Htasks1).
  rewrite Hres. cbn [Z.eqb ESP_OK negb].
  rewrite exec_bind. cbv zeta.
  assert (Hw : exists wt,
             exec start_worker_task e (nxt os) (fin os) =
             mkOutcome true wt
                       (match s_task w with
                        | Some _ => []
                        | None => [EvTaskCreate]
                        end)
                       (nxt (exec start_worker_task e (nxt os) (fin os))) /\
             s_task wt = Some (match s_task w with
                               | Some t => t
                               | None => List.length (tasks w)
                               end) /\
             s_mutex wt = true /\ s_evt wt = s_evt w /\
             s_server wt = Some (httpd_seq w) /\
             s_state wt = STARTING /\ ready_bit wt = false /\
             httpd_seq wt = S (httpd_seq w)).
  { destruct (s_task w) as [t|] eqn:Ht.
    - rewrite (start_worker_task_reuse_run e (nxt os) (fin os) t Hq)
        by congruence.
      eexists. split; [reflexivity|]. cbn [nxt].
      repeat split; congruence.
    - rewrite (start_worker_task_new_run e (nxt os) (fin os));
        [|intros m v _; apply Hq | apply Hok | congruence | congruence].
      eexists. split; [reflexivity|].
      cbn [nxt s_task s_mutex s_evt s_server s_state ready_bit httpd_seq
           set_s_task set_tasks set_s_task_exit].
      repeat split; congruence. }
  destruct Hw as (wt & -> & Htk & Hm2 & He2 & Hs2 & Hst2 & Hbit2 & Hseq2).
  cbn [res fin evs nxt negb].
  set (nt := nxt (exec start_worker_task e (nxt os) (fin os))).
  rewrite exec_bind, exec_act. cbv zeta. rewrite Hq.
  cbn [xEventGroupWaitBits fst snd res fin evs nxt]. rewrite Hbit2.
  rewrite exec_bind. cbv zeta.
  destruct (stop_worker_task_stuck e (S nt) wt _ Hq Hm2 Htk)
    as (Hr3 & Hms3 & Hc3 & Hk3).
  cbv zeta in Hr3, Hms3, Hc3, Hk3.
  set (ow := exec stop_worker_task e (S nt) wt) in *.
  apply engine_statics_inv in Hk3
    as (Hm3 & He3 & Hst3 & Hbit3 & Ht3 & Hs3 & Hseq3).
  rewrite exec_bind. cbv zeta.
  rewrite (stop_server_run (httpd_seq w) e (nxt ow) (fin ow) Hq)
    by congruence.
  cbn [res fin evs nxt]. rewrite exec_bind, exec_act. cbv zeta.
  rewrite Hq. cbn [backoff_delay fst snd res fin evs nxt exec].
  split; [reflexivity|]. split; [|split].
  - rewrite !milestones_app, Hms, Hms3.
    destruct (s_task w); reflexivity.
  - rewrite !filter_app, Hcalls, Hc3. unfold engine_round.
    destruct (s_task w); reflexivity.
  - cbn [s_task s_mutex s_evt s_server s_state ready_bit httpd_seq
         set_s_server].
    repeat split; congruence.
Qed.

(** The loop when the engine comes up every time and the worker task,
    once created, never gets to run. *)
Lemma start_attempts_timeout (left : nat) :
  forall (backoff : Z) (e : env) (n : nat) (w : world) (t : nat),
    undisturbed e ->
    (forall m, succeeds (answer e m)) ->
    s_mutex w = true -> s_server w = None -> s_state w = STARTING ->
    ready_bit w = false -> s_task w = Some t ->
    let o := exec (start_attempts left backoff) e n w in
    milestones (evs o) =
      concat (map (fun i => [Bringup; Wait kWorkerReadyTimeout;
                             BackoffFor (nth_backoff i backoff)])
                  (seq 0 left)) /\
    filter is_engine_call (evs o) =
      concat (map (fun i => engine_round (httpd_seq w + i)) (seq 0 left)) /\
    s_state (fin o) = STOPPED /\ ready_bit (fin o) = false /\
    s_server (fin o) = None /\ s_task (fin o) = Some t /\
    s_mutex (fin o) = true /\ s_evt (fin o) = s_evt w.
Proof.
  induction left as [|left IH];
    intros backoff e n w t Hq Hok Hm Hs Hst Hbit Ht; cbv zeta.
  - cbn [start_attempts]. rewrite exec_act, Hq. cbn [res fin evs nxt].
    unfold start_give_up. rewrite lock_mutex_forever, Hm. cbn.
    repeat split; assumption.
  - cbn [start_attempts]. rewrite exec_bind. cbv zeta.
    destruct (start_attempt_timeout backoff e n w Hq Hok Hm Hs Hst Hbit)
      as (Hres & Hms & Hcalls & Hm1 & He1 & Hs1 & Hst1 & Hbit1 & Ht1 & Hseq1).
    cbv zeta in Hres, Hms, Hcalls, Hm1, He1, Hs1, Hst1, Hbit1, Ht1, Hseq1.
    set (oa := exec (start_attempt backoff) e n w) in *.
    rewrite Hres, Ht in *.
    destruct (IH (tick_add backoff backoff) e (nxt oa) (fin oa) t
                 Hq Hok Hm1 Hs1 Hst1 Hbit1 Ht1)
      as (Hms2 & Hcalls2 & Hst2 & Hbit2 & Hs2 & Ht2 & Hm2 & He2).
    cbn [res fin evs nxt].
    rewrite milestones_app, filter_app, Hms, Hms2, Hcalls, Hcalls2, Hseq1.
    split; [|split; [|repeat split; congruence]].
    + cbn [seq map concat List.app]. do 3 f_equal.
      rewrite <- seq_shift, map_map. f_equal. apply map_ext. intros i.
      now rewrite nth_backoff_shift.
    + cbn [seq map concat]. rewrite Nat.add_0_r. f_equal.
      rewrite <- seq_shift, map_map. f_equal. apply map_ext. intros i.
      now rewrite Nat.add_succ_comm.
Qed.

Lemma prompt_worker_left_alone (e : env) :
  prompt_worker e ->
  forall m v, s_task v = None -> others e m v = v.
Proof. intros Hp m v Hv. rewrite Hp. unfold worker_turn. now rewrite Hv. Qed.

(** An attempt in which the engine comes up and the worker task runs as
    soon as it exists: bring-up, creation, and the wait sees the
    readiness bit, set by the worker together with the state
    [RUNNING]. *)
Lemma start_attempt_prompt (backoff : Z) (e : env) (n : nat) (w : world) :
  prompt_worker e ->
  (forall m, succeeds (answer e m)) ->
  substrate w -> s_server w = None -> s_state w = STARTING ->
  s_task w = None ->
  let o := exec (start_attempt backoff) e n w in
  res o = true /\
  milestones (evs o) = [Bringup; Create; Wait kWorkerReadyTimeout] /\
  filter is_engine_call (evs o) =
    EvHttpdStart :: builtin_routes (httpd_seq w) /\
  s_state (fin o) = RUNNING /\ ready_bit (fin o) = true /\
  s_server (fin o) = Some (httpd_seq w) /\
  s_task (fin o) = Some (List.length (tasks w)) /\
  nth_error (tasks (fin o)) (List.length (tasks w)) = Some (mkTask T_WAIT O).
Proof.
  intros Hp Hok [Hm He] Hs Hst Ht. cbv zeta. unfold start_attempt.
  pose proof (prompt_worker_left_alone e Hp) as Hla.
  rewrite exec_bind. cbv zeta.
  rewrite (exec_left_alone (fun v => s_task v = None) start_server e Hla n w
             start_server_keeps_no_task Ht).
  destruct (start_server_ok_run (answers_of e) n w (answers_of_undisturbed e)
              (fun m => proj1 (Hok m)) Hm Hs Hst)
    as (Hres & Hms & Hcalls & Hsrv & Hseq & Hcore).
  cbv zeta in Hres, Hms, Hcalls, Hsrv, Hseq, Hcore.
  set (os := exec start_server (answers_of e) n w) in *.
  apply task_statics_inv in Hcore
    as (Hm1 & He1 & Hst1 & Hbit1 & Ht1 & _ & Htasks1).
  rewrite Hres. cbn [Z.eqb ESP_OK negb].
  rewrite exec_bind. cbv zeta.
  rewrite (start_worker_task_new_run e (nxt os) (fin os) Hla);
    [|apply Hok | congruence | congruence].
  cbn [res fin evs nxt negb].
  set (wt := set_s_task _ _).
  assert (Hturn : worker_turn wt =
                  set_task_pc (List.length (tasks (fin os))) T_WAIT
                              (set_ready_bit true (set_s_state RUNNING wt))).
  { unfold worker_turn, http_srv_task, wt.
    cbn [s_task tasks set_tasks set_s_task set_s_task_exit].
    rewrite nth_error_app2, Nat.sub_diag by lia.
    cbn [nth_error t_pc].
    cbn [s_mutex s_state s_evt set_s_task set_tasks set_s_task_exit].
    now rewrite Hm1, Hm, Hst1, Hst, He1, He. }
  rewrite exec_bind, exec_act. cbv zeta. rewrite Hp, Hturn.
  set (wr := set_task_pc _ T_WAIT _).
  cbn [xEventGroupWaitBits fst snd res fin evs nxt].
  change (ready_bit wr) with true. cbn [exec res fin evs nxt].
  split; [reflexivity|]. split; [|split].
  - now rewrite milestones_app, Hms.
  - now rewrite filter_app, Hcalls.
  - unfold wr, set_task_pc, wt.
    cbn [s_state ready_bit s_server s_task tasks set_tasks set_ready_bit
         set_s_state set_s_task set_s_task_exit].
    rewrite Hsrv, Htasks1.
    repeat split.
    clear. induction (tasks w) as [|x l IH]; [reflexivity | exact IH].
Qed.

Lemma ensure_mutex_no_engine_call (e : env) (n : nat) (w : world) :
  milestones (evs (exec ensure_mutex e n w)) = [] /\
  filter is_engine_call (evs (exec ensure_mutex e n w)) = [].
Proof.
  pose proof (ensure_mutex_events e n w) as H.
  split.
  - apply milestones_none. rewrite forallb_forall in H |- *.
    intros ev Hin. specialize (H _ Hin). now destruct ev.
  - eapply filter_none; [|exact H]. now intros [].
Qed.

(** [is_running] in the state [STOPPED]. *)
Lemma is_running_stopped (e : env) (n : nat) (w : world) :
  undisturbed e ->
  substrate w -> s_state w = STOPPED ->
  res (exec is_running e n w) = false.
Proof.
  intros Hq Hw Hst. unfold is_running.
  destruct (ensure_ok_of_substrate e n w Hw (undisturbed_keeps_substrate e Hq))
    as (Hok & _ & Hfin & _).
  rewrite exec_after_ensure by exact Hok. cbv zeta. cbn [negb res].
  rewrite Hfin. cbn [drift]. rewrite !Hq, exec_act, Hq.
  rewrite lock_mutex_forever, (proj1 Hw), Hst. reflexivity.
Qed.

Lemma spec_backoffs_nth (f : Z -> list event) (left : nat) :
  (0 <= pdMS_TO_TICKS 50 < 2 ^ 32)%Z ->
  map (fun i => f (nth_backoff i (pdMS_TO_TICKS 50))) (seq 0 left) =
  map (fun i => f (spec_backoff i)) (seq 0 left).
Proof.
  intros Hb. apply map_ext. intros i. now rewrite nth_backoff_spec.
Qed.

(** C1, as the code has it.  [start] returns from its opening section,
    with nothing changed and nothing called, when the mutex or the event
    group cannot be created, when the mutex cannot be taken, and when
    the state is [RUNNING], [STARTING] or [STOPPING].  Otherwise it sets
    [STARTING], clears the readiness bit and the exit flag and runs the
    loop of attempts.  Whatever the other tasks and the engine do, its
    trace is a sequence of at most five attempts, each a bring-up, a
    creation of the worker task, a wait of 500 time units on the
    readiness bit and a back-off, in this order and each at most once,
    the back-off of attempt [i] being the seed of 50 time units doubled
    [i] times (in 32-bit ticks); it returns after a wait that saw the
    readiness bit or after the fifth back-off, and after the fifth
    back-off the state is [STOPPED] and the readiness bit clear.  With
    the other tasks leaving the statics alone the runs are these.  When
    no bring-up of the engine succeeds: five bring-ups, each followed by its
    back-off, and nothing else; the state ends [STOPPED], the bit clear,
    no server handle is stored, the worker handle and the tasks are as
    before, and [is_running] answers [false].  When every call succeeds
    and the worker task runs as soon as it exists: one bring-up with the
    four built-in routes, the creation of the worker, the wait, and
    [start] returns with the state [RUNNING], the bit set and both
    handles stored.  When every call succeeds but the worker task never
    runs: five attempts, each bringing up an engine, registering the
    routes, waiting, and stopping that engine again, the worker being
    created in the first; the state ends [STOPPED] with no server
    handle, and the worker's handle stays stored.  The result of
    [start] is of type [unit]: no error value reaches the caller. *)
Theorem start_spec (e : env) (n : nat) (w : world) :
  let oe := exec ensure_mutex e n w in
  let wc := others e (nxt oe) (fin oe) in
  let o := exec start e n w in
  let entered := res oe && s_mutex wc && State_eqb (s_state wc) STOPPED in
  let w1 := set_ready_bit false
              (set_s_task_exit false (set_s_state STARTING wc)) in
  let timeout := pdMS_TO_TICKS 500 in
  (entered = false ->
   fin o = (if res oe then wc else fin oe) /\ evs o = evs oe) /\
  (entered = true ->
   let o' := exec (start_attempts 5 (pdMS_TO_TICKS 50)) e (S (nxt oe)) w1 in
   s_state w1 = STARTING /\ ready_bit w1 = false /\
   fin o = fin o' /\ evs o = (evs oe ++ evs o')%list) /\
  ((0 <= pdMS_TO_TICKS 50 < 2 ^ 32)%Z ->
   (exists attempts,
       milestones (evs o) = concat attempts /\
       List.length attempts <= 5 /\
       forall i ms, nth_error attempts i = Some ms ->
                    attempt_shape timeout (spec_backoff i) ms) /\
   backoffs (evs o) =
     firstn (List.length (backoffs (evs o))) (map spec_backoff (seq 0 5)) /\
   (entered = true ->
    List.length (backoffs (evs o)) = 5 \/
    exists pre, milestones (evs o) = (pre ++ [Wait timeout])%list) /\
   (keeps_substrate e -> s_evt wc = true ->
    List.length (backoffs (evs o)) = 5 ->
    s_state (fin o) = STOPPED /\ ready_bit (fin o) = false)) /\
  ((0 <= pdMS_TO_TICKS 50 < 2 ^ 32)%Z ->
   entered = true -> s_evt wc = true -> s_server wc = None ->
   (undisturbed e ->
    (forall m, nxt oe < m -> r_rc (answer e m) <> ESP_OK) ->
    evs o = (evs oe ++
             concat (map (fun i => [EvHttpdStart;
                                    EvTaskDelay Backoff (spec_backoff i)])
                         (seq 0 5)))%list /\
    s_state (fin o) = STOPPED /\ ready_bit (fin o) = false /\
    s_server (fin o) = None /\
    s_task (fin o) = s_task wc /\ tasks (fin o) = tasks wc /\
    res (exec is_running e (nxt o) (fin o)) = false) /\
   (prompt_worker e ->
    (forall m, succeeds (answer e m)) ->
    s_task wc = None ->
    milestones (evs o) = [Bringup; Create; Wait timeout] /\
    filter is_engine_call (evs o) =
      EvHttpdStart :: builtin_routes (httpd_seq wc) /\
    s_state (fin o) = RUNNING /\ ready_bit (fin o) = true /\
    s_server (fin o) = Some (httpd_seq wc) /\
    s_task (fin o) = Some (List.length (tasks wc))) /\
   (undisturbed e ->
    (forall m, succeeds (answer e m)) ->
    s_task wc = None ->
    milestones (evs o) =
      concat (map (fun i => (Bringup ::
                             (if Nat.eqb i 0 then [Create] else []) ++
                             [Wait timeout; BackoffFor (spec_backoff i)])%list)
                  (seq 0 5)) /\
    filter is_engine_call (evs o) =
      concat (map (fun i => engine_round (httpd_seq wc + i)) (seq 0 5)) /\
    s_state (fin o) = STOPPED /\ ready_bit (fin o) = false /\
    s_server (fin o) = None /\
    s_task (fin o) = Some (List.length (tasks wc)))) /\
  res o = tt.
Proof.
  cbv zeta.
  set (oe := exec ensure_mutex e n w).
  set (wc := others e (nxt oe) (fin oe)).
  set (w1 := set_ready_bit false
               (set_s_task_exit false (set_s_state STARTING wc))).
  destruct (ensure_mutex_no_engine_call e n w) as [Hquiet Hnocall].
  fold oe in Hquiet, Hnocall.
  assert (Hbk0 : forall l, backoffs (evs oe ++ l) = backoffs l).
  { intros l. rewrite !backoffs_milestones, milestones_app, Hquiet.
    reflexivity. }
  destruct (res oe && s_mutex wc && State_eqb (s_state wc) STOPPED)
    eqn:Hent.
  - (* the loop is entered *)
    apply andb_prop in Hent as [Hent Hst].
    apply andb_prop in Hent as [Hres Hm].
    assert (Hst' : s_state wc = STOPPED)
      by (destruct (s_state wc); try discriminate Hst; reflexivity).
    pose proof (start_enters e n w Hres Hm Hst') as Hrun.
    cbv zeta in Hrun. fold oe wc w1 in Hrun. rewrite Hrun.
    cbn [res fin evs nxt].
    set (o' := exec (start_attempts 5 (pdMS_TO_TICKS 50)) e (S (nxt oe)) w1)
      in *.
    split; [discriminate|]. split; [intros _; repeat split|].
    split; [|split; [|now destruct (res o')]].
    + (* the bounds *)
      intros Hb.
      destruct (start_attempts_trace 5 (pdMS_TO_TICKS 50) e (S (nxt oe)) w1)
        as ((attempts & Hc & Hl & Hall) & Hbk & Hend).
      cbv zeta in Hc, Hbk, Hend. fold o' in Hc, Hbk, Hend.
      rewrite Hbk0, milestones_app, Hquiet. cbn [List.app].
      split; [|split; [|split]].
      * exists attempts. split; [exact Hc|]. split; [exact Hl|].
        intros i ms H. rewrite <- nth_backoff_spec by exact Hb.
        now apply Hall.
      * rewrite Hbk at 1. f_equal. apply map_ext. intros i.
        now apply nth_backoff_spec.
      * intros _.
        exact (start_attempts_ends 5 (pdMS_TO_TICKS 50) e (S (nxt oe)) w1).
      * intros Hk He Hlen. apply Hend; trivial. split; assumption.
    + (* the runs *)
      intros Hb _ He Hs. split; [|split].
      * intros Hq Hrc.
        destruct (start_attempts_no_engine 5 (pdMS_TO_TICKS 50) e
                    (S (nxt oe)) w1 Hq Hm Hs Hrc)
          as (Hev & Hst1 & Hbit1 & Hs1 & Hm1 & He1 & Ht1 & Htasks1).
        cbv zeta in Hev, Hst1, Hbit1, Hs1, Hm1, He1, Ht1, Htasks1.
        fold o' in Hev, Hst1, Hbit1, Hs1, Hm1, He1, Ht1, Htasks1.
        split; [|repeat split; try assumption].
        -- rewrite Hev. f_equal. f_equal.
           exact (spec_backoffs_nth
                    (fun b => [EvHttpdStart; EvTaskDelay Backoff b]) 5 Hb).
        -- apply is_running_stopped; [exact Hq | | exact Hst1].
           split; [exact Hm1 | now rewrite He1].
      * intros Hp Hok Ht. unfold o'.
        change (start_attempts 5 (pdMS_TO_TICKS 50))
          with (ready <- start_attempt (pdMS_TO_TICKS 50) ;;
                if ready then Ret tt
                else start_attempts 4 (tick_add (pdMS_TO_TICKS 50)
                                                (pdMS_TO_TICKS 50))).
        rewrite exec_bind. cbv zeta.
        destruct (start_attempt_prompt (pdMS_TO_TICKS 50) e (S (nxt oe)) w1
                    Hp Hok (conj Hm He) Hs eq_refl Ht)
          as (Hr & Hms & Hcalls & Hst1 & Hbit1 & Hs1 & Ht1 & _).
        cbv zeta in Hr, Hms, Hcalls, Hst1, Hbit1, Hs1, Ht1.
        rewrite Hr. cbn [exec res fin evs nxt].
        rewrite List.app_nil_r, milestones_app, filter_app, Hquiet, Hnocall,
          Hms, Hcalls.
        repeat split; assumption.
      * intros Hq Hok Ht. unfold o'.
        change (start_attempts 5 (pdMS_TO_TICKS 50))
          with (ready <- start_attempt (pdMS_TO_TICKS 50) ;;
                if ready then Ret tt
                else start_attempts 4 (tick_add (pdMS_TO_TICKS 50)
                                                (pdMS_TO_TICKS 50))).
        rewrite exec_bind. cbv zeta.
        destruct (start_attempt_timeout (pdMS_TO_TICKS 50) e (S (nxt oe)) w1
                    Hq Hok Hm Hs eq_refl eq_refl)
          as (Hr & Hms & Hcalls & Hm1 & He1 & Hs1 & Hst1 & Hbit1 & Ht1
              & Hseq1).
        cbv zeta in Hr, Hms, Hcalls, Hm1, He1, Hs1, Hst1, Hbit1, Ht1, Hseq1.
        set (oa := exec (start_attempt (pdMS_TO_TICKS 50)) e (S (nxt oe)) w1)
          in *.
        change (s_task w1) with (s_task wc) in Hms, Ht1.
        rewrite Ht in Hms, Ht1.
        change (tasks w1) with (tasks wc) in Ht1.
        change (httpd_seq w1) with (httpd_seq wc) in Hcalls, Hseq1.
        rewrite Hr.
        destruct (start_attempts_timeout 4
                    (tick_add (pdMS_TO_TICKS 50) (pdMS_TO_TICKS 50)) e
                    (nxt oa) (fin oa) _ Hq Hok Hm1 Hs1 Hst1 Hbit1 Ht1)
          as (Hms2 & Hcalls2 & Hst2 & Hbit2 & Hs2 & Ht2 & _).
        cbv zeta in Hms2, Hcalls2, Hst2, Hbit2, Hs2, Ht2.
        cbn [res fin evs nxt].
        rewrite !milestones_app, !filter_app, Hquiet, Hnocall, Hms, Hms2,
          Hcalls, Hcalls2, Hseq1.
        split; [|split; [|repeat split; assumption]].
        -- cbn [seq map concat List.app Nat.eqb].
           rewrite !nth_backoff_shift, !nth_backoff_spec by exact Hb.
           rewrite <- (nth_backoff_spec 0 Hb). reflexivity.
        -- cbn [seq map concat List.app].
           rewrite !Nat.add_0_r, <- !Nat.add_succ_comm, !Nat.add_0_r.
           reflexivity.
  - (* the opening section returns *)
    destruct (start_returns e n w Hent) as [Hfin Hevs].
    cbv zeta in Hfin, Hevs. fold oe wc in Hfin, Hevs.
    rewrite Hevs, Hfin.
    assert (Hb0 : backoffs (evs oe) = [])
      by (rewrite <- (List.app_nil_r (evs oe)), Hbk0; reflexivity).
    rewrite Hb0, Hquiet.
    split; [intros _; now split|]. split; [discriminate|].
    split; [|split; [discriminate | now destruct (res (exec start e n w))]].
    intros _. split; [|split; [reflexivity | split; discriminate]].
    exists []. split; [reflexivity|]. split; [cbn; lia|].
    intros [|i] ms; discriminate.
Qed.

End Server.

(** * A concrete build and concrete runs *)

Local Close Scope Z_scope.

(** A 1 kHz tick, the default socket ceiling, LittleFS enabled with the
    default mount point and label, and a volume with one page stored
    plain and compressed. *)
Definition tick_1kHz (ms : Z) : Z := ms.

Definition demo_root : string := "<html>embedded</html>".

Definition demo_fs : filesystem := fun path =>
  if (path =? "/littlefs/page.html.gz")%string then Some "gzip-bytes"
  else if (path =? "/littlefs/page.html")%string then Some "<html>page</html>"
  else None.

Definition empty_fs : filesystem := fun _ => None.

Definition reply_ok : reply := mkReply ESP_OK true false 1024.
Definition reply_fail : reply := mkReply ESP_FAIL false true 1024.

(** An environment in which no other task moves and the external calls
    are answered from a list, then by a default. *)
Definition env_of (answers : list reply) (default : reply) : env :=
  mkEnv (fun _ w => w) (fun n => nth n answers default).

Lemma env_of_keeps_substrate (answers : list reply) (default : reply) :
  keeps_substrate (env_of answers default).
Proof. intros n w H. exact H. Defined.

Lemma env_of_undisturbed (answers : list reply) (default : reply) :
  undisturbed (env_of answers default).
Proof. intros m v. reflexivity. Defined.

(** The statics once the mutex and the event group exist. *)
Definition world_ready : world := set_s_evt true (set_s_mutex true world0).

Definition world_in (st : State) (srv : option nat) : world :=
  set_s_server srv (set_s_state st world_ready).

Lemma tick_1kHz_seed : (0 <= tick_1kHz 50 < 2 ^ 32)%Z.
Proof. split; [discriminate | reflexivity]. Defined.

Definition demo_start : prog unit :=
  start tick_1kHz 7%Z true "/littlefs" "littlefs".

Definition demo_handle_root (fs : filesystem) (uri : string)
  : prog esp_err_t :=
  handle_root true "/littlefs" "littlefs" demo_root fs (Some (mkReq uri)).

Definition demo_try_serve (fs : filesystem) (uri : string)
  : prog esp_err_t :=
  try_serve_from_fs true "/littlefs" "littlefs" fs (Some (mkReq uri)).

Definition demo_run (ls : list label) : option system :=
  sys_run tick_1kHz 7%Z true "/littlefs" "littlefs" demo_root "" demo_fs
          ls system0.


(** The same, with the worker task scheduled while [start] waits for
    the readiness bit. *)
Definition trace_started : list label :=
  LCall CallStart :: repeat (LStep 0 reply_ok) 12 ++
  [LTask 0; LStep 0 reply_ok].



(** When everything succeeds [start] ends with the state [RUNNING], the
    readiness bit set and both handles in place. *)
Example start_reaches_running :
  option_map (fun s => (s_state (sw s), ready_bit (sw s), s_server (sw s),
                        s_task (sw s), nth_error (threads s) 0))
             (demo_run trace_started)
  = Some (RUNNING, true, Some 0, Some 0, Some (Ret tt)).
Proof. vm_compute. reflexivity. Qed.

Lemma later_call_ensure_ok (answers : list reply) (default : reply)
      (st : State) (srv : option nat) :
  ensure_ok (env_of answers default) 0 (world_in st srv).
Proof. split; [|split]; reflexivity. Defined.

(** The worker task runs as soon as it exists, and every call
    succeeds. *)
Definition env_prompt : env :=
  mkEnv (fun _ v => worker_turn v) (fun _ => reply_ok).

(** C1, on the first call into the module.  In a run in which every
    bring-up of the engine fails: five bring-ups and five back-offs,
    then [STOPPED] with the bit clear, no server or task handle left, and
    [is_running] false.  In a run in which every call succeeds and the
    worker runs at once: one attempt, and [RUNNING] with the bit set and
    both handles stored. *)
Lemma start_spec_witness :
  let e := env_of [reply_ok; reply_ok] reply_fail in
  let o := exec demo_start e 0 world0 in
  let p := exec demo_start env_prompt 0 world0 in
  (evs o = [EvSemaphoreCreateMutex; EvEventGroupCreate;
            EvHttpdStart; EvTaskDelay Backoff 50;
            EvHttpdStart; EvTaskDelay Backoff 100;
            EvHttpdStart; EvTaskDelay Backoff 200;
            EvHttpdStart; EvTaskDelay Backoff 400;
            EvHttpdStart; EvTaskDelay Backoff 800] /\
   s_state (fin o) = STOPPED /\ ready_bit (fin o) = false /\
   s_server (fin o) = None /\ s_task (fin o) = None /\
   tasks (fin o) = [] /\
   res (exec is_running e (nxt o) (fin o)) = false) /\
  (milestones (evs p) = [Bringup; Create; Wait 500] /\
   filter is_engine_call (evs p) = EvHttpdStart :: builtin_routes 0 /\
   s_state (fin p) = RUNNING /\ ready_bit (fin p) = true /\
   s_server (fin p) = Some 0 /\ s_task (fin p) = Some 0).
Proof.
  cbv zeta. split.
  - destruct (start_spec tick_1kHz 7%Z true "/littlefs" "littlefs"
                (env_of [reply_ok; reply_ok] reply_fail) 0 world0)
      as (_ & _ & _ & Hruns & _).
    destruct (Hruns tick_1kHz_seed eq_refl eq_refl eq_refl)
      as (Hfail & _ & _).
    apply Hfail; [apply env_of_undisturbed|].
    intros [|[|[|m]]] Hm; try discriminate; vm_compute in Hm; lia.
  - destruct (start_spec tick_1kHz 7%Z true "/littlefs" "littlefs"
                env_prompt 0 world0)
      as (_ & _ & _ & Hruns & _).
    destruct (Hruns tick_1kHz_seed eq_refl eq_refl eq_refl)
      as (_ & Hgo & _).
    apply Hgo; [intros m v; reflexivity | intros m; split; reflexivity
               | reflexivity].
Defined.

(** C1 as stated fails: on the first call into the module, when the
    mutex cannot be created, the state is [STOPPED] and yet [start]
    neither sets [STARTING] nor makes an attempt: it returns with the
    statics as they were. *)
Lemma start_without_mutex_counterexample :
  let o := exec demo_start (env_of [reply_fail] reply_ok) 0 world0 in
  s_state world0 = STOPPED /\
  evs o = [EvSemaphoreCreateMutex] /\
  milestones (evs o) = [] /\
  fin o = world0 /\ s_state (fin o) <> STARTING.
Proof. vm_compute. repeat split; discriminate. Qed.









(** C3, on the page stored plain and compressed: the compressed file
    wins, with the content type of the plain name. *)
Lemma resolver_candidate_search_witness :
  fst (resolve_fs_path "/littlefs" demo_fs (Some "/page.html")) =
    spec_select "/littlefs" demo_fs ["/page.html"; "/page.htm"] /\
  fst (resolve_fs_path "/littlefs" demo_fs (Some "/page.html")) =
    Some (mkAsset "/littlefs/page.html.gz" "text/html; charset=utf-8" true).
Proof.
  destruct (resolver_candidate_search "/littlefs" demo_fs "/page.html"
              eq_refl eq_refl) as (_ & Hsel & _).
  split; [exact Hsel | reflexivity].
Defined.

(** C4, on the request of the specification. *)
Lemma resolver_rejects_dotdot_witness :
  resolve_fs_path "/littlefs" demo_fs (Some "/../secret") = (None, []).
Proof.
  apply (resolver_rejects_dotdot "/littlefs" demo_fs "/../secret").
  exists "/", "/secret". reflexivity.
Defined.

(** C9, on the page stored plain and compressed. *)
Lemma resolver_gz_suffix_same_witness :
  resolve_fs_path "/littlefs" demo_fs (Some "/page.html.gz") =
  resolve_fs_path "/littlefs" demo_fs (Some "/page.html").
Proof.
  exact (resolver_gz_suffix_same "/littlefs" demo_fs "/page.html"
           eq_refl eq_refl eq_refl eq_refl eq_refl).
Defined.

(** C5 as stated fails: the first mount attempt fails and the call
    answers "not supported"; the next call mounts again, succeeds and
    serves the file. *)
Lemma mount_retry_counterexample :
  let e := env_of [reply_fail] reply_ok in
  let o1 := exec (demo_try_serve demo_fs "/page.html") e 0 world_ready in
  let o2 := exec (demo_try_serve demo_fs "/page.html") e (nxt o1) (fin o1) in
  res o1 = ESP_ERR_NOT_SUPPORTED /\
  evs o1 = [EvLittlefsRegister "/littlefs" "littlefs"] /\
  s_fs_mounted (fin o1) = false /\
  existsb is_littlefs_register (evs o2) = true /\
  res o2 = ESP_OK /\
  s_fs_mounted (fin o2) = true.
Proof. vm_compute. repeat split; reflexivity. Qed.

(** C5, as the code has it, on the failed first attempt of that run. *)
Lemma mount_memo_spec_witness :
  let e := env_of [reply_fail] reply_ok in
  let o := exec (demo_try_serve demo_fs "/page.html") e 0 world_ready in
  res o = ESP_ERR_NOT_SUPPORTED /\ s_fs_mounted (fin o) = false.
Proof.
  cbv zeta.
  assert (Hu : req_uri (mkReq "/page.html") <> "") by discriminate.
  pose proof (mount_memo_spec true "/littlefs" "littlefs" demo_fs
                (mkReq "/page.html") (env_of [reply_fail] reply_ok) 0
                world_ready eq_refl Hu eq_refl) as H.
  cbv zeta in H. destruct H as (_ & Hretry & Hfail).
  assert (Hne : res (exec (ensure_fs_mounted "/littlefs" "littlefs")
                          (env_of [reply_fail] reply_ok) 0 world_ready)
                <> ESP_OK) by (vm_compute; discriminate).
  destruct (Hfail Hne) as (Hres & _ & Hfin).
  split; [exact Hres|]. unfold demo_try_serve. rewrite Hfin.
  destruct (Hretry eq_refl) as (_ & _ & Hm). rewrite Hm. reflexivity.
Defined.

(** C6, while a start-up is in flight and the bit is not yet set. *)
Lemma wait_until_running_spec_witness :
  let o := exec (wait_until_running 0%Z) (env_of [] reply_ok) 0
                (world_in STARTING (Some 0)) in
  res o = ESP_ERR_TIMEOUT /\ evs o = [EvWaitBits 0%Z].
Proof.
  cbv zeta.
  pose proof (wait_until_running_spec 0%Z (env_of [] reply_ok) 0
                (world_in STARTING (Some 0))) as H.
  cbv zeta in H. destruct H as (_ & _ & H & _).
  specialize (H eq_refl eq_refl).
  change (s_state _) with STARTING in H.
  cbv iota in H. destruct H as (Hev & Hfin & Hres).
  split; [|exact Hev]. rewrite Hres, Hfin. reflexivity.
Defined.

(** C6 as stated fails: on the first call into the module, when the
    mutex cannot be created, the state is [STOPPED] and the answer is
    [ESP_FAIL], not the invalid-state signal. *)
Lemma wait_without_mutex_counterexample :
  let o := exec (wait_until_running 0%Z) (env_of [reply_fail] reply_ok) 0
                world0 in
  s_state world0 = STOPPED /\ s_state (fin o) = STOPPED /\
  res o = ESP_FAIL /\ res o <> ESP_ERR_INVALID_STATE.
Proof. vm_compute. repeat split; discriminate. Qed.

(** C7, on a second registration that the engine refuses. *)
Lemma register_uri_spec_witness :
  let e := env_of [reply_ok; reply_ok;
                   mkReply ESP_ERR_HTTPD_HANDLER_EXISTS true false 1024]
                  reply_ok in
  res (exec (register_uri (Some "/api/ping") HTTP_GET (Some (user_fn 0)))
            e 0 (world_in RUNNING (Some 0)))
  = ESP_ERR_HTTPD_HANDLER_EXISTS.
Proof.
  cbv zeta.
  pose proof (register_uri_spec (Some "/api/ping") HTTP_GET (Some (user_fn 0))
                (env_of [reply_ok; reply_ok;
                         mkReply ESP_ERR_HTTPD_HANDLER_EXISTS true false 1024]
                        reply_ok)
                0 (world_in RUNNING (Some 0))) as H.
  cbv zeta in H. destruct H as (_ & _ & H & _).
  specialize (H "/api/ping" (user_fn 0) eq_refl eq_refl).
  change (res (exec ensure_mutex _ _ _)) with true in H.
  change (s_mutex _) with true in H.
  change (s_state _) with RUNNING in H.
  change (s_server _) with (Some 0) in H.
  cbv iota in H. cbn [andb] in H.
  destruct H as (Hres & _). rewrite Hres. reflexivity.
Defined.

(** C7 as stated fails: on the first call into the module, when the
    mutex cannot be created, the state is not [RUNNING] and the answer of
    both functions is [ESP_FAIL], not the invalid-state signal. *)
Lemma register_without_mutex_counterexample :
  let e := env_of [reply_fail] reply_ok in
  let o := exec (register_uri (Some "/api/ping") HTTP_GET (Some (user_fn 0)))
                e 0 world0 in
  let u := exec (unregister_uri (Some "/api/ping") HTTP_GET) e 0 world0 in
  s_state world0 = STOPPED /\ s_server world0 = None /\
  res o = ESP_FAIL /\ res o <> ESP_ERR_INVALID_STATE /\
  res u = ESP_FAIL /\ res u <> ESP_ERR_INVALID_STATE.
Proof. vm_compute. repeat split; discriminate. Qed.

(** C8, on a volume without an index page. *)
Lemma root_alias_and_fallback_witness :
  logical_path "/docs/" = "/docs/index.html" /\
  filter is_response_event
         (evs (exec (demo_handle_root empty_fs "/")
                    (env_of [] reply_ok) 0 world_ready))
  = embedded_root_response demo_root.
Proof.
  destruct (root_alias_and_fallback true "/littlefs" "littlefs" demo_root
              empty_fs "/littlefs" empty_fs "/docs/" (mkReq "/")
              (env_of [] reply_ok) 0 world_ready) as (_ & Hdir & Hfall).
  split.
  - apply (Hdir eq_refl eq_refl eq_refl).
  - apply Hfall; [discriminate | reflexivity].
Defined.

(** C10 as stated fails: the file opens, the first chunk cannot be
    sent, and the 500 response of the root handler goes out on a request
    that already carries the four cache headers. *)
Lemma stream_error_counterexample :
  let e := env_of [reply_ok; reply_ok; reply_ok; reply_ok; reply_ok;
                   reply_fail]
                  reply_ok in
  evs (exec (demo_handle_root demo_fs "/page.html") e 0 world_ready) =
  [EvLittlefsRegister "/littlefs" "littlefs"; EvLittlefsInfo "littlefs";
   EvFileExists "/littlefs/page.html.gz";
   EvFopen "/littlefs/page.html.gz" true;
   EvRespSetType "text/html; charset=utf-8";
   EvRespSetHdr "Content-Encoding" "gzip";
   EvRespSetHdr "Cache-Control" "no-cache, no-store, must-revalidate";
   EvRespSetHdr "Pragma" "no-cache";
   EvRespSetHdr "Expires" "0";
   EvRespSetHdr "Vary" "Accept-Encoding";
   EvRespSendChunk (Some "gzip-bytes");
   EvFclose;
   EvRespSetStatus "500 Internal Server Error";
   EvRespSetType "text/plain; charset=utf-8";
   EvRespSend ("Internal file server error" ++ LF)%string] /\
  existsb (existsb is_cache_header)
          (prefixes_before is_status_500 []
             (evs (exec (demo_handle_root demo_fs "/page.html") e 0
                        world_ready))) = true.
Proof. vm_compute. split; reflexivity. Qed.

(** C10, as the code has it, on that run: the 500 response is preceded
    by the cache headers because it is preceded by the successful
    open. *)
Lemma cache_headers_spec_witness :
  let e := env_of [reply_ok; reply_ok; reply_ok; reply_ok; reply_ok;
                   reply_fail]
                  reply_ok in
  Forall (fun pre => existsb is_cache_header pre =
                     existsb (is_fopen true) pre)
         (prefixes_before is_status_500 []
            (evs (exec (demo_handle_root demo_fs "/page.html") e 0
                       world_ready))).
Proof.
  cbv zeta.
  apply (cache_headers_spec true "/littlefs" "littlefs" demo_root demo_fs
           (mkReq "/page.html")).
Defined.


(** * Concrete instances of the further properties *)

(** A worker blocked in its wait with two notifications pending. *)
Definition world_waiting (exit_now : bool) : world :=
  set_tasks [mkTask T_WAIT 2]
            (set_s_task (Some 0) (set_s_task_exit exit_now world_ready)).

(** X2, on a script in a directory. *)
Lemma content_type_by_suffix_witness :
  content_type_for_path ("/www/js/" ++ "app.js") =
  content_type_for_path "app.js".
Proof. apply (content_type_by_suffix "/www/js/" "app.js"). cbn. lia. Defined.

(** X3, on the page stored plain and compressed. *)
Lemma resolve_fs_path_sound_witness :
  exists u c,
    Some "/page.html" = Some u /\
    In c (candidates (logical_path u)) /\
    file_exists demo_fs ("/littlefs" ++ c ++ ".gz") = true.
Proof.
  destruct (resolve_fs_path_sound "/littlefs" demo_fs (Some "/page.html")
              (mkAsset "/littlefs/page.html.gz" "text/html; charset=utf-8"
                       true) eq_refl)
    as (u & c & Hu & Hc & _ & _ & _ & Hex & [[_ Hp] | [Hgz _]]).
  - exists u, c. split; [exact Hu|]. split; [exact Hc|].
    cbn [out_full_path] in Hex, Hp. rewrite <- Hp. exact Hex.
  - discriminate Hgz.
Defined.

(** X5, on a path without the leading separator. *)
Lemma resolve_fs_path_unrooted_witness :
  resolve_fs_path "/littlefs" demo_fs (Some "page.html") = (None, []).
Proof.
  apply (resolve_fs_path_unrooted "/littlefs" demo_fs (Some "page.html")).
  right. exists "page.html". split; reflexivity.
Defined.

(** X6, on the page of the demonstration volume. *)
Lemma resolve_fs_path_alias_witness :
  out_ctype (mkAsset "/littlefs/page.html.gz" "text/html; charset=utf-8" true)
  = "text/html; charset=utf-8" /\
  (fst (resolve_fs_path "/littlefs" empty_fs (Some "/page.html")) = None <->
   fst (resolve_fs_path "/littlefs" empty_fs (Some "/page.htm")) = None).
Proof.
  split.
  - apply (resolve_fs_path_alias "/littlefs" demo_fs "/page"
             (mkAsset "/littlefs/page.html.gz" "text/html; charset=utf-8"
                      true) eq_refl eq_refl).
    right. reflexivity.
  - apply (resolve_fs_path_alias "/littlefs" empty_fs "/page"
             (mkAsset "" "" false) eq_refl eq_refl).
Defined.


(** A read that delivers five bytes of the seventeen ends the stream as
    the end of the file would: one chunk, the close, the terminating
    chunk, and the result [ESP_OK]. *)
Example short_read_ends_stream :
  let e := env_of [reply_ok; reply_ok; reply_ok;
                   mkReply ESP_OK true false 5] reply_ok in
  let o := exec (send_file_stream demo_fs "/littlefs/page.html"
                                  "text/html; charset=utf-8" false)
                e 0 world_ready in
  res o = ESP_OK /\
  filter is_stream_event (evs o) =
    [EvRespSendChunk (Some "<html"); EvFclose; EvRespSendChunk None].
Proof. vm_compute. split; reflexivity. Qed.

(** X10, on an empty volume. *)
Lemma favicon_fallback_witness :
  filter is_response_event
         (evs (exec (handle_favicon_ico true "/littlefs" "littlefs" "icon"
                                        empty_fs (Some (mkReq "/favicon.ico")))
                    (env_of [] reply_ok) 0 world_ready))
  = embedded_favicon_response "icon".
Proof.
  assert (Hu : req_uri (mkReq "/favicon.ico") <> "") by discriminate.
  apply (favicon_fallback true "/littlefs" "littlefs" "icon" empty_fs
           (mkReq "/favicon.ico") (env_of [] reply_ok) 0 world_ready Hu
           eq_refl).
Defined.

(** X11, in a build with LittleFS switched off. *)
Lemma handlers_without_littlefs_witness :
  evs (exec (handle_root false "/littlefs" "littlefs" demo_root demo_fs
                         (Some (mkReq "/page.html")))
            (env_of [] reply_ok) 0 world_ready)
  = embedded_root_response demo_root.
Proof.
  apply (handlers_without_littlefs false "/littlefs" "littlefs" demo_root
           "icon" demo_fs None (mkReq "/page.html") (env_of [] reply_ok) 0
           world_ready eq_refl).
Defined.

(** X12, on a first call in which the event group cannot be created:
    the mutex just created is gone again. *)
Lemma ensure_mutex_outcome_witness :
  let o := exec ensure_mutex (env_of [reply_ok; reply_fail] reply_ok) 0
                world0 in
  res o = false /\ s_mutex (fin o) = false.
Proof.
  cbv zeta.
  destruct (ensure_mutex_outcome (env_of [reply_ok; reply_fail] reply_ok) 0
              world0 (env_of_undisturbed _ _)) as (Hres & _ & _ & Hfail).
  rewrite <- Hres. split; apply Hfail; reflexivity.
Defined.

(** X14, on a running module whose worker never leaves: [stop] still
    ends in [STOPPED]. *)
Lemma stop_spec_witness :
  let o := exec (stop tick_1kHz) (env_of [] reply_ok) 0
                (world_in RUNNING (Some 0)) in
  s_state (fin o) = STOPPED /\ ready_bit (fin o) = false.
Proof.
  cbv zeta.
  destruct (stop_spec tick_1kHz (env_of [] reply_ok) 0
              (world_in RUNNING (Some 0))
              (later_call_ensure_ok [] reply_ok RUNNING (Some 0))
              (env_of_keeps_substrate [] reply_ok)) as [_ H].
  destruct H as (Hst & Hbit & _); [discriminate|].
  split; [exact Hst | exact Hbit].
Defined.

(** X15, on a start in which the third registration is refused: its
    error is the answer, and the engine started is stopped again. *)
Lemma start_server_outcome_witness :
  let e := env_of [reply_ok; reply_ok; reply_ok; reply_ok;
                   mkReply ESP_ERR_HTTPD_HANDLER_EXISTS true false 1024]
                  reply_ok in
  let o := exec (start_server 7%Z true "/littlefs" "littlefs") e 0
                (world_in STARTING None) in
  res o = ESP_ERR_HTTPD_HANDLER_EXISTS /\ s_server (fin o) = None.
Proof.
  cbv zeta.
  destruct (start_server_outcome 7%Z true "/littlefs" "littlefs"
              (env_of [reply_ok; reply_ok; reply_ok; reply_ok;
                       mkReply ESP_ERR_HTTPD_HANDLER_EXISTS true false 1024]
                      reply_ok) 0 (world_in STARTING None)
              (env_of_undisturbed _ _) eq_refl) as (Hiff & _ & Hnew).
  destruct (Hnew eq_refl) as [_ Hreg].
  destruct (Hreg eq_refl) as (k & Hk & _ & _ & _ & Hok).
  destruct (Hok eq_refl) as (Hbefore & Hfail & Hall). clear Hok Hreg Hnew.
  set (o := exec (start_server 7%Z true "/littlefs" "littlefs") _ _ _) in *.
  assert (Hres : res o <> ESP_OK).
  { intros E. specialize (Hall E 2). cbn in Hall.
    discriminate Hall. lia. }
  destruct (Hfail Hres) as (j & -> & Hj).
  assert (E : res o = ESP_ERR_HTTPD_HANDLER_EXISTS).
  { destruct j as [|[|[|j]]].
    - exfalso. apply Hres. symmetry. exact Hj.
    - exfalso. apply Hres. symmetry. exact Hj.
    - symmetry. exact Hj.
    - specialize (Hbefore 2). cbn in Hbefore. discriminate Hbefore. lia. }
  split; [exact E|].
  destruct (s_server (fin o)) eqn:Es; [|reflexivity].
  exfalso. apply Hres, Hiff. discriminate.
Defined.

(** X16, on the creation of the first worker. *)
Lemma start_worker_task_outcome_witness :
  let o := exec start_worker_task (env_of [] reply_ok) 0 world_ready in
  s_task (fin o) = Some 0 /\ tasks (fin o) = [mkTask T_ENTRY 0].
Proof.
  cbv zeta.
  destruct (start_worker_task_outcome (env_of [] reply_ok) 0 world_ready)
    as [_ H].
  destruct (H (env_of_undisturbed _ _) eq_refl) as (_ & _ & Hnew).
  destruct (Hnew eq_refl) as (_ & _ & Hok & _).
  exact (Hok eq_refl).
Defined.

(** X17, with the exit flag set. *)
Lemma worker_wake_up_witness :
  exists w',
    run_task 0 3 (world_waiting true) = Some w' /\
    s_task w' = None /\ ready_bit w' = false /\
    s_state w' = s_state (world_waiting true) /\
    nth_error (tasks w') 0 = Some (mkTask T_DELETED 0) /\
    http_srv_task 0 w' = None.
Proof.
  exact (worker_wake_up 0 1 (world_waiting true) eq_refl eq_refl eq_refl).
Defined.


(** X19, while a start is in flight. *)
Lemma is_running_spec_witness :
  res (exec is_running (env_of [] reply_ok) 0 (world_in STARTING (Some 0)))
  <> true.
Proof.
  destruct (is_running_spec (env_of [] reply_ok) 0
              (world_in STARTING (Some 0))
              (later_call_ensure_ok [] reply_ok STARTING (Some 0))
              (env_of_keeps_substrate [] reply_ok)) as [Hiff _].
  intros H. apply Hiff in H. discriminate H.
Defined.

(** X20, while a start is in flight: only the internal registration
    reaches the engine. *)
Lemma register_uri_internal_vs_public_witness :
  let e := env_of [] reply_ok in
  let w := world_in STARTING (Some 0) in
  res (exec (register_uri (Some "/api/ping") HTTP_GET (Some (user_fn 0)))
            e 0 w) = ESP_ERR_INVALID_STATE /\
  evs (exec (register_uri_internal (Some "/api/ping") HTTP_GET
                                   (Some (user_fn 0))) e 2 w)
  = [EvRegisterUri 0 "/api/ping" HTTP_GET (user_fn 0)].
Proof.
  cbv zeta.
  destruct (register_uri_internal_vs_public "/api/ping" HTTP_GET (user_fn 0)
              (env_of [] reply_ok) 0 (world_in STARTING (Some 0))
              (later_call_ensure_ok [] reply_ok STARTING (Some 0))
              (env_of_keeps_substrate [] reply_ok)) as (_ & _ & _ & H).
  destruct (H eq_refl 0 eq_refl) as (Hres & _ & _ & Hevs).
  split; [exact Hres | exact Hevs].
Defined.
